(** * lukso-orchestrator: verified-slot store, slot cache and Vanguard subscriber

    A shallow embedding of
    - [orchestrator/db/kv] (verified slot infos and the two cursors),
    - [orchestrator/vanguardchain] (the two stream handlers),
    - the bounded slot cache of [orchestrator/cache],
    together with the properties the specification states about them. *)

From Stdlib Require Import ZArith Lia Bool.
From stdpp Require Import base option list gmap strings pretty.

Local Open Scope Z_scope.

(** ** Go values *)

(** A [[]byte] is a list of 8-bit integers. *)
Abbreviation bytes := (list Z).

(** [uint64] arithmetic wraps around. *)
Definition MaxUint64 : Z := 18446744073709551615.
Definition wrap64 (z : Z) : Z := z mod 2 ^ 64.
Definition is_uint64 (z : Z) : Prop := 0 <= z <= MaxUint64.

(** The errors that occur: the package's [errInvalidSlot] ("invalid slot and
    not found any verified slot info for the given slot"), bolt's errors, the
    codec's, any other, and [errors.Wrap]. *)
Inductive error : Type :=
  | errInvalidSlot
  | ErrKeyRequired
  | ErrKeyTooLarge
  | ErrValueTooLarge
  | ErrCodec (msg : string)
  | ErrOther (msg : string)
  | Wrap (cause : error) (msg : string).

(** How a call ends: normally with a value, or with a run-time panic. *)
Inductive completion (A : Type) : Type :=
  | Return (a : A)
  | Panic (msg : string).
Arguments Return {A} a.
Arguments Panic {A} msg.

Module bytesutil.

(** The byte [byte(i >> shift)]. *)
Definition byte_at (i : Z) (shift : Z) : Z := Z.land (Z.shiftr i shift) 255.

(** Modelled from the spec: [shared/bytesutil] is not among the sources;
    keys are "big-endian u64", i.e. [binary.BigEndian.PutUint64] into a
    fresh 8-byte slice. *)
Definition Uint64ToBytesBigEndian (i : Z) : bytes :=
    [ byte_at i 56; byte_at i 48; byte_at i 40; byte_at i 32;
      byte_at i 24; byte_at i 16; byte_at i 8; byte_at i 0 ].

(** Modelled from the spec: the inverse reading, [binary.BigEndian.Uint64]
    of the first eight bytes; a slice shorter than eight bytes reads as 0. *)
Definition BytesToUint64BigEndian (b : bytes) : Z :=
    match b with
    | b0 :: b1 :: b2 :: b3 :: b4 :: b5 :: b6 :: b7 :: _ =>
        Z.lor (Z.shiftl b0 56) (Z.lor (Z.shiftl b1 48) (Z.lor (Z.shiftl b2 40)
        (Z.lor (Z.shiftl b3 32) (Z.lor (Z.shiftl b4 24) (Z.lor (Z.shiftl b5 16)
        (Z.lor (Z.shiftl b6 8) b7))))))
    | _ => 0
    end.

End bytesutil.

Module common.

  (** go-ethereum's [common.Hash] is a [[32]byte]. *)
Definition HashLength : nat := 32.
Abbreviation Hash := (list Z).

Definition wf_hash (h : Hash) : Prop := length h = HashLength.

  (** [BytesToHash]: keep the last 32 bytes, left-pad with zeros. *)
Definition BytesToHash (b : bytes) : Hash :=
    let b' := if (HashLength <? length b)%nat
              then drop (length b - HashLength) b else b in
    replicate (HashLength - length b') 0 ++ b'.

  (** [Hash.Bytes]. *)
Definition Bytes (h : Hash) : bytes := h.

  (** The zero value of the array type. *)
Definition ZeroHash : Hash := replicate HashLength 0.

End common.

Module bolt.

  (** A bucket of boltdb: a finite map from byte keys to byte values. *)
Abbreviation Bucket := (gmap bytes bytes).

Definition MaxKeySize : Z := 32768.
Definition MaxValueSize : Z := 2147483646.

  (** [Bucket.Get]: [nil] (here [None]) when the key is absent. *)
Definition Get (b : Bucket) (key : bytes) : option bytes := b !! key.

  (** [Bucket.Put] inside a writable transaction. *)
Definition Put (b : Bucket) (key value : bytes) : error + Bucket :=
    if decide (key = []) then inl ErrKeyRequired
    else if MaxKeySize <? Z.of_nat (length key) then inl ErrKeyTooLarge
    else if MaxValueSize <? Z.of_nat (length value) then inl ErrValueTooLarge
    else inr (<[key := value]> b).

End bolt.

Module types.

Inductive Status : Type := Pending | Verified | Invalid | Skipped.

  (** Modelled from the spec: the declaration of [types.SlotInfo] is not among
      the sources. The store reads its [PandoraHeaderHash] field (the spec's
      [exec_header_hash]); [Slot] and [SlotStatus] are the other two fields of
      the spec's slot verdict. *)
Record SlotInfo : Type := {
    Slot : Z;
    PandoraHeaderHash : common.Hash;
    SlotStatus : Status
  }.

  (** A [*types.SlotInfo]; [None] is the nil pointer. *)
Abbreviation SlotInfoPtr := (option SlotInfo).

Record MinimalEpochConsensusInfo : Type := {
    Epoch : Z;
    ValidatorList : list string;
    EpochStartTime : Z;
    SlotTimeDuration : Z
  }.

  (** The fields [OnNewPendingVanguardBlock] fills in. *)
Record HeaderHash : Type := {
    HeaderHash_ : common.Hash;
    Status_ : Status;
    BlockNumber : Z;
    Signature : bytes;
    StateRoot : bytes;
    ReceiptHash : bytes;
    TxHash : bytes;
    ParentHash : bytes
  }.

End types.

(** ** The key-value store ([orchestrator/db/kv]) *)

Module kv.
Import types.

  (** ristretto's [Cache.Get] and [Cache.Set] as the store calls them. [Get]
      yields the stored [interface{}] ([None] is the nil interface) and the
      found flag; [Set] may refuse an entry and reports so. *)
Class Ristretto (C : Type) : Type := {
    rGet : C -> Z -> option SlotInfoPtr * bool;
    rSet : C -> Z -> SlotInfoPtr -> Z -> C * bool
  }.

  (** The open bolt database: the buckets [createBuckets] made at start-up. *)
Record DB : Type := {
    consensusInfosBucket : bolt.Bucket;
    verifiedSlotInfosBucket : bolt.Bucket
  }.

Definition bytes_of_string (s : string) : bytes :=
    (fun a => Z.of_N (Ascii.N_of_ascii a)) <$> String.list_ascii_of_string s.

  (** Modelled from the spec: the schema constants are not among the sources;
      the persisted layout names the fixed keys "latest-verified-slot" and
      "latest-header-hash". *)
Definition latestSavedVerifiedSlotKey : bytes :=
    Eval cbv in bytes_of_string "latest-verified-slot".
Definition latestHeaderHashKey : bytes :=
    Eval cbv in bytes_of_string "latest-header-hash".
  (** Modelled from the spec: the epoch cursor is persisted like the other two;
      the spec does not name its key, a third fixed string is taken. *)
Definition latestSavedEpochKey : bytes :=
    Eval cbv in bytes_of_string "latest-epoch".

Definition EmptyHash : common.Hash := common.ZeroHash.

Record Store (C : Type) : Type := {
    isRunning : bool;
    db : DB;
    verifiedSlotInfoCache : C;
    latestEpoch : Z;
    latestVerifiedSlot : Z;
    latestHeaderHash : common.Hash
  }.
Arguments isRunning {C} _.
Arguments db {C} _.
Arguments verifiedSlotInfoCache {C} _.
Arguments latestEpoch {C} _.
Arguments latestVerifiedSlot {C} _.
Arguments latestHeaderHash {C} _.

Section Accessors.
Context {C : Type} `{!Ristretto C}.

    (** [encode] and [decode] of the package (not among the sources) are
        parameters. [decode value &dst] leaves a pointer in [dst] and returns
        an error. *)
Variable encode : SlotInfoPtr -> error + bytes.
Variable decode : bytes -> SlotInfoPtr * option error.

Definition set_cache (s : Store C) (c : C) : Store C :=
      {| isRunning := isRunning s; db := db s; verifiedSlotInfoCache := c;
         latestEpoch := latestEpoch s;
         latestVerifiedSlot := latestVerifiedSlot s;
         latestHeaderHash := latestHeaderHash s |}.

Definition set_db (s : Store C) (d : DB) : Store C :=
      {| isRunning := isRunning s; db := d;
         verifiedSlotInfoCache := verifiedSlotInfoCache s;
         latestEpoch := latestEpoch s;
         latestVerifiedSlot := latestVerifiedSlot s;
         latestHeaderHash := latestHeaderHash s |}.

Definition set_latestVerifiedSlot (s : Store C) (slot : Z) : Store C :=
      {| isRunning := isRunning s; db := db s;
         verifiedSlotInfoCache := verifiedSlotInfoCache s;
         latestEpoch := latestEpoch s;
         latestVerifiedSlot := slot;
         latestHeaderHash := latestHeaderHash s |}.

Definition set_latestHeaderHash (s : Store C) (h : common.Hash) : Store C :=
      {| isRunning := isRunning s; db := db s;
         verifiedSlotInfoCache := verifiedSlotInfoCache s;
         latestEpoch := latestEpoch s;
         latestVerifiedSlot := latestVerifiedSlot s;
         latestHeaderHash := h |}.

Definition set_isRunning (s : Store C) (b : bool) : Store C :=
      {| isRunning := b; db := db s;
         verifiedSlotInfoCache := verifiedSlotInfoCache s;
         latestEpoch := latestEpoch s;
         latestVerifiedSlot := latestVerifiedSlot s;
         latestHeaderHash := latestHeaderHash s |}.

Definition set_verifiedBucket (d : DB) (b : bolt.Bucket) : DB :=
      {| consensusInfosBucket := consensusInfosBucket d;
         verifiedSlotInfosBucket := b |}.

Definition set_consensusBucket (d : DB) (b : bolt.Bucket) : DB :=
      {| consensusInfosBucket := b;
         verifiedSlotInfosBucket := verifiedSlotInfosBucket d |}.

    (** [VerifiedSlotInfo]: the pair [(slotInfo, err)] the method returns. *)
Definition VerifiedSlotInfo (s : Store C) (slot : Z)
      : SlotInfoPtr * option error :=
      match rGet (verifiedSlotInfoCache s) slot with
      | (Some v, true) => (v, None)
      | _ =>
          let bkt := verifiedSlotInfosBucket (db s) in
          let key := bytesutil.Uint64ToBytesBigEndian slot in
          match bolt.Get bkt key with
          | None => (None, None)
          | Some value => decode value
          end
      end.

    (** A slot has a stored verdict when the cache holds a slot info for it or
    the bucket holds a value under its key. *)
Definition stored_verdict (s : Store C) (slot : Z) : Prop :=
  (exists si, rGet (verifiedSlotInfoCache s) slot = (Some (Some si), true))
  \/ is_Some (bolt.Get (verifiedSlotInfosBucket (db s))
                       (bytesutil.Uint64ToBytesBigEndian slot)).

(** [LatestSavedVerifiedSlot]: the local variable starts at zero and is
        assigned only inside [if !s.isRunning]. *)
Definition LatestSavedVerifiedSlot (s : Store C) : Z :=
      let latestSavedVerifiedSlot := 0 in
      if negb (isRunning s) then
        let bkt := verifiedSlotInfosBucket (db s) in
        match bolt.Get bkt latestSavedVerifiedSlotKey with
        | None => 0
        | Some slotBytes => bytesutil.BytesToUint64BigEndian slotBytes
        end
      else latestSavedVerifiedSlot.

Definition InMemoryLatestVerifiedSlot (s : Store C) : Z :=
      latestVerifiedSlot s.

    (** [LatestVerifiedHeaderHash]: same shape, the zero value of
        [common.Hash] when the branch is not taken. *)
Definition LatestVerifiedHeaderHash (s : Store C) : common.Hash :=
      let latestHeaderHash := common.ZeroHash in
      if negb (isRunning s) then
        let bkt := verifiedSlotInfosBucket (db s) in
        match bolt.Get bkt latestHeaderHashKey with
        | None => EmptyHash
        | Some latestHeaderHashBytes => common.BytesToHash latestHeaderHashBytes
        end
      else latestHeaderHash.

Definition InMemoryLatestVerifiedHeaderHash (s : Store C) : common.Hash :=
      latestHeaderHash s.

    (** The body of the [for slot := fromSlot; slot <= latestVerifiedSlot;
        slot++] loop of [VerifiedSlotInfos]; [fuel] bounds the number of
        iterations, [None] means the bound was reached before the loop
        condition failed. The counter is a [uint64]: [slot++] wraps. *)
Fixpoint slotInfos_loop (fuel : nat) (s : Store C) (latestVerifiedSlot : Z)
        (slot : Z) (slotInfos : gmap Z SlotInfoPtr)
      : option (gmap Z SlotInfoPtr) :=
      match fuel with
      | O => None
      | S fuel' =>
          if slot <=? latestVerifiedSlot then
            let next := slotInfos_loop fuel' s latestVerifiedSlot
                          (wrap64 (slot + 1)) in
            match fst (rGet (verifiedSlotInfoCache s) slot) with
            | Some v => next (<[slot := v]> slotInfos)
            | None =>
                let key := bytesutil.Uint64ToBytesBigEndian slot in
                match bolt.Get (verifiedSlotInfosBucket (db s)) key with
                | None => next slotInfos
                | Some enc =>
                    let slotInfo := fst (decode enc) in
                    next (<[slot := slotInfo]> slotInfos)
                end
            end
          else Some slotInfos
      end.

    (** What one slot of the range holds: the cached pointer when the cache has
    one, else the decoded bucket value when the bucket has one. *)
Definition range_entry (s : Store C) (k : Z) : option SlotInfoPtr :=
  match fst (rGet (verifiedSlotInfoCache s) k) with
  | Some v => Some v
  | None =>
      match bolt.Get (verifiedSlotInfosBucket (db s))
              (bytesutil.Uint64ToBytesBigEndian k) with
      | Some enc => Some (fst (decode enc))
      | None => None
      end
  end.

(** [VerifiedSlotInfos]: [Some (m, err)] is the returned pair ([m = None]
        is the nil map); [None] when [fuel] iterations did not end the loop. *)
Definition VerifiedSlotInfos (fuel : nat) (s : Store C) (fromSlot : Z)
      : option (option (gmap Z SlotInfoPtr) * option error) :=
      let latestVerifiedSlot := LatestSavedVerifiedSlot s in
      if latestVerifiedSlot <? fromSlot then
        Some (None, Some (Wrap errInvalidSlot ("fromSlot: " +:+ pretty fromSlot)))
      else
        match slotInfos_loop fuel s latestVerifiedSlot fromSlot ∅ with
        | None => None
        | Some slotInfos => Some (Some slotInfos, None)
        end.

    (** [SaveVerifiedSlotInfo]: the closure runs in one [db.Update]; an error
        return rolls the bucket write back, the cache and the fields of [s]
        are ordinary memory. A nil [slotInfo] is dereferenced on the last
        assignment. *)
Definition SaveVerifiedSlotInfo (s : Store C) (slot : Z)
        (slotInfo : SlotInfoPtr) : completion (option error) * Store C :=
      let bkt := verifiedSlotInfosBucket (db s) in
      let slotBytes := bytesutil.Uint64ToBytesBigEndian slot in
      match encode slotInfo with
      | inl err => (Return (Some err), s)
      | inr enc =>
          let '(c, _status) := rSet (verifiedSlotInfoCache s) slot slotInfo 0 in
          let s := set_cache s c in
          match bolt.Put bkt slotBytes enc with
          | inl err => (Return (Some err), s)
          | inr bkt' =>
              let s := set_latestVerifiedSlot s slot in
              match slotInfo with
              | None => (Panic "nil pointer dereference", s)
              | Some si =>
                  let s := set_latestHeaderHash s (PandoraHeaderHash si) in
                  (Return None, set_db s (set_verifiedBucket (db s) bkt'))
              end
          end
      end.

    (** [SaveLatestVerifiedSlot]: persists the in-memory cursor. *)
Definition SaveLatestVerifiedSlot (s : Store C) : option error * Store C :=
      let bkt := verifiedSlotInfosBucket (db s) in
      let slotBytes := bytesutil.Uint64ToBytesBigEndian (latestVerifiedSlot s) in
      match bolt.Put bkt latestSavedVerifiedSlotKey slotBytes with
      | inl err => (Some err, s)
      | inr bkt' => (None, set_db s (set_verifiedBucket (db s) bkt'))
      end.

    (** [SaveLatestVerifiedHeaderHash]: persists the in-memory hash. *)
Definition SaveLatestVerifiedHeaderHash (s : Store C)
      : option error * Store C :=
      let bkt := verifiedSlotInfosBucket (db s) in
      let headerHashBytes := common.Bytes (latestHeaderHash s) in
      match bolt.Put bkt latestHeaderHashKey headerHashBytes with
      | inl err => (Some err, s)
      | inr bkt' => (None, set_db s (set_verifiedBucket (db s) bkt'))
      end.

(** Modelled from the spec: [SaveLatestEpoch] and [LatestSavedEpoch] are not
    among the sources; the epoch cursor is kept "both in memory and
    persisted", written and read like the slot cursor, in the epochs bucket. *)
Definition SaveLatestEpoch (s : Store C) : option error * Store C :=
  let bkt := consensusInfosBucket (db s) in
  let epochBytes := bytesutil.Uint64ToBytesBigEndian (latestEpoch s) in
  match bolt.Put bkt latestSavedEpochKey epochBytes with
  | inl err => (Some err, s)
  | inr bkt' => (None, set_db s (set_consensusBucket (db s) bkt'))
  end.

(** Modelled from the spec: the epoch cursor read back from the bucket, zero
    in a new database. *)
Definition LatestSavedEpoch (s : Store C) : Z :=
  match bolt.Get (consensusInfosBucket (db s)) latestSavedEpochKey with
  | None => 0
  | Some epochBytes => bytesutil.BytesToUint64BigEndian epochBytes
  end.

(** Modelled from the spec: [Close] is not among the sources. The cursors
    are "kept both in memory and persisted" and are read "from disk" once the
    store is no longer open: closing writes the three in-memory cursors with
    the [SaveLatest...] methods and leaves the running state. *)
Definition Close (s : Store C) : option error * Store C :=
  match SaveLatestEpoch s with
  | (Some err, s) => (Some err, s)
  | (None, s) =>
      match SaveLatestVerifiedSlot s with
      | (Some err, s) => (Some err, s)
      | (None, s) =>
          match SaveLatestVerifiedHeaderHash s with
          | (Some err, s) => (Some err, s)
          | (None, s) => (None, set_isRunning s false)
          end
      end
  end.

(** Modelled from the spec: [NewKVStore] is not among the sources. Opening
    the database at a path whose content is [d], with a fresh cache [c]: the
    cursors are "recovered from [the store] on open", read with the accessors
    while the store is not yet running; then the store is open. *)
Definition NewKVStore (d : DB) (c : C) : Store C :=
  let s := {| isRunning := false; db := d; verifiedSlotInfoCache := c;
              latestEpoch := 0; latestVerifiedSlot := 0;
              latestHeaderHash := common.ZeroHash |} in
  {| isRunning := true; db := d; verifiedSlotInfoCache := c;
     latestEpoch := LatestSavedEpoch s;
     latestVerifiedSlot := LatestSavedVerifiedSlot s;
     latestHeaderHash := LatestVerifiedHeaderHash s |}.

End Accessors.

(** A cache that admits every entry, for concrete runs. *)
#[global] Instance MapCache : Ristretto (gmap Z SlotInfoPtr) := {
  rGet c k := match c !! k with Some v => (Some v, true) | None => (None, false) end;
  rSet c k v _ := (<[k := v]> c, true)
}.

(** Modelled from the spec: the codec is "implementation-chosen but must
    round-trip"; this one writes the fields one after the other (slot, status,
    hash) and is used for concrete runs only. *)
Definition status_code (st : Status) : Z :=
  match st with Pending => 0 | Verified => 1 | Invalid => 2 | Skipped => 3 end.

Definition status_of_code (z : Z) : option Status :=
  if z =? 0 then Some Pending else if z =? 1 then Some Verified
  else if z =? 2 then Some Invalid else if z =? 3 then Some Skipped else None.

Definition encode_fields (p : SlotInfoPtr) : error + bytes :=
  match p with
  | None => inl (ErrCodec "nil slot info")
  | Some si =>
      inr (bytesutil.Uint64ToBytesBigEndian (Slot si)
           ++ status_code (SlotStatus si) :: PandoraHeaderHash si)
  end.

Definition decode_fields (b : bytes) : SlotInfoPtr * option error :=
  match drop 8 b with
  | c :: h =>
      match status_of_code c with
      | Some st =>
          (Some {| Slot := bytesutil.BytesToUint64BigEndian (take 8 b);
                   PandoraHeaderHash := h; SlotStatus := st |}, None)
      | None => (None, Some (ErrCodec "bad status"))
      end
  | [] => (None, Some (ErrCodec "short input"))
  end.

End kv.


(** ** The bounded slot cache ([orchestrator/cache]) *)

Module cache.

(** [Get] of an absent slot fails with this error. *)
Definition errInvalidSlot : error := ErrOther "Invalid slot".

(** Modelled from the spec: the tunable [MaxCacheSize], "default 1024
    entries" (the test sets [1 << 10]). *)
Definition defaultMaxCacheSize : nat := 1024.

Section PanHeaderCache.
Variable T : Type.

(** Modelled from the spec: the cache implementation is not among the
    sources (only its test is). It is "a mapping slot -> T, capacity
    MaxCacheSize, eviction LRU": the entries are kept in order of use, most
    recently used first, and the capacity is fixed when the cache is made. *)
Record PanHeaderCache : Type := {
  capacity : nat;
  entries : list (Z * T)
}.

(** Modelled from the spec: a new cache is empty and takes the value of the
    tunable as its capacity. *)
Definition NewPanHeaderCache (maxCacheSize : nat) : PanHeaderCache :=
  {| capacity := maxCacheSize; entries := [] |}.

(** Modelled from the spec: the value kept for a slot, if any. *)
Definition lookup_slot (slot : Z) (es : list (Z * T)) : option T :=
  snd <$> List.find (fun e => fst e =? slot) es.

(** Modelled from the spec: the entries other than the one of [slot]. *)
Definition without_slot (slot : Z) (es : list (Z * T)) : list (Z * T) :=
  filter (fun e => fst e <> slot) es.

(** Modelled from the spec: "all entries with keys <= s are also dropped". *)
Definition drop_upto (s : Z) (es : list (Z * T)) : list (Z * T) :=
  filter (fun e => s < fst e) es.

(** Modelled from the spec: the entries once [slot] is (re)inserted as the
    most recently used one. *)
Definition inserted (c : PanHeaderCache) (slot : Z) (v : T) : list (Z * T) :=
  (slot, v) :: without_slot slot (entries c).

(** Modelled from the spec: the key an insertion pushes out, if any: the
    least recently used entry once the capacity is exceeded. *)
Definition evicted (c : PanHeaderCache) (slot : Z) (v : T) : option Z :=
  let es := inserted c slot v in
  if (capacity c <? length es)%nat then fst <$> last es else None.

(** Modelled from the spec: [Put(slot, v)]; "on eviction of slot s, all
    entries with keys <= s are also dropped". *)
Definition Put (c : PanHeaderCache) (slot : Z) (v : T) : PanHeaderCache :=
  let es := inserted c slot v in
  match evicted c slot v with
  | Some s => {| capacity := capacity c; entries := drop_upto s es |}
  | None => {| capacity := capacity c; entries := es |}
  end.

(** Modelled from the spec: [Get(slot) -> v or NotFound("Invalid slot")]; a
    hit makes the entry the most recently used one. *)
Definition Get (c : PanHeaderCache) (slot : Z)
  : (option T * option error) * PanHeaderCache :=
  match lookup_slot slot (entries c) with
  | Some v =>
      ((Some v, None),
       {| capacity := capacity c;
          entries := (slot, v) :: without_slot slot (entries c) |})
  | None => ((None, Some errInvalidSlot), c)
  end.

(** Modelled from the spec: "the same drop-all-<= semantics apply to an
    explicit [Remove(s)]". *)
Definition Remove (c : PanHeaderCache) (slot : Z) : PanHeaderCache :=
  {| capacity := capacity c; entries := drop_upto slot (entries c) |}.

(** Modelled from the spec: [GetAll() -> snapshot]. *)
Definition GetAll (c : PanHeaderCache) : list (Z * T) := entries c.

Definition size (c : PanHeaderCache) : nat := length (entries c).

(** The calls a client can make, and a run of them. *)
Inductive call : Type :=
  | CallPut (slot : Z) (v : T)
  | CallGet (slot : Z)
  | CallRemove (slot : Z).

Definition step (c : PanHeaderCache) (op : call) : PanHeaderCache :=
  match op with
  | CallPut slot v => Put c slot v
  | CallGet slot => snd (Get c slot)
  | CallRemove slot => Remove c slot
  end.

Definition run (c : PanHeaderCache) (ops : list call) : PanHeaderCache :=
  fold_left step ops c.

End PanHeaderCache.

Arguments capacity {T} _.
Arguments entries {T} _.
Arguments NewPanHeaderCache {T} _.
Arguments evicted {T} _ _ _.
Arguments Put {T} _ _ _.
Arguments Get {T} _ _.
Arguments Remove {T} _ _.
Arguments GetAll {T} _.
Arguments size {T} _.
Arguments CallPut {T} _ _.
Arguments CallGet {T} _.
Arguments CallRemove {T} _.
Arguments step {T} _ _.
Arguments run {T} _ _.

End cache.


(** ** The Vanguard subscriber's handlers ([orchestrator/vanguardchain]) *)

Module vanguardchain.
Import types.

(** [eth.PandoraShard] and [eth.BeaconBlock], the parts the handler reads.
    Pointers that may be nil are options. *)
Record PandoraShard : Type := {
  shard_BlockNumber : Z;
  shard_Signature : bytes;
  shard_StateRoot : bytes;
  shard_ReceiptHash : bytes;
  shard_TxHash : bytes;
  shard_ParentHash : bytes
}.

Record BeaconBlockBody : Type := {
  PandoraShard_ : list (option PandoraShard)
}.

Record BeaconBlock : Type := {
  block_Slot : Z;
  Body : option BeaconBlockBody
}.

(** The generated nil-safe getters. *)
Definition GetBody (b : BeaconBlock) : option BeaconBlockBody := Body b.

Definition GetPandoraShard (b : option BeaconBlockBody)
  : list (option PandoraShard) :=
  match b with
  | Some body => PandoraShard_ body
  | None => []
  end.

(** go-ethereum's [event.Feed]: [Send] hands the value to every subscriber
    and returns their number. *)
Record Feed (A : Type) : Type := {
  subscribers : nat;
  delivered : list A
}.
Arguments subscribers {A} _.
Arguments delivered {A} _.

Definition Send {A : Type} (f : Feed A) (v : A) : nat * Feed A :=
  (subscribers f,
   {| subscribers := subscribers f; delivered := delivered f ++ [v] |}).

(** The part of [db.Database] the handlers call. *)
Class Database (D : Type) : Type := {
  LatestVerifiedRealmSlot : D -> Z;
  SaveConsensusInfo : D -> MinimalEpochConsensusInfo -> option error * D;
  SaveVanguardHeaderHash : D -> Z -> HeaderHash -> option error * D
}.

Inductive Level : Type := TraceLevel | WarnLevel | ErrorLevel.

(** What a handler does to the outside, in program order. *)
Inductive Effect : Type :=
  | Log (lvl : Level) (msg : string)
  | ReadLatestVerifiedRealmSlot
  | ComputeHashTreeRoot
  | SendConsensusInfo (ci : MinimalEpochConsensusInfo)
  | SendPendingBlockHash (h : HeaderHash)
  | CallSaveConsensusInfo (ci : MinimalEpochConsensusInfo)
  | CallSaveVanguardHeaderHash (slot : Z) (h : HeaderHash).

(** Position of the first effect of a kind in a journal. *)
Fixpoint first_index (p : Effect -> bool) (j : list Effect) : option nat :=
  match j with
  | [] => None
  | e :: j' => if p e then Some O else S <$> first_index p j'
  end.

Definition is_send_ci (e : Effect) : bool :=
  match e with SendConsensusInfo _ => true | _ => false end.

Definition is_save_ci (e : Effect) : bool :=
  match e with CallSaveConsensusInfo _ => true | _ => false end.

(** "First saved, then sent": both happen, the save at the smaller position. *)
Definition saved_before_sent (j : list Effect) : bool :=
  match first_index is_save_ci j, first_index is_send_ci j with
  | Some a, Some b => (a <? b)%nat
  | _, _ => false
  end.

(** The service: its database and its two feeds; [journal] is a ghost field
    that records the effects in the order they happen. *)
Record Service (D : Type) : Type := {
  orchestratorDB : D;
  consensusInfoFeed : Feed MinimalEpochConsensusInfo;
  vanguardPendingBlockHashFeed : Feed HeaderHash;
  journal : list Effect
}.
Arguments orchestratorDB {D} _.
Arguments consensusInfoFeed {D} _.
Arguments vanguardPendingBlockHashFeed {D} _.
Arguments journal {D} _.

Section Handlers.
Context {D : Type} `{!Database D}.

(** [block.HashTreeRoot()] is the SSZ library's; a parameter. *)
Variable HashTreeRoot : BeaconBlock -> error + bytes.

(** A method on [*Service]: a state transformer. *)
Definition M (A : Type) : Type := Service D -> A * Service D.

Definition ret {A : Type} (a : A) : M A := fun s => (a, s).

Definition bind {A B : Type} (m : M A) (k : A -> M B) : M B :=
  fun s => let '(a, s') := m s in k a s'.

#[local] Instance M_ret : MRet M := @ret.
#[local] Instance M_bind : MBind M := fun A B k m => bind m k.

Definition record (e : Effect) : M unit := fun s =>
  (tt, {| orchestratorDB := orchestratorDB s;
          consensusInfoFeed := consensusInfoFeed s;
          vanguardPendingBlockHashFeed := vanguardPendingBlockHashFeed s;
          journal := journal s ++ [e] |}).

Definition log (lvl : Level) (msg : string) : M unit := record (Log lvl msg).

Definition db_LatestVerifiedRealmSlot : M Z := fun s =>
  (LatestVerifiedRealmSlot (orchestratorDB s),
   {| orchestratorDB := orchestratorDB s;
      consensusInfoFeed := consensusInfoFeed s;
      vanguardPendingBlockHashFeed := vanguardPendingBlockHashFeed s;
      journal := journal s ++ [ReadLatestVerifiedRealmSlot] |}).

Definition db_SaveConsensusInfo (ci : MinimalEpochConsensusInfo)
  : M (option error) := fun s =>
  let '(err, d) := SaveConsensusInfo (orchestratorDB s) ci in
  (err, {| orchestratorDB := d;
           consensusInfoFeed := consensusInfoFeed s;
           vanguardPendingBlockHashFeed := vanguardPendingBlockHashFeed s;
           journal := journal s ++ [CallSaveConsensusInfo ci] |}).

Definition db_SaveVanguardHeaderHash (slot : Z) (h : HeaderHash)
  : M (option error) := fun s =>
  let '(err, d) := SaveVanguardHeaderHash (orchestratorDB s) slot h in
  (err, {| orchestratorDB := d;
           consensusInfoFeed := consensusInfoFeed s;
           vanguardPendingBlockHashFeed := vanguardPendingBlockHashFeed s;
           journal := journal s ++ [CallSaveVanguardHeaderHash slot h] |}).

Definition feed_SendConsensusInfo (ci : MinimalEpochConsensusInfo)
  : M nat := fun s =>
  let '(n, f) := Send (consensusInfoFeed s) ci in
  (n, {| orchestratorDB := orchestratorDB s;
         consensusInfoFeed := f;
         vanguardPendingBlockHashFeed := vanguardPendingBlockHashFeed s;
         journal := journal s ++ [SendConsensusInfo ci] |}).

Definition feed_SendPendingBlockHash (h : HeaderHash) : M nat := fun s =>
  let '(n, f) := Send (vanguardPendingBlockHashFeed s) h in
  (n, {| orchestratorDB := orchestratorDB s;
         consensusInfoFeed := consensusInfoFeed s;
         vanguardPendingBlockHashFeed := f;
         journal := journal s ++ [SendPendingBlockHash h] |}).

(** [OnNewConsensusInfo]. *)
Definition OnNewConsensusInfo (consensusInfo : MinimalEpochConsensusInfo)
  : M unit :=
  nsent ← feed_SendConsensusInfo consensusInfo;
  log TraceLevel "Send consensus info to subscribers";;
  err ← db_SaveConsensusInfo consensusInfo;
  match err with
  | Some _ => log WarnLevel "failed to save consensus info into consensusInfoDB!"
  | None => ret tt
  end.

(** [OnNewPendingVanguardBlock]. *)
Definition OnNewPendingVanguardBlock (block : option BeaconBlock)
  : M (completion unit) :=
  match block with
  | None =>
      log WarnLevel "failed to save vanguard block hash";;
      ret (Return tt)
  | Some block =>
      latestRealmVerifiedSlot ← db_LatestVerifiedRealmSlot;
      if block_Slot block <? latestRealmVerifiedSlot then
        log ErrorLevel "reorgs not supported";;
        ret (Return tt)
      else
        record ComputeHashTreeRoot;;
        match HashTreeRoot block with
        | inl _ =>
            log WarnLevel "failed to save vanguard block hash";;
            ret (Return tt)
        | inr blockHash =>
            let pandoraShards := GetPandoraShard (GetBody block) in
            if (length pandoraShards <? 1)%nat then
              log ErrorLevel "pandora sharding info not present";;
              ret (Return tt)
            else
              match pandoraShards with
              | Some shardInfo :: _ =>
                  let hash := common.BytesToHash blockHash in
                  let headerHash :=
                    {| HeaderHash_ := hash;
                       Status_ := Pending;
                       BlockNumber := shard_BlockNumber shardInfo;
                       Signature := shard_Signature shardInfo;
                       StateRoot := shard_StateRoot shardInfo;
                       ReceiptHash := shard_ReceiptHash shardInfo;
                       TxHash := shard_TxHash shardInfo;
                       ParentHash := shard_ParentHash shardInfo |} in
                  nSent ← feed_SendPendingBlockHash headerHash;
                  log TraceLevel "Pending Block Hash feed info to subscribers";;
                  err ← db_SaveVanguardHeaderHash (block_Slot block) headerHash;
                  match err with
                  | Some _ =>
                      log WarnLevel "failed to save vanguard block hash";;
                      ret (Return tt)
                  | None =>
                      log TraceLevel "Successfully inserted vanguard block to db";;
                      ret (Return tt)
                  end
              | _ => ret (Panic "nil pointer dereference")
              end
        end
  end.

End Handlers.

(** A database double for concrete runs: it keeps what it is given. *)
Record MemDB : Type := {
  realmSlot : Z;
  savedInfos : list MinimalEpochConsensusInfo;
  savedHashes : list (Z * HeaderHash)
}.

#[global] Instance MemDB_Database : Database MemDB := {
  LatestVerifiedRealmSlot d := realmSlot d;
  SaveConsensusInfo d ci :=
    (None, {| realmSlot := realmSlot d; savedInfos := savedInfos d ++ [ci];
              savedHashes := savedHashes d |});
  SaveVanguardHeaderHash d slot h :=
    (None, {| realmSlot := realmSlot d; savedInfos := savedInfos d;
              savedHashes := savedHashes d ++ [(slot, h)] |})
}.

End vanguardchain.



(** ** The deposit sender ([tools/deposit-tx-sender]) *)

Module deposit.
Import Stdlib.Strings.Ascii.

(** [encoding/hex]: the value of a hex digit, upper or lower case. *)
Definition fromHexChar (c : Ascii.ascii) : option Z :=
  let n := Z.of_N (Ascii.N_of_ascii c) in
  if (48 <=? n) && (n <=? 57) then Some (n - 48)
  else if (97 <=? n) && (n <=? 102) then Some (n - 97 + 10)
  else if (65 <=? n) && (n <=? 70) then Some (n - 65 + 10)
  else None.

Inductive hex_error : Type :=
  | InvalidByteError (c : Ascii.ascii)
  | ErrLength.

(** [hex.Decode], two characters at a time: the bytes decoded before the
    first problem, and the problem. A single trailing character is
    [ErrLength], unless it is not a hex digit. *)
Fixpoint Decode (src : list Ascii.ascii) : bytes * option hex_error :=
  match src with
  | [] => ([], None)
  | [c] =>
      match fromHexChar c with
      | None => ([], Some (InvalidByteError c))
      | Some _ => ([], Some ErrLength)
      end
  | c1 :: c2 :: rest =>
      match fromHexChar c1 with
      | None => ([], Some (InvalidByteError c1))
      | Some a =>
          match fromHexChar c2 with
          | None => ([], Some (InvalidByteError c2))
          | Some b =>
              let '(decoded, err) := Decode rest in
              (Z.lor (Z.shiftl a 4) b :: decoded, err)
          end
      end
  end.

(** [hex.DecodeString]. *)
Definition DecodeString (s : string) : bytes * option hex_error :=
  Decode (String.list_ascii_of_string s).

(** [hex.EncodeToString], with the table "0123456789abcdef". *)
Definition hexdigit (n : Z) : Ascii.ascii :=
  Ascii.ascii_of_N (Z.to_N (if n <? 10 then 48 + n else 97 + n - 10)).

Fixpoint Encode (b : bytes) : list Ascii.ascii :=
  match b with
  | [] => []
  | x :: b' => hexdigit (Z.shiftr x 4) :: hexdigit (Z.land x 15) :: Encode b'
  end.

Definition EncodeToString (b : bytes) : string :=
  String.string_of_list_ascii (Encode b).

(** go-ethereum's [hexutil.Encode]: the hex digits after "0x". *)
Definition hexutil_Encode (b : bytes) : string :=
  String "0"%char (String "x"%char (EncodeToString b)).

(** [strings.TrimPrefix s "0x"]. *)
Definition TrimPrefix0x (s : string) : string :=
  match s with
  | String "0"%char (String "x"%char rest) => rest
  | _ => s
  end.

Record Deposit_Data : Type := {
  PublicKey : bytes;
  WithdrawalCredentials : bytes;
  Amount : Z;
  Signature : bytes;
  DepositRoot : bytes
}.

Record DepositDataJSON : Type := {
  PubKey : string;
  Amount_ : Z;
  WithdrawalCredentials_ : string;
  DepositDataRoot : string;
  Signature_ : string
}.

(** The errors of the tool: hex decoding, a collaborator's error (file
    system, JSON, RPC client, contract binding), and [errors.Wrap]. *)
Inductive tool_error : Type :=
  | ErrHex (e : hex_error)
  | ErrExternal (msg : string)
  | ErrWrap (cause : tool_error) (msg : string).

(** [copy(dataRoot[:], dataRootBytes)] into a zeroed [[32]byte]: the first 32
    bytes, zeros after a shorter slice. *)
Definition copy32 (b : bytes) : bytes := take 32 (b ++ replicate 32 0).

(** [depositJSONToDepositData] on a non-nil input: the four fields are
    decoded in the order public key, withdrawal credentials, signature, data
    root, and the first error ends the conversion. *)
Definition depositJSONToDepositData (input : DepositDataJSON)
  : tool_error + Deposit_Data :=
  match DecodeString (TrimPrefix0x (PubKey input)) with
  | (_, Some err) => inl (ErrHex err)
  | (pubKeyBytes, None) =>
  match DecodeString (TrimPrefix0x (WithdrawalCredentials_ input)) with
  | (_, Some err) => inl (ErrHex err)
  | (withdrawalBytes, None) =>
  match DecodeString (TrimPrefix0x (Signature_ input)) with
  | (_, Some err) => inl (ErrHex err)
  | (signatureBytes, None) =>
  match DecodeString (TrimPrefix0x (DepositDataRoot input)) with
  | (_, Some err) => inl (ErrHex err)
  | (dataRootBytes, None) =>
      inr {| PublicKey := pubKeyBytes;
             WithdrawalCredentials := withdrawalBytes;
             Amount := Amount_ input;
             Signature := signatureBytes;
             DepositRoot := copy32 dataRootBytes |}
  end end end end.

Section ImportFile.

(** The collaborators of [importDeposits]: path expansion, opening and
    reading the file, and [json.Unmarshal] into [[]*DepositDataJSON] (a JSON
    [null] element is a nil pointer). *)
Variable ExpandPath : string -> tool_error + string.
Variable ReadFile : string -> tool_error + bytes.
Variable Unmarshal : bytes -> tool_error + list (option DepositDataJSON).

(** The loop of [importDeposits]: entry [i] of the slice goes under key
    [int64(i)]. *)
Fixpoint importLoop (depositJSON : list (option DepositDataJSON)) (i : Z)
    (depositData : gmap Z Deposit_Data)
  : completion (tool_error + gmap Z Deposit_Data) :=
  match depositJSON with
  | [] => Return (inr depositData)
  | None :: _ => Panic "nil pointer dereference"
  | Some input :: rest =>
      match depositJSONToDepositData input with
      | inl err => Return (inl err)
      | inr deposit => importLoop rest (i + 1) (<[i := deposit]> depositData)
      end
  end.

(** [importDeposits]. *)
Definition importDeposits (inputFile : string)
  : completion (tool_error + gmap Z Deposit_Data) :=
  match ExpandPath inputFile with
  | inl err => Return (inl err)
  | inr expanded =>
      match ReadFile expanded with
      | inl err => Return (inl err)
      | inr enc =>
          match Unmarshal enc with
          | inl err => Return (inl err)
          | inr depositJSON => importLoop depositJSON 0 ∅
          end
      end
  end.

End ImportFile.

Definition depositGasLimit : Z := 4000000.
Definition MaxEffectiveBalance : Z := 32 * 1000000000.
Definition GweiPerEth : Z := 1000000000.

(** [int64(x)] of a [uint64], and [int64] multiplication. *)
Definition to_int64 (z : Z) : Z := (z + 2 ^ 63) mod 2 ^ 64 - 2 ^ 63.

(** One call of [contract.Deposit]: the transaction options and the four
    arguments. *)
Record DepositCall : Type := {
  tx_Nonce : Z;
  tx_Value : Z;
  tx_GasLimit : Z;
  arg_pubkey : bytes;
  arg_withdrawal_credentials : bytes;
  arg_signature : bytes;
  arg_deposit_data_root : bytes
}.

(** The call the loop makes for deposit [dd] when the transactor's nonce is
    [nonce]: the value is [MaxEffectiveBalance * GweiPerEth] wei whatever the
    deposit's own amount, the gas limit is [depositGasLimit]. *)
Definition call_for (nonce : Z) (dd : Deposit_Data) : DepositCall :=
  {| tx_Nonce := nonce;
     tx_Value := MaxEffectiveBalance * GweiPerEth;
     tx_GasLimit := depositGasLimit;
     arg_pubkey := PublicKey dd;
     arg_withdrawal_credentials := WithdrawalCredentials dd;
     arg_signature := Signature dd;
     arg_deposit_data_root := DepositRoot dd |}.

Inductive Action : Type :=
  | LogInfo (msg : string)
  | CallDeposit (c : DepositCall)
  | Sleep (nanoseconds : Z).

Section SendTx.

(** The collaborators of [sendDeposits]: the transactor built from the
    keystore, the pending nonce of its account (a [uint64]), the contract
    binding, and the contract's answer to a deposit call. *)
Variable NewTransactorWithChainID : bytes -> string -> Z -> option tool_error.
Variable PendingNonceAt : tool_error + Z.
Variable NewDepositContract : option tool_error.
Variable Deposit : DepositCall -> option tool_error.

(** The loop of [sendDeposits], with [remaining = len(allDeposits) - i]
    rounds to go. The record of what was done grows at its end. *)
Fixpoint sendLoop (remaining : nat) (allDeposits : gmap Z Deposit_Data)
    (txInterval : Z) (i : Z) (nonce : Z) (done : list Action)
  : completion (option tool_error) * list Action :=
  match remaining with
  | O => (Return None, done)
  | S remaining' =>
      match allDeposits !! i with
      | None => (Panic "nil pointer dereference", done)
      | Some dd =>
          let call := call_for nonce dd in
          let done := done ++ [LogInfo "Deposit info"; CallDeposit call] in
          match Deposit call with
          | Some err =>
              (Return (Some (ErrWrap err "unable to send transaction to contract")),
               done)
          | None =>
              sendLoop remaining' allDeposits txInterval (i + 1) (nonce + 1)
                (done ++ [LogInfo "Successfully send transaction to pandora chain. Waiting for validating.";
                          Sleep (to_int64 (to_int64 txInterval * 1000000000))])
          end
      end
  end.

(** [sendDeposits]. *)
Definition sendDeposits (keystoreBytes : bytes)
    (allDeposits : gmap Z Deposit_Data) (password : string)
    (chainId txInterval : Z)
  : completion (option tool_error) * list Action :=
  match NewTransactorWithChainID keystoreBytes password chainId with
  | Some err => (Return (Some err), [])
  | None =>
      match PendingNonceAt with
      | inl err => (Return (Some err), [])
      | inr nonce =>
          match NewDepositContract with
          | Some err => (Return (Some err), [])
          | None =>
              sendLoop (size allDeposits) allDeposits txInterval 0
                (to_int64 nonce) []
          end
      end
  end.

End SendTx.

(** A JSON field that holds the hex digits of [b], bare (as the deposit CLI
    writes them) or after "0x". *)
Definition hex_field (b : bytes) (s : string) : Prop :=
  s = EncodeToString b \/ s = hexutil_Encode b.

Definition is_byte (x : Z) : Prop := 0 <= x < 256.

Definition is_hex_digit (c : ascii) : Prop := is_Some (fromHexChar c).

(** A string [hex.DecodeString] accepts once one leading "0x" is cut. *)
Definition well_formed_hex (s : string) : Prop :=
  Forall is_hex_digit (String.list_ascii_of_string (TrimPrefix0x s))
  /\ Nat.Even (length (String.list_ascii_of_string (TrimPrefix0x s))).

(** The deposit calls among the actions, in order. *)
Definition calls (done : list Action) : list DepositCall :=
  omap (fun a => match a with CallDeposit c => Some c | _ => None end) done.

End deposit.


(** ** The Pandora subscriber's connection worker ([orchestrator/pandorachain]) *)

Module pandorachain.

(** Handles of an [*rpc.Client] and of an [*rpc.ClientSubscription]. *)
Abbreviation Client := Z.
Abbreviation Subscription := Z.

(** [types.PandoraPendingHeaderFilter]. *)
Record PandoraPendingHeaderFilter : Type := {
  FromBlockHash : common.Hash
}.

(** What the worker asks of the outside, in program order. *)
Inductive Request : Type :=
  | Dial (endpoint : string)
  | Subscribe (filter : PandoraPendingHeaderFilter) (namespace : string)
      (client : option Client)
  | SleepReConPeriod.

(** The fields of [Service] the worker reads and writes; [requests] is a
    ghost field that records its requests. *)
Record Service : Type := {
  isRunning : bool;
  runError : option error;
  connected : bool;
  endpoint : string;
  rpcClient : option Client;
  namespace : string;
  conInfoSub : option Subscription;
  requests : list Request
}.

Definition set_runError (s : Service) (e : option error) : Service :=
  {| isRunning := isRunning s; runError := e; connected := connected s;
     endpoint := endpoint s; rpcClient := rpcClient s;
     namespace := namespace s; conInfoSub := conInfoSub s;
     requests := requests s |}.

Definition set_connected (s : Service) (b : bool) : Service :=
  {| isRunning := isRunning s; runError := runError s; connected := b;
     endpoint := endpoint s; rpcClient := rpcClient s;
     namespace := namespace s; conInfoSub := conInfoSub s;
     requests := requests s |}.

Definition set_isRunning (s : Service) (b : bool) : Service :=
  {| isRunning := b; runError := runError s; connected := connected s;
     endpoint := endpoint s; rpcClient := rpcClient s;
     namespace := namespace s; conInfoSub := conInfoSub s;
     requests := requests s |}.

Definition set_rpcClient (s : Service) (c : option Client) : Service :=
  {| isRunning := isRunning s; runError := runError s;
     connected := connected s; endpoint := endpoint s; rpcClient := c;
     namespace := namespace s; conInfoSub := conInfoSub s;
     requests := requests s |}.

Definition set_conInfoSub (s : Service) (sub : option Subscription) : Service :=
  {| isRunning := isRunning s; runError := runError s;
     connected := connected s; endpoint := endpoint s;
     rpcClient := rpcClient s; namespace := namespace s; conInfoSub := sub;
     requests := requests s |}.

Definition request (s : Service) (r : Request) : Service :=
  {| isRunning := isRunning s; runError := runError s;
     connected := connected s; endpoint := endpoint s;
     rpcClient := rpcClient s; namespace := namespace s;
     conInfoSub := conInfoSub s; requests := requests s ++ [r] |}.

(** [Status]. *)
Definition Status (s : Service) : option error :=
  if negb (isRunning s) then None
  else match runError s with
       | Some e => Some e
       | None => None
       end.

Section Worker.

(** The collaborators. What they answer may change from one call to the
    next, so each takes the requests made so far: [dialRPCFn] the endpoint,
    the database its latest header hash, and [SubscribePendingHeaders] (not
    among the sources) the filter, the namespace and the client. *)
Variable dialRPCFn : list Request -> string -> error + Client.
Variable GetLatestHeaderHash : list Request -> common.Hash.
Variable SubscribePendingHeaders :
  list Request -> PandoraPendingHeaderFilter -> string -> option Client ->
  error + Subscription.

(** [subscribe]. *)
Definition subscribe (s : Service) : option error * Service :=
  let latestSavedHeaderHash := GetLatestHeaderHash (requests s) in
  let filter := {| FromBlockHash := latestSavedHeaderHash |} in
  let answer := SubscribePendingHeaders (requests s) filter (namespace s)
                  (rpcClient s) in
  let s := request s (Subscribe filter (namespace s) (rpcClient s)) in
  match answer with
  | inl err => (Some err, s)
  | inr sub => (None, set_conInfoSub s (Some sub))
  end.

(** [connectToChain]. *)
Definition connectToChain (s : Service) : option error * Service :=
  match rpcClient s with
  | None =>
      let answer := dialRPCFn (requests s) (endpoint s) in
      let s := request s (Dial (endpoint s)) in
      match answer with
      | inl err => (Some err, s)
      | inr panRPCClient => subscribe (set_rpcClient s (Some panRPCClient))
      end
  | Some _ => subscribe s
  end.

(** What a [select] of the worker receives. *)
Inductive Selected : Type :=
  | TickerC
  | CtxDone.

(** How a wait ends: connected, cancelled, or still blocked in its [select]
    when the events given are used up. *)
Inductive WaitEnd : Type :=
  | Connected
  | Cancelled
  | Blocked.

(** The [for { select { ... } }] loop of [waitForConnection]. *)
Fixpoint waitLoop (events : list Selected) (s : Service)
  : WaitEnd * Service * list Selected :=
  match events with
  | [] => (Blocked, s, [])
  | CtxDone :: events' => (Cancelled, s, events')
  | TickerC :: events' =>
      match connectToChain s with
      | (Some errConnect, s) => waitLoop events' (set_runError s (Some errConnect))
      | (None, s) =>
          (Connected, set_runError (set_connected s true) None, events')
      end
  end.

(** [waitForConnection]. *)
Definition waitForConnection (events : list Selected) (s : Service)
  : WaitEnd * Service * list Selected :=
  match connectToChain s with
  | (None, s) => (Connected, set_connected s true, events)
  | (Some err, s) => waitLoop events (set_runError s (Some err))
  end.

(** [retryToConnectAndSubscribe]: the last assignment is reached when the
    wait returns, however it returns. *)
Definition retryToConnectAndSubscribe (err : error) (events : list Selected)
    (s : Service) : WaitEnd * Service * list Selected :=
  let s := set_runError s (Some err) in
  let s := set_connected s false in
  let s := request s SleepReConPeriod in
  match waitForConnection events s with
  | (Blocked, s, events') => (Blocked, s, events')
  | (ended, s, events') => (ended, set_runError s None, events')
  end.

(** What the [select] of [run] receives: the closed [done] channel, or a
    subscription error together with what the selects of the retry it starts
    receive. *)
Inductive RunSelected : Type :=
  | DoneClosed
  | SubscriptionError (err : error) (during : list Selected).

(** The loop of [run]: [Some s] when the worker has returned, [None] when it
    still waits. *)
Fixpoint runLoop (events : list RunSelected) (s : Service) : option Service :=
  match events with
  | [] => None
  | DoneClosed :: _ => Some (set_runError (set_isRunning s false) None)
  | SubscriptionError err during :: events' =>
      match retryToConnectAndSubscribe err during s with
      | (Blocked, _, _) => None
      | (_, s, _) => runLoop events' s
      end
  end.

(** [run]. *)
Definition run (events : list RunSelected) (s : Service) : option Service :=
  runLoop events (set_runError s None).

End Worker.

(** The number of dials among the requests. *)
Definition is_dial (r : Request) : bool :=
  match r with Dial _ => true | _ => false end.

Definition dials (rs : list Request) : nat := length (List.filter is_dial rs).

End pandorachain.

(** ** States used in the concrete runs below *)

Module fixtures.
Import types.

(** [common.HexToHash] of the hash in [TestKV_Start_Stop]. *)
Definition headerHash : common.Hash :=
  [ 9; 62; 255; 90; 111; 7; 138; 67; 77; 194; 57; 129; 124; 249; 145; 106;
    183; 134; 113; 82; 219; 247; 19; 233; 240; 242; 0; 27; 108; 30; 235; 29 ].

Definition emptyDB : kv.DB :=
  {| kv.consensusInfosBucket := ∅; kv.verifiedSlotInfosBucket := ∅ |}.

(** A cache that holds nothing yet. *)
Definition emptyCache : gmap Z SlotInfoPtr := ∅.

(** The store of [TestKV_Start_Stop] right before [kv.Close()]. *)
Definition store_test : kv.Store (gmap Z SlotInfoPtr) :=
  {| kv.isRunning := true; kv.db := emptyDB; kv.verifiedSlotInfoCache := ∅;
     kv.latestEpoch := 3; kv.latestVerifiedSlot := 100;
     kv.latestHeaderHash := headerHash |}.

(** An open store whose cursor is slot 100, in memory and on disk. *)
Definition store_open100 : kv.Store (gmap Z SlotInfoPtr) :=
  {| kv.isRunning := true;
     kv.db :=
       {| kv.consensusInfosBucket := ∅;
          kv.verifiedSlotInfosBucket :=
            {[ kv.latestSavedVerifiedSlotKey :=
                 bytesutil.Uint64ToBytesBigEndian 100;
               kv.latestHeaderHashKey := headerHash ]} |};
     kv.verifiedSlotInfoCache := ∅;
     kv.latestEpoch := 3; kv.latestVerifiedSlot := 100;
     kv.latestHeaderHash := headerHash |}.

(** A closed store whose cursor, on disk and in memory, is slot [n]. *)
Definition store_closed_at (n : Z) : kv.Store (gmap Z SlotInfoPtr) :=
  {| kv.isRunning := false;
     kv.db :=
       {| kv.consensusInfosBucket := ∅;
          kv.verifiedSlotInfosBucket :=
            {[ kv.latestSavedVerifiedSlotKey :=
                 bytesutil.Uint64ToBytesBigEndian n;
               kv.latestHeaderHashKey := headerHash ]} |};
     kv.verifiedSlotInfoCache := ∅;
     kv.latestEpoch := 0; kv.latestVerifiedSlot := n;
     kv.latestHeaderHash := headerHash |}.

Definition info5 : SlotInfo :=
  {| Slot := 5; PandoraHeaderHash := common.ZeroHash; SlotStatus := Verified |}.

Definition epoch0 : MinimalEpochConsensusInfo :=
  {| Epoch := 0; ValidatorList := ["pk0"; "pk1"]; EpochStartTime := 1000;
     SlotTimeDuration := 6 |}.

Definition service10 : vanguardchain.Service vanguardchain.MemDB :=
  {| vanguardchain.orchestratorDB :=
       {| vanguardchain.realmSlot := 10; vanguardchain.savedInfos := [];
          vanguardchain.savedHashes := [] |};
     vanguardchain.consensusInfoFeed :=
       {| vanguardchain.subscribers := 1; vanguardchain.delivered := [] |};
     vanguardchain.vanguardPendingBlockHashFeed :=
       {| vanguardchain.subscribers := 1; vanguardchain.delivered := [] |};
     vanguardchain.journal := [] |}.

Definition shard42 : vanguardchain.PandoraShard :=
  {| vanguardchain.shard_BlockNumber := 42;
     vanguardchain.shard_Signature := [1];
     vanguardchain.shard_StateRoot := [2];
     vanguardchain.shard_ReceiptHash := [3];
     vanguardchain.shard_TxHash := [4];
     vanguardchain.shard_ParentHash := [5] |}.

Definition block_at (slot : Z) : vanguardchain.BeaconBlock :=
  {| vanguardchain.block_Slot := slot;
     vanguardchain.Body :=
       Some {| vanguardchain.PandoraShard_ := [Some shard42] |} |}.

(** A stand-in for the SSZ root: it always succeeds. *)
Definition root_of (b : vanguardchain.BeaconBlock) : error + bytes :=
  inr headerHash.

Definition info7 : SlotInfo :=
  {| Slot := 7; PandoraHeaderHash := headerHash; SlotStatus := Verified |}.

Definition info8 : SlotInfo :=
  {| Slot := 8; PandoraHeaderHash := common.ZeroHash; SlotStatus := Invalid |}.

(** The encoding [kv.encode_fields] gives [info7]. *)
Definition enc7 : bytes :=
  bytesutil.Uint64ToBytesBigEndian 7 ++ 1 :: headerHash.

(** A closed store with cursor 10 whose bucket holds slot 7 and whose cache
    holds slot 8. *)
Definition store_two_slots : kv.Store (gmap Z SlotInfoPtr) :=
  {| kv.isRunning := false;
     kv.db :=
       {| kv.consensusInfosBucket := ∅;
          kv.verifiedSlotInfosBucket :=
            {[ kv.latestSavedVerifiedSlotKey :=
                 bytesutil.Uint64ToBytesBigEndian 10;
               kv.latestHeaderHashKey := headerHash;
               bytesutil.Uint64ToBytesBigEndian 7 := enc7 ]} |};
     kv.verifiedSlotInfoCache := {[ 8 := Some info8 ]};
     kv.latestEpoch := 0; kv.latestVerifiedSlot := 10;
     kv.latestHeaderHash := headerHash |}.

(** An encoder that also takes the nil pointer (as a JSON encoder writes
    "null"), for concrete runs. *)
Definition encode_nullable (p : SlotInfoPtr) : error + bytes :=
  match p with
  | None => inr [110; 117; 108; 108]
  | Some _ => kv.encode_fields p
  end.

(** A closed store whose in-memory cursors (slot 12, zero hash) are ahead of
    the persisted ones (slot 10, the test's hash). *)
Definition store_ahead : kv.Store (gmap Z SlotInfoPtr) :=
  {| kv.isRunning := false;
     kv.db := kv.db store_two_slots;
     kv.verifiedSlotInfoCache := ∅;
     kv.latestEpoch := 0; kv.latestVerifiedSlot := 12;
     kv.latestHeaderHash := common.ZeroHash |}.

(** A stand-in for the SSZ root that always fails. *)
Definition root_fails (b : vanguardchain.BeaconBlock) : error + bytes :=
  inl (ErrOther "ssz: cannot hash").

Definition block_without_body (slot : Z) : vanguardchain.BeaconBlock :=
  {| vanguardchain.block_Slot := slot; vanguardchain.Body := None |}.

Definition block_nil_shard (slot : Z) : vanguardchain.BeaconBlock :=
  {| vanguardchain.block_Slot := slot;
     vanguardchain.Body :=
       Some {| vanguardchain.PandoraShard_ := [None; Some shard42] |} |}.

(** A database double whose writes fail: it only knows its cursor. *)
Record ReadOnlyDB : Type := { ro_realmSlot : Z }.

#[global] Instance ReadOnlyDB_Database : vanguardchain.Database ReadOnlyDB := {
  vanguardchain.LatestVerifiedRealmSlot d := ro_realmSlot d;
  vanguardchain.SaveConsensusInfo d ci := (Some (ErrOther "read only"), d);
  vanguardchain.SaveVanguardHeaderHash d slot h := (Some (ErrOther "read only"), d)
}.

Definition service_read_only : vanguardchain.Service ReadOnlyDB :=
  {| vanguardchain.orchestratorDB := {| ro_realmSlot := 10 |};
     vanguardchain.consensusInfoFeed :=
       {| vanguardchain.subscribers := 1; vanguardchain.delivered := [] |};
     vanguardchain.vanguardPendingBlockHashFeed :=
       {| vanguardchain.subscribers := 2; vanguardchain.delivered := [] |};
     vanguardchain.journal := [] |}.

(** The header the handler builds from [shard42] and the test's hash. *)
Definition header42 : HeaderHash :=
  {| HeaderHash_ := headerHash; Status_ := Pending; BlockNumber := 42;
     Signature := [1]; StateRoot := [2]; ReceiptHash := [3]; TxHash := [4];
     ParentHash := [5] |}.

(** Two entries of a deposit file: bare digits and "0x" digits mixed, a data
    root of 32 bytes; and one whose data root spells 33 bytes. *)
Definition json0 : deposit.DepositDataJSON :=
  {| deposit.PubKey := "0102";
     deposit.Amount_ := 32000000000;
     deposit.WithdrawalCredentials_ := "0x03";
     deposit.DepositDataRoot := "0707070707070707070707070707070707070707070707070707070707070707";
     deposit.Signature_ := "0x040506" |}.

Definition json1 : deposit.DepositDataJSON :=
  {| deposit.PubKey := "0xAb";
     deposit.Amount_ := 1;
     deposit.WithdrawalCredentials_ := "";
     deposit.DepositDataRoot := "0707070707070707070707070707070707070707070707070707070707070707ff";
     deposit.Signature_ := "ff" |}.

Definition deposit0 : deposit.Deposit_Data :=
  {| deposit.PublicKey := [1; 2];
     deposit.WithdrawalCredentials := [3];
     deposit.Amount := 32000000000;
     deposit.Signature := [4; 5; 6];
     deposit.DepositRoot := replicate 32 7 |}.

Definition deposit1 : deposit.Deposit_Data :=
  {| deposit.PublicKey := [171];
     deposit.WithdrawalCredentials := [];
     deposit.Amount := 1;
     deposit.Signature := [255];
     deposit.DepositRoot := replicate 32 7 |}.

Definition two_deposits : gmap Z deposit.Deposit_Data :=
  {[ 0 := deposit0; 1 := deposit1 ]}.

(** Collaborators of the tool that succeed: the file holds the two entries,
    the account's pending nonce is 7. *)
Definition expand_ok (path : string) : deposit.tool_error + string := inr path.
Definition read_ok (path : string) : deposit.tool_error + bytes := inr [].
Definition unmarshal_two (enc : bytes)
  : deposit.tool_error + list (option deposit.DepositDataJSON) :=
  inr [Some json0; Some json1].
Definition transactor_ok (keystore : bytes) (password : string) (chainId : Z)
  : option deposit.tool_error := None.
Definition nonce7 : deposit.tool_error + Z := inr 7.
Definition contract_ok : option deposit.tool_error := None.

(** A contract that accepts every deposit, and one that refuses the call
    with nonce 8. *)
Definition accept_all (c : deposit.DepositCall) : option deposit.tool_error :=
  None.
Definition refuse_nonce8 (c : deposit.DepositCall) : option deposit.tool_error :=
  if deposit.tx_Nonce c =? 8 then Some (deposit.ErrExternal "execution reverted")
  else None.

(** A Pandora node that refuses the first dial and accepts the next ones,
    and that refuses a subscription until two have been asked for. *)
Definition dial_second_time (rs : list pandorachain.Request) (endpoint : string)
  : error + Z :=
  if (pandorachain.dials rs =? 0)%nat then inl (ErrOther "connection refused")
  else inr 1.

Definition hash_of_store (rs : list pandorachain.Request) : common.Hash :=
  headerHash.

Definition subscribe_third_request (rs : list pandorachain.Request)
    (f : pandorachain.PandoraPendingHeaderFilter) (ns : string)
    (c : option Z) : error + Z :=
  if (length rs <? 3)%nat then inl (ErrOther "subscription refused")
  else inr 9.

Definition idle_service : pandorachain.Service :=
  {| pandorachain.isRunning := true; pandorachain.runError := None;
     pandorachain.connected := false;
     pandorachain.endpoint := "ws://127.0.0.1:8546";
     pandorachain.rpcClient := None; pandorachain.namespace := "eth";
     pandorachain.conInfoSub := None; pandorachain.requests := [] |}.

(** A service that holds client 1 and has lost its subscription. *)
Definition dropped_service : pandorachain.Service :=
  {| pandorachain.isRunning := true; pandorachain.runError := None;
     pandorachain.connected := true;
     pandorachain.endpoint := "ws://127.0.0.1:8546";
     pandorachain.rpcClient := Some 1; pandorachain.namespace := "eth";
     pandorachain.conInfoSub := Some 9; pandorachain.requests := [] |}.

End fixtures.

(** * Properties *)

(** ** Big-endian keys and hashes *)

Lemma byte_at_shiftl_bit (i k n : Z) :
  0 <= k -> 0 <= n ->
  Z.testbit (Z.shiftl (bytesutil.byte_at i k) k) n
  = Z.testbit i n && (k <=? n) && (n <? k + 8).
Proof.
  intros Hk Hn. unfold bytesutil.byte_at.
  rewrite Z.shiftl_spec by lia.
  destruct (Z.leb_spec k n) as [Hle | Hlt].
  - rewrite Z.land_spec, Z.shiftr_spec by lia.
    replace (n - k + k) with n by lia.
    change 255 with (Z.ones 8).
    rewrite Z.testbit_ones_nonneg by lia.
    destruct (Z.ltb_spec (n - k) 8), (Z.ltb_spec n (k + 8)); try lia;
      destruct (Z.testbit i n); reflexivity.
  - rewrite Z.testbit_neg_r by lia.
    destruct (Z.testbit i n); reflexivity.
Qed.

Lemma uint64_high_bits (i n : Z) :
  is_uint64 i -> 64 <= n -> Z.testbit i n = false.
Proof.
  unfold is_uint64, MaxUint64. intros Hi Hn.
  destruct (decide (i = 0)) as [-> | Hne]; [apply Z.bits_0 |].
  apply Z.bits_above_log2; [lia |].
  assert (Z.log2 i < 64); [| lia].
  apply Z.log2_lt_pow2; lia.
Qed.

Lemma BytesToUint64_Uint64ToBytes (i : Z) :
  is_uint64 i ->
  bytesutil.BytesToUint64BigEndian (bytesutil.Uint64ToBytesBigEndian i) = i.
Proof.
  intros Hi. unfold bytesutil.Uint64ToBytesBigEndian. cbn [bytesutil.BytesToUint64BigEndian].
  rewrite <- (Z.shiftl_0_r (bytesutil.byte_at i 0)).
  apply Z.bits_inj'. intros n Hn.
  rewrite !Z.lor_spec, !byte_at_shiftl_bit by lia.
  destruct (Z.ltb_spec n 64) as [Hlt | Hge].
  - destruct (Z.testbit i n); [| reflexivity]. cbn [andb].
    repeat match goal with
           | |- context [?a <=? ?b] => destruct (Z.leb_spec a b)
           | |- context [?a <? ?b] => destruct (Z.ltb_spec a b)
           end; try reflexivity; lia.
  - rewrite (uint64_high_bits i n Hi Hge). reflexivity.
Qed.

Lemma BytesToHash_Bytes (h : common.Hash) :
  common.wf_hash h -> common.BytesToHash (common.Bytes h) = h.
Proof.
  unfold common.wf_hash, common.BytesToHash, common.Bytes. intros Hlen.
  rewrite Hlen, Nat.ltb_irrefl. cbv zeta iota.
  rewrite Hlen, Nat.sub_diag. reflexivity.
Qed.

Lemma BytesToHash_wf (b : bytes) : common.wf_hash (common.BytesToHash b).
Proof.
  unfold common.wf_hash, common.BytesToHash, common.HashLength.
  destruct (Nat.ltb_spec 32 (length b)).
  - rewrite length_app, length_replicate, length_drop. lia.
  - rewrite length_app, length_replicate. lia.
Qed.


(** ** The store *)

Section StoreProperties.
Context {C : Type} `{Hcache : !kv.Ristretto C}.
Variable encode : types.SlotInfoPtr -> error + bytes.
Variable decode : bytes -> types.SlotInfoPtr * option error.

Lemma Uint64ToBytes_length (i : Z) :
  length (bytesutil.Uint64ToBytesBigEndian i) = 8%nat.
Proof. reflexivity. Qed.

Lemma slot_key_not_cursor_key (slot : Z) :
  bytesutil.Uint64ToBytesBigEndian slot <> kv.latestSavedVerifiedSlotKey
  /\ bytesutil.Uint64ToBytesBigEndian slot <> kv.latestHeaderHashKey.
Proof.
  split; intros Heq; apply (f_equal length) in Heq; discriminate Heq.
Qed.

Lemma Put_slot_key (b : bolt.Bucket) (slot : Z) (enc : bytes) :
  Z.of_nat (length enc) <= bolt.MaxValueSize ->
  bolt.Put b (bytesutil.Uint64ToBytesBigEndian slot) enc
  = inr (<[bytesutil.Uint64ToBytesBigEndian slot := enc]> b).
Proof.
  intros Hlen. unfold bolt.Put.
  destruct (decide _) as [Hnil | _]; [discriminate Hnil |].
  rewrite Uint64ToBytes_length.
  destruct (Z.ltb_spec bolt.MaxKeySize (Z.of_nat 8)) as [Hk | _];
    [unfold bolt.MaxKeySize in Hk; lia |].
  destruct (Z.ltb_spec bolt.MaxValueSize (Z.of_nat (length enc))) as [? | _]; [lia | done].
Qed.

(** While the store is not running both accessors read the bucket. *)
Lemma LatestSavedVerifiedSlot_not_running (s : kv.Store C) :
  kv.isRunning s = false ->
  kv.LatestSavedVerifiedSlot s
  = match bolt.Get (kv.verifiedSlotInfosBucket (kv.db s))
            kv.latestSavedVerifiedSlotKey with
    | None => 0
    | Some b => bytesutil.BytesToUint64BigEndian b
    end
  /\ kv.LatestVerifiedHeaderHash s
  = match bolt.Get (kv.verifiedSlotInfosBucket (kv.db s))
            kv.latestHeaderHashKey with
    | None => kv.EmptyHash
    | Some b => common.BytesToHash b
    end.
Proof.
  intros Hrun. unfold kv.LatestSavedVerifiedSlot, kv.LatestVerifiedHeaderHash.
  rewrite Hrun. split; reflexivity.
Qed.

(** While it is running both return the zero value of their local variable,
    whatever the in-memory cursors are. *)
Lemma LatestSavedVerifiedSlot_running (s : kv.Store C) :
  kv.isRunning s = true ->
  kv.LatestSavedVerifiedSlot s = 0
  /\ kv.LatestVerifiedHeaderHash s = common.ZeroHash.
Proof.
  intros Hrun. unfold kv.LatestSavedVerifiedSlot, kv.LatestVerifiedHeaderHash.
  rewrite Hrun. split; reflexivity.
Qed.

(** C10. A slot that has no stored verdict (none in the cache, none in the
    bucket) is answered with a nil slot info and a nil error: the lookup does
    not report the missing slot as an error. *)
Theorem VerifiedSlotInfo_missing_is_nil_nil (s : kv.Store C) (slot : Z) :
  ~ kv.stored_verdict s slot ->
  kv.VerifiedSlotInfo decode s slot = (None, None).
Proof.
  unfold kv.stored_verdict, kv.VerifiedSlotInfo. intros Hnone.
  destruct (kv.rGet (kv.verifiedSlotInfoCache s) slot) as [[[si |] |] [|]] eqn:Hget;
    try (exfalso; apply Hnone; left; eauto; fail); try reflexivity;
    destruct (bolt.Get _ _) eqn:Hbkt; try reflexivity;
    exfalso; apply Hnone; right; eauto.
Qed.

(** C1, as the code has it. A call with a slot info that encodes to a value
    bolt accepts writes that value under the slot's key and, with it, sets the
    in-memory cursor to [slot] itself (also when [slot] is below the previous
    cursor) and the in-memory hash to the info's Pandora header hash; it
    returns no error, and the two persisted cursor keys keep their values.
    A call that returns an error leaves bucket and cursors as they were. *)
Theorem SaveVerifiedSlotInfo_sets_cursor_to_slot
    (s : kv.Store C) (slot : Z) (slotInfo : types.SlotInfoPtr) :
  (forall si enc,
      slotInfo = Some si ->
      encode slotInfo = inr enc ->
      Z.of_nat (length enc) <= bolt.MaxValueSize ->
      exists s',
        kv.SaveVerifiedSlotInfo encode s slot slotInfo = (Return None, s')
        /\ kv.latestVerifiedSlot s' = slot
        /\ kv.latestHeaderHash s' = types.PandoraHeaderHash si
        /\ bolt.Get (kv.verifiedSlotInfosBucket (kv.db s'))
                    (bytesutil.Uint64ToBytesBigEndian slot) = Some enc
        /\ (forall k, k <> bytesutil.Uint64ToBytesBigEndian slot ->
              bolt.Get (kv.verifiedSlotInfosBucket (kv.db s')) k
              = bolt.Get (kv.verifiedSlotInfosBucket (kv.db s)) k)
        /\ bolt.Get (kv.verifiedSlotInfosBucket (kv.db s'))
                    kv.latestSavedVerifiedSlotKey
           = bolt.Get (kv.verifiedSlotInfosBucket (kv.db s))
                      kv.latestSavedVerifiedSlotKey
        /\ bolt.Get (kv.verifiedSlotInfosBucket (kv.db s'))
                    kv.latestHeaderHashKey
           = bolt.Get (kv.verifiedSlotInfosBucket (kv.db s))
                      kv.latestHeaderHashKey
        /\ kv.isRunning s' = kv.isRunning s)
  /\ (forall e s',
        kv.SaveVerifiedSlotInfo encode s slot slotInfo = (Return (Some e), s') ->
        kv.db s' = kv.db s
        /\ kv.latestVerifiedSlot s' = kv.latestVerifiedSlot s
        /\ kv.latestHeaderHash s' = kv.latestHeaderHash s).
Proof.
  split.
  - intros si enc -> Henc Hlen. unfold kv.SaveVerifiedSlotInfo.
    rewrite Henc.
    destruct (kv.rSet (kv.verifiedSlotInfoCache s) slot (Some si) 0) as [c st].
    rewrite (Put_slot_key _ slot enc Hlen). cbn.
    eexists. split; [reflexivity |]. cbn.
    destruct (slot_key_not_cursor_key slot) as [Hslotkey Hhashkey].
    repeat split.
    + unfold bolt.Get. apply lookup_insert_eq.
    + intros k Hk. unfold bolt.Get. apply lookup_insert_ne. congruence.
    + unfold bolt.Get. apply lookup_insert_ne, Hslotkey.
    + unfold bolt.Get. apply lookup_insert_ne, Hhashkey.
  - intros e s'. unfold kv.SaveVerifiedSlotInfo.
    destruct (encode slotInfo) as [err | enc]; [intros [= _ <-]; done |].
    destruct (kv.rSet (kv.verifiedSlotInfoCache s) slot slotInfo 0) as [c st].
    destruct (bolt.Put _ _ enc) as [err | bkt'].
    + intros [= _ <-]. done.
    + destruct slotInfo; intros [=].
Qed.

Lemma Put_ok (b : bolt.Bucket) (key value : bytes) :
  key <> [] ->
  Z.of_nat (length key) <= bolt.MaxKeySize ->
  Z.of_nat (length value) <= bolt.MaxValueSize ->
  bolt.Put b key value = inr (<[key := value]> b).
Proof.
  intros Hne Hk Hv. unfold bolt.Put.
  destruct (decide _) as [Hnil | _]; [contradiction |].
  destruct (Z.ltb_spec bolt.MaxKeySize (Z.of_nat (length key))) as [? | _]; [lia |].
  destruct (Z.ltb_spec bolt.MaxValueSize (Z.of_nat (length value))) as [? | _]; [lia | done].
Qed.

(** ** The range query *)

Lemma wrap64_succ (slot : Z) :
  0 <= slot < MaxUint64 -> wrap64 (slot + 1) = slot + 1.
Proof.
  unfold wrap64, MaxUint64. intros H. apply Z.mod_small. lia.
Qed.

Lemma wrap64_uint64 (z : Z) : is_uint64 (wrap64 z).
Proof.
  unfold is_uint64, wrap64, MaxUint64.
  pose proof (Z.mod_pos_bound z (2 ^ 64) ltac:(lia)). lia.
Qed.

(** Every key of the result was visited by the loop. *)
Lemma slotInfos_loop_keys (fuel : nat) :
  forall (s : kv.Store C) (L lo slot : Z) (acc m : gmap Z types.SlotInfoPtr),
    L < MaxUint64 -> 0 <= lo <= slot ->
    (forall k, is_Some (acc !! k) -> lo <= k <= L) ->
    kv.slotInfos_loop decode fuel s L slot acc = Some m ->
    forall k, is_Some (m !! k) -> lo <= k <= L.
Proof.
  induction fuel as [| fuel IH]; intros s L lo slot acc m HL Hlo Hacc; [done |].
  cbn [kv.slotInfos_loop].
  destruct (Z.leb_spec slot L) as [Hle | Hgt]; [| intros [= <-]; exact Hacc].
  rewrite wrap64_succ by lia.
  assert (Hins : forall v k, is_Some (<[slot := v]> acc !! k) -> lo <= k <= L).
  { intros v k. destruct (decide (slot = k)) as [<- | Hne].
    - intros _. lia.
    - rewrite lookup_insert_ne by done. apply Hacc. }
  destruct (fst (kv.rGet (kv.verifiedSlotInfoCache s) slot)) as [v |].
  - apply IH; [done | lia | apply Hins].
  - destruct (bolt.Get _ _) as [enc |].
    + apply IH; [done | lia | apply Hins].
    + apply IH; [done | lia | exact Hacc].
Qed.

(** Below the largest [uint64] the loop ends after [L + 1 - slot] rounds. *)
Lemma slotInfos_loop_returns (fuel : nat) :
  forall (s : kv.Store C) (L slot : Z) (acc : gmap Z types.SlotInfoPtr),
    L < MaxUint64 -> 0 <= slot <= L + 1 ->
    (Z.to_nat (L + 1 - slot) < fuel)%nat ->
    exists m, kv.slotInfos_loop decode fuel s L slot acc = Some m.
Proof.
  induction fuel as [| fuel IH]; intros s L slot acc HL Hslot Hfuel; [lia |].
  cbn [kv.slotInfos_loop].
  destruct (Z.leb_spec slot L) as [Hle | Hgt]; [| eauto].
  rewrite wrap64_succ by lia.
  destruct (fst (kv.rGet (kv.verifiedSlotInfoCache s) slot)) as [v |];
    [| destruct (bolt.Get _ _) as [enc |]]; apply IH; lia.
Qed.

(** More fuel does not change a result. *)
Lemma slotInfos_loop_fuel (fuel : nat) :
  forall (s : kv.Store C) (L slot : Z) (acc m : gmap Z types.SlotInfoPtr),
    kv.slotInfos_loop decode fuel s L slot acc = Some m ->
    forall fuel', (fuel <= fuel')%nat ->
      kv.slotInfos_loop decode fuel' s L slot acc = Some m.
Proof.
  induction fuel as [| fuel IH]; intros s L slot acc m; [done |].
  intros Hrun [| fuel'] Hle; [lia |].
  revert Hrun. cbn [kv.slotInfos_loop].
  destruct (slot <=? L); [| done].
  destruct (fst (kv.rGet (kv.verifiedSlotInfoCache s) slot)) as [v |];
    [| destruct (bolt.Get _ _) as [enc |]];
    intros Hrun; apply (IH _ _ _ _ _ Hrun); lia.
Qed.

(** With the cursor at the largest [uint64] the loop condition never fails:
    the counter wraps to zero and no amount of fuel ends the loop. *)
Lemma slotInfos_loop_max_cursor (fuel : nat) :
  forall (s : kv.Store C) (slot : Z) (acc : gmap Z types.SlotInfoPtr),
    is_uint64 slot ->
    kv.slotInfos_loop decode fuel s MaxUint64 slot acc = None.
Proof.
  induction fuel as [| fuel IH]; intros s slot acc Hslot; [done |].
  cbn [kv.slotInfos_loop].
  destruct (Z.leb_spec slot MaxUint64) as [_ | Hgt];
    [| unfold is_uint64 in Hslot; lia].
  destruct (fst (kv.rGet (kv.verifiedSlotInfoCache s) slot)) as [v |];
    [| destruct (bolt.Get _ _) as [enc |]]; apply IH, wrap64_uint64.
Qed.

(** [VerifiedSlotInfos] against the value [L] its call of
    [LatestSavedVerifiedSlot] returns: above [L] the request is refused with
    the wrapped [errInvalidSlot]; from [L] down, and with [L] below the
    largest [uint64], it returns a map whose keys lie in [fromSlot .. L]. *)
Lemma VerifiedSlotInfos_against_accessor (s : kv.Store C) (fromSlot : Z) :
  0 <= fromSlot ->
  (kv.LatestSavedVerifiedSlot s < fromSlot ->
   forall fuel,
     kv.VerifiedSlotInfos decode fuel s fromSlot
     = Some (None, Some (Wrap errInvalidSlot ("fromSlot: " +:+ pretty fromSlot))))
  /\ (fromSlot <= kv.LatestSavedVerifiedSlot s < MaxUint64 ->
      exists m,
        (forall fuel,
            (Z.to_nat (kv.LatestSavedVerifiedSlot s + 1 - fromSlot) < fuel)%nat ->
            kv.VerifiedSlotInfos decode fuel s fromSlot = Some (Some m, None))
        /\ forall k, is_Some (m !! k) ->
             fromSlot <= k <= kv.LatestSavedVerifiedSlot s).
Proof.
  intros Hfrom. unfold kv.VerifiedSlotInfos. split.
  - intros Hlt fuel.
    destruct (Z.ltb_spec (kv.LatestSavedVerifiedSlot s) fromSlot) as [_ | Hge]; [done | lia].
  - intros [Hle HL].
    destruct (Z.ltb_spec (kv.LatestSavedVerifiedSlot s) fromSlot) as [Hlt | _]; [lia |].
    set (L := kv.LatestSavedVerifiedSlot s) in *.
    destruct (slotInfos_loop_returns (S (Z.to_nat (L + 1 - fromSlot))) s L fromSlot ∅)
      as [m Hm]; [done | lia | lia |].
    exists m. split.
    + intros fuel Hfuel.
      rewrite (slotInfos_loop_fuel _ _ _ _ _ _ Hm fuel) by lia. done.
    + eapply (slotInfos_loop_keys _ s L fromSlot fromSlot ∅ m HL); [lia | | exact Hm].
      intros k. rewrite lookup_empty. intros [? [=]].
Qed.

End StoreProperties.

(** A closed store whose persisted cursor is the largest [uint64]: no call
    of the range query returns. *)
Lemma VerifiedSlotInfos_max_cursor_never_returns (fromSlot : Z) (fuel : nat) :
  is_uint64 fromSlot ->
  kv.VerifiedSlotInfos kv.decode_fields fuel
    (fixtures.store_closed_at MaxUint64) fromSlot = None.
Proof.
  intros Hfrom. unfold kv.VerifiedSlotInfos.
  assert (HL : kv.LatestSavedVerifiedSlot (fixtures.store_closed_at MaxUint64)
               = MaxUint64) by (vm_compute; reflexivity).
  rewrite HL.
  destruct (Z.ltb_spec MaxUint64 fromSlot) as [Hlt | _];
    [unfold is_uint64 in Hfrom; lia |].
  rewrite slotInfos_loop_max_cursor; [reflexivity | exact Hfrom].
Qed.


(** ** Close and reopen *)

Section CloseReopen.
Context {C : Type} `{Hcache : !kv.Ristretto C}.

Lemma fixed_keys_fit :
  (kv.latestSavedEpochKey <> [] /\ kv.latestSavedVerifiedSlotKey <> []
   /\ kv.latestHeaderHashKey <> []
   /\ kv.latestSavedVerifiedSlotKey <> kv.latestHeaderHashKey)
  /\ Z.of_nat (length kv.latestSavedEpochKey) <= bolt.MaxKeySize
  /\ Z.of_nat (length kv.latestSavedVerifiedSlotKey) <= bolt.MaxKeySize
  /\ Z.of_nat (length kv.latestHeaderHashKey) <= bolt.MaxKeySize.
Proof.
  repeat split; try discriminate; vm_compute; discriminate.
Qed.

(** Closing never fails, and tells where each cursor went. *)
Lemma Close_persists (s : kv.Store C) :
  common.wf_hash (kv.latestHeaderHash s) ->
  exists s',
    kv.Close s = (None, s')
    /\ kv.isRunning s' = false
    /\ bolt.Get (kv.consensusInfosBucket (kv.db s')) kv.latestSavedEpochKey
       = Some (bytesutil.Uint64ToBytesBigEndian (kv.latestEpoch s))
    /\ bolt.Get (kv.verifiedSlotInfosBucket (kv.db s'))
                kv.latestSavedVerifiedSlotKey
       = Some (bytesutil.Uint64ToBytesBigEndian (kv.latestVerifiedSlot s))
    /\ bolt.Get (kv.verifiedSlotInfosBucket (kv.db s')) kv.latestHeaderHashKey
       = Some (common.Bytes (kv.latestHeaderHash s)).
Proof.
  intros Hwf. destruct fixed_keys_fit as ((Hk1 & Hk2 & Hk3 & Hne) & Hl1 & Hl2 & Hl3).
  unfold kv.Close, kv.SaveLatestEpoch.
  rewrite Put_ok; [| done | done | rewrite Uint64ToBytes_length; unfold bolt.MaxValueSize; lia].
  unfold kv.SaveLatestVerifiedSlot. cbn [kv.db kv.set_db kv.set_consensusBucket
    kv.verifiedSlotInfosBucket kv.latestVerifiedSlot].
  rewrite Put_ok; [| done | done | rewrite Uint64ToBytes_length; unfold bolt.MaxValueSize; lia].
  unfold kv.SaveLatestVerifiedHeaderHash. cbn [kv.db kv.set_db kv.set_verifiedBucket
    kv.verifiedSlotInfosBucket kv.latestHeaderHash].
  rewrite Put_ok;
    [| done | done
     | unfold common.Bytes; rewrite Hwf; unfold bolt.MaxValueSize, common.HashLength; lia].
  eexists. split; [reflexivity |]. cbn. unfold bolt.Get.
  repeat split.
  - apply lookup_insert_eq.
  - rewrite lookup_insert_ne by (intros Heq; symmetry in Heq; exact (Hne Heq)).
    apply lookup_insert_eq.
  - apply lookup_insert_eq.
Qed.

(** C6. Whatever the store has been through, closing it and opening the same
    database again gives back the cursors it had before: the latest verified
    slot, the latest header hash and the latest epoch, as the in-memory fields
    [TestKV_Start_Stop] compares. *)
Theorem Close_reopen_keeps_cursors (s : kv.Store C) (fresh : C) :
  is_uint64 (kv.latestVerifiedSlot s) ->
  is_uint64 (kv.latestEpoch s) ->
  common.wf_hash (kv.latestHeaderHash s) ->
  exists closed,
    kv.Close s = (None, closed)
    /\ kv.latestVerifiedSlot (kv.NewKVStore (kv.db closed) fresh)
       = kv.latestVerifiedSlot s
    /\ kv.latestHeaderHash (kv.NewKVStore (kv.db closed) fresh)
       = kv.latestHeaderHash s
    /\ kv.latestEpoch (kv.NewKVStore (kv.db closed) fresh)
       = kv.latestEpoch s.
Proof.
  intros Hslot Hepoch Hwf.
  destruct (Close_persists s Hwf) as (closed & Hclose & _ & He & Hs & Hh).
  exists closed. split; [exact Hclose |].
  unfold kv.NewKVStore. cbn [kv.latestVerifiedSlot kv.latestHeaderHash kv.latestEpoch].
  unfold kv.LatestSavedVerifiedSlot, kv.LatestVerifiedHeaderHash, kv.LatestSavedEpoch.
  cbn [kv.isRunning kv.db negb].
  rewrite He, Hs, Hh.
  rewrite !BytesToUint64_Uint64ToBytes, BytesToHash_Bytes by done. done.
Qed.

End CloseReopen.

(** The run of [TestKV_Start_Stop]: slot 100, epoch 3 and the test's hash
    survive [Close] and a new [NewKVStore]. *)
Lemma Close_reopen_keeps_cursors_witness :
  exists closed,
    kv.Close fixtures.store_test = (None, closed)
    /\ kv.latestVerifiedSlot (kv.NewKVStore (kv.db closed) fixtures.emptyCache) = 100
    /\ kv.latestHeaderHash (kv.NewKVStore (kv.db closed) fixtures.emptyCache) = fixtures.headerHash
    /\ kv.latestEpoch (kv.NewKVStore (kv.db closed) fixtures.emptyCache) = 3.
Proof.
  apply (Close_reopen_keeps_cursors fixtures.store_test fixtures.emptyCache).
  - unfold is_uint64, MaxUint64. simpl. lia.
  - unfold is_uint64, MaxUint64. simpl. lia.
  - reflexivity.
Defined.

(** ** Concrete runs of the store *)

(** Slot 7 of the test store has no verdict: the lookup answers nil, nil. *)
Lemma VerifiedSlotInfo_missing_is_nil_nil_witness :
  kv.VerifiedSlotInfo kv.decode_fields fixtures.store_test 7 = (None, None).
Proof.
  apply (VerifiedSlotInfo_missing_is_nil_nil kv.decode_fields fixtures.store_test 7).
  intros [[si Hhit] | [v Hkey]]; vm_compute in *; discriminate.
Defined.

(** Saving slot 5 into the store whose cursor is 10. *)
Lemma SaveVerifiedSlotInfo_sets_cursor_to_slot_witness :
  exists s',
    kv.SaveVerifiedSlotInfo kv.encode_fields (fixtures.store_closed_at 10) 5
      (Some fixtures.info5) = (Return None, s')
    /\ kv.latestVerifiedSlot s' = 5
    /\ kv.latestHeaderHash s' = common.ZeroHash.
Proof.
  destruct (proj1 (SaveVerifiedSlotInfo_sets_cursor_to_slot kv.encode_fields
                     (fixtures.store_closed_at 10) 5 (Some fixtures.info5))
              fixtures.info5
              (bytesutil.Uint64ToBytesBigEndian 5 ++ 1 :: common.ZeroHash)
              eq_refl eq_refl)
    as (s' & Hrun & Hslot & Hhash & _).
  - vm_compute. discriminate.
  - exists s'. auto.
Defined.

(** C1, as the specification words it, fails: slot 5 is strictly below the
    cursor 10 (in memory and on disk), yet the call returns no error at all,
    the store changes, and the cursor becomes 5 and not [max 10 5]. *)
Lemma SaveVerifiedSlotInfo_accepts_slot_below_cursor :
  5 < kv.latestVerifiedSlot (fixtures.store_closed_at 10)
  /\ 5 < kv.LatestSavedVerifiedSlot (fixtures.store_closed_at 10)
  /\ exists s',
       kv.SaveVerifiedSlotInfo kv.encode_fields (fixtures.store_closed_at 10) 5
         (Some fixtures.info5) = (Return None, s')
       /\ s' <> fixtures.store_closed_at 10
       /\ kv.latestVerifiedSlot s' = 5
       /\ kv.latestVerifiedSlot s'
          <> Z.max (kv.latestVerifiedSlot (fixtures.store_closed_at 10)) 5.
Proof.
  split; [vm_compute; reflexivity |].
  split; [vm_compute; reflexivity |].
  eexists. split; [vm_compute; reflexivity |].
  split; [| split].
  - intros Heq. apply (f_equal kv.latestVerifiedSlot) in Heq.
    vm_compute in Heq. discriminate Heq.
  - reflexivity.
  - vm_compute. discriminate.
Qed.

(** C2 on an open store whose cursor is slot 100 with the test's hash, in
    memory and on disk: both accessors return the zero value, not the
    in-memory cursor the [InMemory...] accessors show. *)
Theorem LatestSaved_accessors_return_zero_while_running :
  kv.isRunning fixtures.store_open100 = true
  /\ kv.InMemoryLatestVerifiedSlot fixtures.store_open100 = 100
  /\ kv.LatestSavedVerifiedSlot fixtures.store_open100 = 0
  /\ kv.InMemoryLatestVerifiedHeaderHash fixtures.store_open100
     = fixtures.headerHash
  /\ kv.LatestVerifiedHeaderHash fixtures.store_open100 = common.ZeroHash
  /\ fixtures.headerHash <> common.ZeroHash.
Proof.
  repeat split; try reflexivity. vm_compute. discriminate.
Qed.

(** C4 on the same open store: slot 5 is not above the cursor 100 (the value
    in memory and the value on disk), yet the range query is refused with the
    invalid-slot error, because the cursor it compares with is the zero that
    [LatestSavedVerifiedSlot] returns while the store is running. *)
Theorem VerifiedSlotInfos_refuses_on_open_store :
  kv.isRunning fixtures.store_open100 = true
  /\ kv.latestVerifiedSlot fixtures.store_open100 = 100
  /\ bolt.Get (kv.verifiedSlotInfosBucket (kv.db fixtures.store_open100))
              kv.latestSavedVerifiedSlotKey
     = Some (bytesutil.Uint64ToBytesBigEndian 100)
  /\ forall fuel,
       kv.VerifiedSlotInfos kv.decode_fields fuel fixtures.store_open100 5
       = Some (None, Some (Wrap errInvalidSlot "fromSlot: 5")).
Proof.
  repeat split; reflexivity.
Qed.

(** The same query on the closed store with cursor 10 is answered. *)
Example VerifiedSlotInfos_closed_store :
  kv.VerifiedSlotInfos kv.decode_fields 10 (fixtures.store_closed_at 10) 5
  = Some (Some ∅, None).
Proof. vm_compute. reflexivity. Qed.

(** ** The bounded slot cache *)

Section CacheProperties.
Context {T : Type}.
Implicit Types (c : cache.PanHeaderCache T) (es : list (Z * T)).

Lemma lookup_slot_drop_upto_le es (s k : Z) :
  k <= s -> cache.lookup_slot T k (cache.drop_upto T s es) = None.
Proof.
  intros Hle. unfold cache.lookup_slot, cache.drop_upto.
  induction es as [| [k0 v0] es IH]; [reflexivity |].
  rewrite filter_cons. case_decide as Hk0; [| exact IH].
  cbn in Hk0 |- *. destruct (Z.eqb_spec k0 k); [lia | exact IH].
Qed.

Lemma lookup_slot_drop_upto_gt es (s k : Z) :
  s < k ->
  cache.lookup_slot T k (cache.drop_upto T s es) = cache.lookup_slot T k es.
Proof.
  intros Hlt. unfold cache.lookup_slot, cache.drop_upto.
  induction es as [| [k0 v0] es IH]; [reflexivity |].
  rewrite filter_cons. case_decide as Hk0; cbn in Hk0 |- *.
  - destruct (Z.eqb_spec k0 k); [reflexivity | exact IH].
  - destruct (Z.eqb_spec k0 k); [lia | exact IH].
Qed.

Lemma lookup_slot_elem es (k : Z) (v : T) :
  cache.lookup_slot T k es = Some v -> (k, v) ∈ es.
Proof.
  unfold cache.lookup_slot.
  induction es as [| [k0 v0] es IH]; [discriminate |].
  cbn. destruct (Z.eqb_spec k0 k) as [-> | Hne].
  - intros [= ->]. left.
  - intros Hfind. right. exact (IH Hfind).
Qed.

Lemma Get_result c (k : Z) :
  fst (cache.Get c k)
  = match cache.lookup_slot T k (cache.entries c) with
    | Some v => (Some v, None)
    | None => (None, Some cache.errInvalidSlot)
    end.
Proof. unfold cache.Get. destruct (cache.lookup_slot _ _ _); reflexivity. Qed.

Lemma Put_capacity c (k : Z) (v : T) :
  cache.capacity (cache.Put c k v) = cache.capacity c.
Proof. unfold cache.Put. destruct (cache.evicted c k v); reflexivity. Qed.

Lemma Get_capacity c (k : Z) :
  cache.capacity (snd (cache.Get c k)) = cache.capacity c.
Proof. unfold cache.Get. destruct (cache.lookup_slot _ _ _); reflexivity. Qed.

Lemma inserted_length c (k : Z) (v : T) :
  (length (cache.inserted T c k v) <= S (cache.size c))%nat.
Proof.
  unfold cache.inserted, cache.without_slot, cache.size. cbn.
  pose proof (length_filter (fun e : Z * T => fst e <> k) (cache.entries c)). lia.
Qed.

Lemma Put_size c (k : Z) (v : T) :
  (cache.size c <= cache.capacity c)%nat ->
  (cache.size (cache.Put c k v) <= cache.capacity (cache.Put c k v))%nat.
Proof.
  intros Hinv. rewrite Put_capacity. pose proof (inserted_length c k v) as Hlen.
  unfold cache.Put, cache.evicted. cbv zeta.
  remember (cache.inserted T c k v) as es eqn:Hes.
  destruct (Nat.ltb_spec (cache.capacity c) (length es)) as [Hfull | Hfits].
  - destruct (last es) as [[s vs] |] eqn:Hlast.
    + apply last_Some_elem_of in Hlast.
      pose proof (length_filter_lt (fun e : Z * T => s < fst e) _ _ Hlast) as Hdrop.
      cbn [fst] in Hdrop. specialize (Hdrop ltac:(lia)).
      unfold cache.size, cache.drop_upto.
      cbn [fmap option_fmap option_map cache.entries fst]. lia.
    + apply last_None in Hlast. subst es. discriminate Hlast.
  - unfold cache.size. cbn [cache.entries]. lia.
Qed.

Lemma Get_size c (k : Z) :
  (cache.size (snd (cache.Get c k)) <= cache.size c)%nat.
Proof.
  unfold cache.Get.
  destruct (cache.lookup_slot T k (cache.entries c)) as [v |] eqn:Hfind; [| done].
  unfold cache.size, cache.without_slot. cbn.
  apply lookup_slot_elem in Hfind.
  pose proof (length_filter_lt (fun e : Z * T => fst e <> k) _ _ Hfind) as Hdrop.
  cbn in Hdrop. specialize (Hdrop ltac:(tauto)). lia.
Qed.

Lemma Remove_size c (r : Z) :
  (cache.size (cache.Remove c r) <= cache.size c)%nat.
Proof. unfold cache.size, cache.Remove, cache.drop_upto. cbn. apply length_filter. Qed.

Lemma Remove_capacity c (r : Z) :
  cache.capacity (cache.Remove c r) = cache.capacity c.
Proof. reflexivity. Qed.

Lemma step_size c (op : cache.call T) :
  (cache.size c <= cache.capacity c)%nat ->
  (cache.size (cache.step c op) <= cache.capacity (cache.step c op))%nat.
Proof.
  intros Hinv. destruct op as [k v | k | r]; cbn [cache.step].
  - apply Put_size, Hinv.
  - rewrite Get_capacity. pose proof (Get_size c k). lia.
  - rewrite Remove_capacity. pose proof (Remove_size c r). lia.
Qed.

Lemma run_size (ops : list (cache.call T)) c :
  (cache.size c <= cache.capacity c)%nat ->
  (cache.size (cache.run c ops) <= cache.capacity (cache.run c ops))%nat.
Proof.
  revert c. induction ops as [| op ops IH]; intros c Hinv; [exact Hinv |].
  change (cache.run c (op :: ops)) with (cache.run (cache.step c op) ops).
  apply IH, step_size, Hinv.
Qed.

Lemma run_capacity (ops : list (cache.call T)) c :
  cache.capacity (cache.run c ops) = cache.capacity c.
Proof.
  revert c. induction ops as [| op ops IH]; intros c; [reflexivity |].
  change (cache.run c (op :: ops)) with (cache.run (cache.step c op) ops).
  rewrite IH. destruct op as [k v | k | r]; cbn [cache.step].
  - apply Put_capacity.
  - apply Get_capacity.
  - reflexivity.
Qed.

(** C7. A cache made with capacity [maxCacheSize] (1024 by default) never
    holds more entries than that, whatever calls are made on it; and when a
    [Put] evicts slot [s], every slot [k'] up to [s] is answered with the
    "Invalid slot" error afterwards. *)
Theorem cache_bounded_and_eviction_drops_older
    (maxCacheSize : nat) (ops : list (cache.call T)) :
  (cache.size (cache.run (cache.NewPanHeaderCache maxCacheSize) ops)
   <= maxCacheSize)%nat
  /\ (cache.size (cache.run (cache.NewPanHeaderCache cache.defaultMaxCacheSize) ops)
      <= 1024)%nat
  /\ forall c (slot : Z) (v : T) (s : Z),
       c = cache.run (cache.NewPanHeaderCache maxCacheSize) ops ->
       cache.evicted c slot v = Some s ->
       forall k', k' <= s ->
         fst (cache.Get (cache.Put c slot v) k')
         = (None, Some cache.errInvalidSlot).
Proof.
  assert (Hbound : forall n,
             (cache.size (cache.run (cache.NewPanHeaderCache (T := T) n) ops) <= n)%nat).
  { intros n.
    pose proof (run_size ops (cache.NewPanHeaderCache n)) as Hsize.
    rewrite run_capacity in Hsize. apply Hsize. cbn. lia. }
  split; [apply Hbound |]. split; [apply (Hbound cache.defaultMaxCacheSize) |].
  intros c slot v s _ Hev k' Hle.
  rewrite Get_result. unfold cache.Put. rewrite Hev. cbn [cache.entries].
  rewrite lookup_slot_drop_upto_le by exact Hle. reflexivity.
Qed.

(** C8. After [Remove(r)] every slot up to [r] is answered with the "Invalid
    slot" error, and every slot above [r] that was present is answered with
    the value it had: the entries above [r] are untouched. *)
Theorem Remove_drops_upto_and_keeps_above c (r : Z) :
  (forall k, k <= r ->
     fst (cache.Get (cache.Remove c r) k) = (None, Some cache.errInvalidSlot))
  /\ (forall k v, r < k ->
        fst (cache.Get c k) = (Some v, None) ->
        fst (cache.Get (cache.Remove c r) k) = (Some v, None))
  /\ filter (fun e : Z * T => r < fst e) (cache.entries (cache.Remove c r))
     = filter (fun e : Z * T => r < fst e) (cache.entries c).
Proof.
  split; [| split].
  - intros k Hle. rewrite Get_result. unfold cache.Remove. cbn [cache.entries].
    rewrite lookup_slot_drop_upto_le by exact Hle. reflexivity.
  - intros k v Hlt. rewrite !Get_result. unfold cache.Remove. cbn [cache.entries].
    rewrite lookup_slot_drop_upto_gt by exact Hlt. done.
  - unfold cache.Remove, cache.drop_upto. cbn [cache.entries].
    apply list_filter_filter_l. tauto.
Qed.

End CacheProperties.

(** The run of [Test_PandoraHeaderCache_Size]: capacity 10, slots 0 to 99 put
    in order; slot 88 is gone, slot 90 is there. *)
Example PandoraHeaderCache_Size_run :
  let puts := (fun i => cache.CallPut (Z.of_nat i) i) <$> seq 0 100 in
  let pc := cache.run (cache.NewPanHeaderCache 10) puts in
  fst (cache.Get pc 88) = (None, Some cache.errInvalidSlot)
  /\ fst (cache.Get pc 90) = (Some 90%nat, None)
  /\ cache.size pc = 10%nat.
Proof. vm_compute. repeat split; reflexivity. Qed.

(** Capacity 2 holding slots 5 and 7: putting slot 9 evicts slot 5, and
    slots 3 and 5 are answered with the error. *)
Lemma cache_bounded_and_eviction_drops_older_witness :
  let ops := [cache.CallPut 5 "a"; cache.CallPut 7 "b"] in
  let c := cache.run (cache.NewPanHeaderCache 2) ops in
  (cache.size c <= 2)%nat
  /\ cache.evicted c 9 "c" = Some 5
  /\ fst (cache.Get (cache.Put c 9 "c") 3) = (None, Some cache.errInvalidSlot)
  /\ fst (cache.Get (cache.Put c 9 "c") 5) = (None, Some cache.errInvalidSlot).
Proof.
  intros ops c.
  pose proof (cache_bounded_and_eviction_drops_older 2 ops) as (Hsize & _ & Hevict).
  split; [exact Hsize |]. split; [reflexivity |].
  split.
  - apply (Hevict c 9 "c" 5 eq_refl eq_refl 3). lia.
  - apply (Hevict c 9 "c" 5 eq_refl eq_refl 5). lia.
Defined.

(** Slots 3, 5 and 7 cached, [Remove(5)]: 3 and 5 are gone, 7 keeps its
    value. *)
Lemma Remove_drops_upto_and_keeps_above_witness :
  let c := cache.run (cache.NewPanHeaderCache 8)
             [cache.CallPut 3 "a"; cache.CallPut 5 "b"; cache.CallPut 7 "c"] in
  fst (cache.Get (cache.Remove c 5) 3) = (None, Some cache.errInvalidSlot)
  /\ fst (cache.Get (cache.Remove c 5) 5) = (None, Some cache.errInvalidSlot)
  /\ fst (cache.Get (cache.Remove c 5) 7) = (Some "c", None).
Proof.
  intros c.
  pose proof (Remove_drops_upto_and_keeps_above c 5) as (Hgone & Hkept & _).
  split; [apply Hgone; lia |]. split; [apply Hgone; lia |].
  apply Hkept; [lia | reflexivity].
Defined.

(** ** The Vanguard handlers *)

Section HandlerProperties.
Context {D : Type} `{Hdb : !vanguardchain.Database D}.
Variable HashTreeRoot : vanguardchain.BeaconBlock -> error + bytes.
Implicit Types (svc : vanguardchain.Service D).

(** Unfold the state monad down to the service record. *)
Ltac run_handler :=
  unfold vanguardchain.OnNewPendingVanguardBlock, vanguardchain.OnNewConsensusInfo,
    mbind, vanguardchain.M_bind, vanguardchain.bind,
    vanguardchain.db_SaveVanguardHeaderHash, vanguardchain.db_SaveConsensusInfo;
  cbn -[Z.ltb common.BytesToHash].

(** C9. A nil block makes the handler return normally after one warning:
    the journal grows by that log line only (no cursor read, no save, no
    send), and database and feeds are what they were. *)
Theorem OnNewPendingVanguardBlock_nil_block svc :
  exists svc',
    vanguardchain.OnNewPendingVanguardBlock HashTreeRoot None svc
    = (Return tt, svc')
    /\ vanguardchain.journal svc'
       = vanguardchain.journal svc
         ++ [vanguardchain.Log vanguardchain.WarnLevel
               "failed to save vanguard block hash"]
    /\ vanguardchain.orchestratorDB svc' = vanguardchain.orchestratorDB svc
    /\ vanguardchain.consensusInfoFeed svc' = vanguardchain.consensusInfoFeed svc
    /\ vanguardchain.vanguardPendingBlockHashFeed svc'
       = vanguardchain.vanguardPendingBlockHashFeed svc.
Proof.
  run_handler. eexists. split; [reflexivity |]. cbn. auto.
Qed.

(** C3. A block whose slot is strictly below the latest verified slot the
    database reports is dropped before any mutation: the handler reads the
    cursor, logs "reorgs not supported" and returns, with database and both
    feeds unchanged and no send or save in the journal. A block at or above
    that slot passes the check: the handler goes on to hash it, and when the
    root is computed and the first shard is there, the pending header is sent
    on the feed and handed to the database. (The handler has no cache among
    the things it can touch: database, two feeds, log.) *)
Theorem OnNewPendingVanguardBlock_reorg_check
    svc (block : vanguardchain.BeaconBlock) :
  (vanguardchain.block_Slot block
     < vanguardchain.LatestVerifiedRealmSlot (vanguardchain.orchestratorDB svc) ->
   exists svc',
     vanguardchain.OnNewPendingVanguardBlock HashTreeRoot (Some block) svc
     = (Return tt, svc')
     /\ vanguardchain.journal svc'
        = vanguardchain.journal svc
          ++ [vanguardchain.ReadLatestVerifiedRealmSlot;
              vanguardchain.Log vanguardchain.ErrorLevel "reorgs not supported"]
     /\ vanguardchain.orchestratorDB svc' = vanguardchain.orchestratorDB svc
     /\ vanguardchain.consensusInfoFeed svc' = vanguardchain.consensusInfoFeed svc
     /\ vanguardchain.vanguardPendingBlockHashFeed svc'
        = vanguardchain.vanguardPendingBlockHashFeed svc)
  /\ (vanguardchain.LatestVerifiedRealmSlot (vanguardchain.orchestratorDB svc)
        <= vanguardchain.block_Slot block ->
      (exists rest,
         vanguardchain.journal
           (snd (vanguardchain.OnNewPendingVanguardBlock HashTreeRoot
                   (Some block) svc))
         = vanguardchain.journal svc
           ++ vanguardchain.ReadLatestVerifiedRealmSlot
              :: vanguardchain.ComputeHashTreeRoot :: rest)
      /\ forall root shardInfo others,
           HashTreeRoot block = inr root ->
           vanguardchain.GetPandoraShard (vanguardchain.GetBody block)
           = Some shardInfo :: others ->
           exists h,
             types.HeaderHash_ h = common.BytesToHash root
             /\ types.Status_ h = types.Pending
             /\ types.BlockNumber h = vanguardchain.shard_BlockNumber shardInfo
             /\ vanguardchain.delivered
                  (vanguardchain.vanguardPendingBlockHashFeed
                     (snd (vanguardchain.OnNewPendingVanguardBlock HashTreeRoot
                             (Some block) svc)))
                = vanguardchain.delivered
                    (vanguardchain.vanguardPendingBlockHashFeed svc) ++ [h]
             /\ vanguardchain.orchestratorDB
                  (snd (vanguardchain.OnNewPendingVanguardBlock HashTreeRoot
                          (Some block) svc))
                = snd (vanguardchain.SaveVanguardHeaderHash
                         (vanguardchain.orchestratorDB svc)
                         (vanguardchain.block_Slot block) h)).
Proof.
  split.
  - intros Hlt. run_handler.
    destruct (Z.ltb_spec (vanguardchain.block_Slot block)
                (vanguardchain.LatestVerifiedRealmSlot
                   (vanguardchain.orchestratorDB svc))) as [_ | Hge]; [| lia].
    cbn. eexists. split; [reflexivity |]. cbn.
    rewrite <- app_assoc. auto.
  - intros Hle. run_handler.
    destruct (Z.ltb_spec (vanguardchain.block_Slot block)
                (vanguardchain.LatestVerifiedRealmSlot
                   (vanguardchain.orchestratorDB svc))) as [Hlt | _]; [lia |].
    cbn -[common.BytesToHash]. split.
    + destruct (HashTreeRoot block) as [err | root]; cbn -[common.BytesToHash].
      { eexists. rewrite <- !app_assoc. reflexivity. }
      destruct (vanguardchain.GetPandoraShard _) as [| [shardInfo |] others];
        cbn -[common.BytesToHash];
        try (eexists; rewrite <- !app_assoc; reflexivity).
      match goal with
      | |- context [vanguardchain.SaveVanguardHeaderHash ?d ?n ?h] =>
          destruct (vanguardchain.SaveVanguardHeaderHash d n h) as [[err |] d']
      end;
        cbn -[common.BytesToHash];
        eexists; rewrite <- !app_assoc; reflexivity.
    + intros root shardInfo others Hroot Hshards.
      rewrite Hroot, Hshards. cbn -[common.BytesToHash].
      match goal with
      | |- context [vanguardchain.SaveVanguardHeaderHash ?d ?n ?h] =>
          destruct (vanguardchain.SaveVanguardHeaderHash d n h)
            as [[err |] d'] eqn:Hsave
      end;
        cbn -[common.BytesToHash];
        eexists; (repeat split; [reflexivity ..| ]);
        cbn -[common.BytesToHash]; rewrite Hsave; reflexivity.
Qed.

(** C5, as the code has it. The handler first sends the consensus info on
    the feed and only then hands it to [SaveConsensusInfo]; a failed save is
    logged after the info has already gone out. *)
Theorem OnNewConsensusInfo_sends_then_saves
    svc (consensusInfo : types.MinimalEpochConsensusInfo) :
  let svc' := snd (vanguardchain.OnNewConsensusInfo consensusInfo svc) in
  let saved := vanguardchain.SaveConsensusInfo
                 (vanguardchain.orchestratorDB svc) consensusInfo in
  vanguardchain.journal svc'
  = vanguardchain.journal svc
    ++ [vanguardchain.SendConsensusInfo consensusInfo;
        vanguardchain.Log vanguardchain.TraceLevel
          "Send consensus info to subscribers";
        vanguardchain.CallSaveConsensusInfo consensusInfo]
    ++ match fst saved with
       | Some _ => [vanguardchain.Log vanguardchain.WarnLevel
                      "failed to save consensus info into consensusInfoDB!"]
       | None => []
       end
  /\ vanguardchain.delivered (vanguardchain.consensusInfoFeed svc')
     = vanguardchain.delivered (vanguardchain.consensusInfoFeed svc)
       ++ [consensusInfo]
  /\ vanguardchain.orchestratorDB svc' = snd saved.
Proof.
  run_handler.
  destruct (vanguardchain.SaveConsensusInfo _ _) as [[err |] d]; cbn;
    rewrite <- ?app_assoc; auto.
Qed.

End HandlerProperties.

(** ** Concrete runs of the handlers *)

(** Cursor at slot 10: the block of slot 9 is dropped, the block of slot 10
    is hashed, sent and saved. *)
Lemma OnNewPendingVanguardBlock_reorg_check_witness :
  (exists svc',
     vanguardchain.OnNewPendingVanguardBlock fixtures.root_of
       (Some (fixtures.block_at 9)) fixtures.service10 = (Return tt, svc')
     /\ vanguardchain.journal svc'
        = [vanguardchain.ReadLatestVerifiedRealmSlot;
           vanguardchain.Log vanguardchain.ErrorLevel "reorgs not supported"]
     /\ vanguardchain.orchestratorDB svc'
        = vanguardchain.orchestratorDB fixtures.service10
     /\ vanguardchain.consensusInfoFeed svc'
        = vanguardchain.consensusInfoFeed fixtures.service10
     /\ vanguardchain.vanguardPendingBlockHashFeed svc'
        = vanguardchain.vanguardPendingBlockHashFeed fixtures.service10)
  /\ exists h,
       types.HeaderHash_ h = common.BytesToHash fixtures.headerHash
       /\ types.Status_ h = types.Pending
       /\ types.BlockNumber h = 42
       /\ vanguardchain.delivered
            (vanguardchain.vanguardPendingBlockHashFeed
               (snd (vanguardchain.OnNewPendingVanguardBlock fixtures.root_of
                       (Some (fixtures.block_at 10)) fixtures.service10)))
          = [h]
       /\ vanguardchain.savedHashes
            (vanguardchain.orchestratorDB
               (snd (vanguardchain.OnNewPendingVanguardBlock fixtures.root_of
                       (Some (fixtures.block_at 10)) fixtures.service10)))
          = [(10, h)].
Proof.
  split.
  - apply (proj1 (OnNewPendingVanguardBlock_reorg_check fixtures.root_of
                    fixtures.service10 (fixtures.block_at 9))).
    vm_compute. reflexivity.
  - pose proof (proj2 (OnNewPendingVanguardBlock_reorg_check
                         fixtures.root_of fixtures.service10
                         (fixtures.block_at 10))) as Hpass.
    destruct (proj2 (Hpass ltac:(vm_compute; discriminate))
                fixtures.headerHash fixtures.shard42 [] eq_refl eq_refl)
      as (h & Hhash & Hstatus & Hnumber & Hsent & Hsaved).
    exists h. repeat split; [exact Hhash | exact Hstatus | exact Hnumber
                           | exact Hsent | rewrite Hsaved; reflexivity].
Defined.

(** C5, as the specification words it, fails: on the arrival of epoch 0 the
    journal shows the send at position 0 and the save at position 2, so the
    info is not saved before it is sent. *)
Lemma OnNewConsensusInfo_does_not_save_first :
  vanguardchain.journal
    (snd (vanguardchain.OnNewConsensusInfo fixtures.epoch0 fixtures.service10))
  = [vanguardchain.SendConsensusInfo fixtures.epoch0;
     vanguardchain.Log vanguardchain.TraceLevel
       "Send consensus info to subscribers";
     vanguardchain.CallSaveConsensusInfo fixtures.epoch0]
  /\ vanguardchain.saved_before_sent
       (vanguardchain.journal
          (snd (vanguardchain.OnNewConsensusInfo fixtures.epoch0
                  fixtures.service10)))
     = false.
Proof. split; reflexivity. Qed.

(** * Further properties of the store *)

Section StoreExtras.
Context {C : Type} `{Hcache : !kv.Ristretto C}.
Variable encode : types.SlotInfoPtr -> error + bytes.
Variable decode : bytes -> types.SlotInfoPtr * option error.

Lemma Uint64ToBytes_inj (a b : Z) :
  is_uint64 a -> is_uint64 b ->
  bytesutil.Uint64ToBytesBigEndian a = bytesutil.Uint64ToBytesBigEndian b ->
  a = b.
Proof.
  intros Ha Hb Heq.
  rewrite <- (BytesToUint64_Uint64ToBytes a Ha), <- (BytesToUint64_Uint64ToBytes b Hb).
  now rewrite Heq.
Qed.

(** What the slot query finds for one slot: the cache first, then the bucket,
    whose value is decoded with the decoder's error dropped. *)
Lemma slotInfos_loop_content (fuel : nat) :
  forall (s : kv.Store C) (L slot : Z) (acc m : gmap Z types.SlotInfoPtr),
    L < MaxUint64 -> 0 <= slot ->
    kv.slotInfos_loop decode fuel s L slot acc = Some m ->
    forall k,
      m !! k
      = if decide (slot <= k <= L) then
          match fst (kv.rGet (kv.verifiedSlotInfoCache s) k) with
          | Some v => Some v
          | None =>
              match bolt.Get (kv.verifiedSlotInfosBucket (kv.db s))
                      (bytesutil.Uint64ToBytesBigEndian k) with
              | Some enc => Some (fst (decode enc))
              | None => acc !! k
              end
          end
        else acc !! k.
Proof.
  induction fuel as [| fuel IH]; intros s L slot acc m HL Hslot; [done |].
  cbn [kv.slotInfos_loop].
  destruct (Z.leb_spec slot L) as [Hle | Hgt].
  2:{ intros [= <-] k. case_decide; [lia | done]. }
  rewrite wrap64_succ by lia.
  assert (Hnext : 0 <= slot + 1) by lia.
  destruct (fst (kv.rGet (kv.verifiedSlotInfoCache s) slot)) as [v |] eqn:Hget.
  - intros Hrun k. rewrite (IH _ _ _ _ _ HL Hnext Hrun k).
    destruct (decide (k = slot)) as [-> | Hne].
    + rewrite lookup_insert_eq, Hget.
      case_decide; [lia |]. case_decide; [done | lia].
    + rewrite lookup_insert_ne by done.
      repeat case_decide; try lia; reflexivity.
  - destruct (bolt.Get (kv.verifiedSlotInfosBucket (kv.db s))
                (bytesutil.Uint64ToBytesBigEndian slot)) as [enc |] eqn:Hbkt.
    + intros Hrun k. rewrite (IH _ _ _ _ _ HL Hnext Hrun k).
      destruct (decide (k = slot)) as [-> | Hne].
      * rewrite lookup_insert_eq, Hget, Hbkt.
        case_decide; [lia |]. case_decide; [done | lia].
      * rewrite lookup_insert_ne by done.
        repeat case_decide; try lia; reflexivity.
    + intros Hrun k. rewrite (IH _ _ _ _ _ HL Hnext Hrun k).
      destruct (decide (k = slot)) as [-> | Hne].
      * rewrite Hget, Hbkt.
        case_decide; [lia |]. case_decide; [done | lia].
      * repeat case_decide; try lia; reflexivity.
Qed.

(** X1. The range query, against the bound [L] it reads: a [fromSlot] above
    [L] is refused with the wrapped invalid-slot error; otherwise (and with
    [L] below the largest [uint64]) [L + 1 - fromSlot] rounds of the loop give
    a map that holds, for each slot of [fromSlot .. L], the cached slot info
    if the cache has one, else the decoded bucket value if the bucket has one
    (a decoder error is dropped), and nothing outside that range. *)
Theorem VerifiedSlotInfos_answer (s : kv.Store C) (fromSlot : Z) :
  0 <= fromSlot ->
  (kv.LatestSavedVerifiedSlot s < fromSlot ->
   forall fuel,
     kv.VerifiedSlotInfos decode fuel s fromSlot
     = Some (None, Some (Wrap errInvalidSlot ("fromSlot: " +:+ pretty fromSlot))))
  /\ (fromSlot <= kv.LatestSavedVerifiedSlot s < MaxUint64 ->
      exists m,
        kv.VerifiedSlotInfos decode
          (S (Z.to_nat (kv.LatestSavedVerifiedSlot s + 1 - fromSlot))) s fromSlot
        = Some (Some m, None)
        /\ forall k,
             m !! k
             = if decide (fromSlot <= k <= kv.LatestSavedVerifiedSlot s)
               then kv.range_entry decode s k else None).
Proof.
  intros Hfrom. unfold kv.VerifiedSlotInfos. split.
  - intros Hlt fuel.
    destruct (Z.ltb_spec (kv.LatestSavedVerifiedSlot s) fromSlot) as [_ | Hge];
      [done | lia].
  - intros [Hle HL].
    destruct (Z.ltb_spec (kv.LatestSavedVerifiedSlot s) fromSlot) as [Hlt | _];
      [lia |].
    set (L := kv.LatestSavedVerifiedSlot s) in *.
    destruct (slotInfos_loop_returns decode (S (Z.to_nat (L + 1 - fromSlot)))
                s L fromSlot ∅) as [m Hm]; [done | lia | lia |].
    exists m. rewrite Hm. split; [done |].
    intros k.
    rewrite (slotInfos_loop_content _ s L fromSlot ∅ m HL Hfrom Hm k).
    unfold kv.range_entry. case_decide; [| apply lookup_empty].
    destruct (fst (kv.rGet _ k)); [done |].
    destruct (bolt.Get _ _); [done | apply lookup_empty].
Qed.

(** X2. With the bound at the largest [uint64] the range query does not
    return: the loop counter wraps to zero and the loop condition holds for
    ever, whatever the first slot asked for. *)
Theorem VerifiedSlotInfos_diverges_at_max_cursor
    (s : kv.Store C) (fromSlot : Z) (fuel : nat) :
  kv.LatestSavedVerifiedSlot s = MaxUint64 ->
  is_uint64 fromSlot ->
  kv.VerifiedSlotInfos decode fuel s fromSlot = None.
Proof.
  intros HL Hfrom. unfold kv.VerifiedSlotInfos. rewrite HL.
  destruct (Z.ltb_spec MaxUint64 fromSlot) as [Hlt | _];
    [unfold is_uint64 in Hfrom; lia |].
  rewrite slotInfos_loop_max_cursor; [reflexivity | exact Hfrom].
Qed.

Lemma Put_cursor_key (b : bolt.Bucket) (v : bytes) :
  Z.of_nat (length v) <= bolt.MaxValueSize ->
  bolt.Put b kv.latestSavedVerifiedSlotKey v
  = inr (<[kv.latestSavedVerifiedSlotKey := v]> b)
  /\ bolt.Put b kv.latestHeaderHashKey v
     = inr (<[kv.latestHeaderHashKey := v]> b).
Proof.
  intros Hv. destruct fixed_keys_fit as ((_ & Hk2 & Hk3 & _) & _ & Hl2 & Hl3).
  split; apply Put_ok; done.
Qed.

(** X3. Persisting the slot cursor cannot fail; on a store that is not
    running the accessor then reads back the in-memory cursor, and the write
    disturbs nothing else: every slot lookup and the persisted hash answer as
    before. *)
Theorem SaveLatestVerifiedSlot_read_back (s : kv.Store C) :
  kv.isRunning s = false ->
  is_uint64 (kv.latestVerifiedSlot s) ->
  exists s',
    kv.SaveLatestVerifiedSlot s = (None, s')
    /\ kv.LatestSavedVerifiedSlot s' = kv.latestVerifiedSlot s
    /\ kv.LatestVerifiedHeaderHash s' = kv.LatestVerifiedHeaderHash s
    /\ (forall slot,
          kv.VerifiedSlotInfo decode s' slot = kv.VerifiedSlotInfo decode s slot)
    /\ kv.latestVerifiedSlot s' = kv.latestVerifiedSlot s
    /\ kv.latestHeaderHash s' = kv.latestHeaderHash s.
Proof.
  intros Hrun Hslot. unfold kv.SaveLatestVerifiedSlot.
  destruct (Put_cursor_key (kv.verifiedSlotInfosBucket (kv.db s))
              (bytesutil.Uint64ToBytesBigEndian (kv.latestVerifiedSlot s)))
    as [-> _]; [rewrite Uint64ToBytes_length; unfold bolt.MaxValueSize; lia |].
  destruct fixed_keys_fit as ((_ & _ & _ & Hne) & _).
  eexists. split; [reflexivity |].
  unfold kv.LatestSavedVerifiedSlot, kv.LatestVerifiedHeaderHash,
    kv.VerifiedSlotInfo, bolt.Get.
  cbn [kv.isRunning kv.db kv.set_db kv.set_verifiedBucket
       kv.verifiedSlotInfosBucket kv.verifiedSlotInfoCache
       kv.latestVerifiedSlot kv.latestHeaderHash].
  rewrite Hrun. cbn [negb].
  rewrite lookup_insert_eq, BytesToUint64_Uint64ToBytes by done.
  rewrite lookup_insert_ne by exact Hne.
  repeat split.
  intros slot. destruct (slot_key_not_cursor_key slot) as [Hk _].
  rewrite lookup_insert_ne by congruence. reflexivity.
Qed.

(** X4. Persisting the header hash cannot fail either; a store that is not
    running then reads back the in-memory hash, and slot lookups and the
    persisted slot cursor answer as before. *)
Theorem SaveLatestVerifiedHeaderHash_read_back (s : kv.Store C) :
  kv.isRunning s = false ->
  common.wf_hash (kv.latestHeaderHash s) ->
  exists s',
    kv.SaveLatestVerifiedHeaderHash s = (None, s')
    /\ kv.LatestVerifiedHeaderHash s' = kv.latestHeaderHash s
    /\ kv.LatestSavedVerifiedSlot s' = kv.LatestSavedVerifiedSlot s
    /\ (forall slot,
          kv.VerifiedSlotInfo decode s' slot = kv.VerifiedSlotInfo decode s slot)
    /\ kv.latestVerifiedSlot s' = kv.latestVerifiedSlot s
    /\ kv.latestHeaderHash s' = kv.latestHeaderHash s.
Proof.
  intros Hrun Hwf. unfold kv.SaveLatestVerifiedHeaderHash.
  destruct (Put_cursor_key (kv.verifiedSlotInfosBucket (kv.db s))
              (common.Bytes (kv.latestHeaderHash s)))
    as [_ ->];
    [unfold common.Bytes; rewrite Hwf;
     unfold bolt.MaxValueSize, common.HashLength; lia |].
  destruct fixed_keys_fit as ((_ & _ & _ & Hne) & _).
  eexists. split; [reflexivity |].
  unfold kv.LatestSavedVerifiedSlot, kv.LatestVerifiedHeaderHash,
    kv.VerifiedSlotInfo, bolt.Get.
  cbn [kv.isRunning kv.db kv.set_db kv.set_verifiedBucket
       kv.verifiedSlotInfosBucket kv.verifiedSlotInfoCache
       kv.latestVerifiedSlot kv.latestHeaderHash].
  rewrite Hrun. cbn [negb].
  rewrite lookup_insert_eq, BytesToHash_Bytes by done.
  rewrite lookup_insert_ne by (intros Heq; symmetry in Heq; exact (Hne Heq)).
  repeat split.
  intros slot. destruct (slot_key_not_cursor_key slot) as [_ Hk].
  rewrite lookup_insert_ne by congruence. reflexivity.
Qed.

(** X5. Save, then look up: after a successful save of a slot info the lookup
    of that slot answers with the pointer the cache returns when the cache
    has the slot, and otherwise with the decoding of the very bytes that were
    written; it does not fall through to "nil, nil". *)
Theorem VerifiedSlotInfo_after_save
    (s : kv.Store C) (slot : Z) (si : types.SlotInfo) (enc : bytes) :
  encode (Some si) = inr enc ->
  Z.of_nat (length enc) <= bolt.MaxValueSize ->
  exists s',
    kv.SaveVerifiedSlotInfo encode s slot (Some si) = (Return None, s')
    /\ kv.verifiedSlotInfoCache s'
       = fst (kv.rSet (kv.verifiedSlotInfoCache s) slot (Some si) 0)
    /\ kv.VerifiedSlotInfo decode s' slot
       = match kv.rGet (kv.verifiedSlotInfoCache s') slot with
         | (Some v, true) => (v, None)
         | _ => decode enc
         end.
Proof.
  intros Henc Hlen. unfold kv.SaveVerifiedSlotInfo. rewrite Henc.
  destruct (kv.rSet (kv.verifiedSlotInfoCache s) slot (Some si) 0) as [c st].
  rewrite (Put_slot_key _ slot enc Hlen).
  eexists. split; [reflexivity |]. split; [reflexivity |].
  unfold kv.VerifiedSlotInfo, bolt.Get.
  cbn [kv.db kv.set_db kv.set_cache kv.set_latestVerifiedSlot
       kv.set_latestHeaderHash kv.set_verifiedBucket kv.verifiedSlotInfosBucket
       kv.verifiedSlotInfoCache].
  rewrite lookup_insert_eq. reflexivity.
Qed.

(** X6. A save writes under its own slot's key only: whatever the outcome,
    the bucket entry of every other [uint64] slot, and the two persisted
    cursor keys, are what they were. *)
Theorem SaveVerifiedSlotInfo_other_slots_kept
    (s : kv.Store C) (slot other : Z) (slotInfo : types.SlotInfoPtr) :
  is_uint64 slot -> is_uint64 other -> other <> slot ->
  let s' := snd (kv.SaveVerifiedSlotInfo encode s slot slotInfo) in
  bolt.Get (kv.verifiedSlotInfosBucket (kv.db s'))
           (bytesutil.Uint64ToBytesBigEndian other)
  = bolt.Get (kv.verifiedSlotInfosBucket (kv.db s))
             (bytesutil.Uint64ToBytesBigEndian other)
  /\ bolt.Get (kv.verifiedSlotInfosBucket (kv.db s'))
              kv.latestSavedVerifiedSlotKey
     = bolt.Get (kv.verifiedSlotInfosBucket (kv.db s))
                kv.latestSavedVerifiedSlotKey
  /\ bolt.Get (kv.verifiedSlotInfosBucket (kv.db s')) kv.latestHeaderHashKey
     = bolt.Get (kv.verifiedSlotInfosBucket (kv.db s)) kv.latestHeaderHashKey.
Proof.
  intros Hslot Hother Hne. unfold kv.SaveVerifiedSlotInfo.
  destruct (encode slotInfo) as [err | enc]; [done |].
  destruct (kv.rSet (kv.verifiedSlotInfoCache s) slot slotInfo 0) as [c st].
  unfold bolt.Put.
  destruct (decide _) as [Hnil | _]; [discriminate Hnil |].
  destruct (_ <? _); [done |]. destruct (_ <? _); [done |].
  destruct slotInfo as [si |]; [| done].
  cbn [snd kv.db kv.set_db kv.set_cache kv.set_latestVerifiedSlot
       kv.set_latestHeaderHash kv.set_verifiedBucket kv.verifiedSlotInfosBucket].
  destruct (slot_key_not_cursor_key slot) as [Hk1 Hk2].
  unfold bolt.Get. rewrite !lookup_insert_ne; [done | done | done |].
  intros Heq. apply Hne. symmetry. exact (Uint64ToBytes_inj _ _ Hslot Hother Heq).
Qed.

(** X7. The only errors a save returns are the encoder's, with the store
    untouched (the cache too), and bolt's value-too-large for an encoding
    above its limit, with only the cache entry set: no error comes from
    comparing the slot with the cursor. *)
Theorem SaveVerifiedSlotInfo_error_cases
    (s : kv.Store C) (slot : Z) (slotInfo : types.SlotInfoPtr)
    (e : error) (s' : kv.Store C) :
  kv.SaveVerifiedSlotInfo encode s slot slotInfo = (Return (Some e), s') ->
  (encode slotInfo = inl e /\ s' = s)
  \/ (exists enc,
        encode slotInfo = inr enc
        /\ bolt.MaxValueSize < Z.of_nat (length enc)
        /\ e = ErrValueTooLarge
        /\ s' = kv.set_cache s
                  (fst (kv.rSet (kv.verifiedSlotInfoCache s) slot slotInfo 0))).
Proof.
  unfold kv.SaveVerifiedSlotInfo.
  destruct (encode slotInfo) as [err | enc]; [intros [= <- <-]; left; done |].
  destruct (kv.rSet (kv.verifiedSlotInfoCache s) slot slotInfo 0) as [c st].
  unfold bolt.Put.
  destruct (decide _) as [Hnil | _]; [discriminate Hnil |].
  rewrite Uint64ToBytes_length.
  destruct (Z.ltb_spec bolt.MaxKeySize (Z.of_nat 8)) as [Hk | _];
    [unfold bolt.MaxKeySize in Hk; lia |].
  destruct (Z.ltb_spec bolt.MaxValueSize (Z.of_nat (length enc))) as [Hbig | _].
  - intros [= <- <-]. right. exists enc. done.
  - destruct slotInfo; intros [=].
Qed.

(** X8. A nil slot info that the encoder accepts brings the call down with a
    nil dereference on its last assignment: by then the cache entry is set and
    the in-memory cursor already is [slot], while the bucket write is rolled
    back and the in-memory hash is the old one. *)
Theorem SaveVerifiedSlotInfo_nil_slot_info
    (s : kv.Store C) (slot : Z) (enc : bytes) :
  encode None = inr enc ->
  Z.of_nat (length enc) <= bolt.MaxValueSize ->
  exists s',
    kv.SaveVerifiedSlotInfo encode s slot None
    = (Panic "nil pointer dereference", s')
    /\ kv.db s' = kv.db s
    /\ kv.latestVerifiedSlot s' = slot
    /\ kv.latestHeaderHash s' = kv.latestHeaderHash s
    /\ kv.verifiedSlotInfoCache s'
       = fst (kv.rSet (kv.verifiedSlotInfoCache s) slot None 0).
Proof.
  intros Henc Hlen. unfold kv.SaveVerifiedSlotInfo. rewrite Henc.
  destruct (kv.rSet (kv.verifiedSlotInfoCache s) slot None 0) as [c st].
  rewrite (Put_slot_key _ slot enc Hlen).
  eexists. split; [reflexivity |]. done.
Qed.

End StoreExtras.

(** Cursor 10, slot 7 in the bucket, slot 8 in the cache: slot 11 is refused;
    from slot 5 the answer holds slots 7 and 8 and no other. *)
Lemma VerifiedSlotInfos_answer_witness :
  (forall fuel,
      kv.VerifiedSlotInfos kv.decode_fields fuel fixtures.store_two_slots 11
      = Some (None, Some (Wrap errInvalidSlot "fromSlot: 11")))
  /\ exists m,
       kv.VerifiedSlotInfos kv.decode_fields 7 fixtures.store_two_slots 5
       = Some (Some m, None)
       /\ m !! 6 = None
       /\ m !! 7 = Some (Some fixtures.info7)
       /\ m !! 8 = Some (Some fixtures.info8)
       /\ m !! 11 = None.
Proof.
  pose proof (VerifiedSlotInfos_answer kv.decode_fields fixtures.store_two_slots)
    as Hanswer.
  split.
  - apply (proj1 (Hanswer 11 ltac:(lia))). vm_compute. reflexivity.
  - destruct (proj2 (Hanswer 5 ltac:(lia))) as (m & Hrun & Hcontent).
    + vm_compute. split; [discriminate | reflexivity].
    + exists m. split; [exact Hrun |].
      rewrite !Hcontent. vm_compute. repeat split; reflexivity.
Defined.

(** The closed store whose persisted cursor is [2^64 - 1], asked from slot 0. *)
Lemma VerifiedSlotInfos_diverges_at_max_cursor_witness :
  kv.VerifiedSlotInfos kv.decode_fields 1000
    (fixtures.store_closed_at MaxUint64) 0 = None.
Proof.
  apply (VerifiedSlotInfos_diverges_at_max_cursor kv.decode_fields
           (fixtures.store_closed_at MaxUint64) 0 1000).
  - vm_compute. reflexivity.
  - unfold is_uint64, MaxUint64. lia.
Defined.

(** Memory at slot 12, disk at slot 10: after the write the disk reads 12. *)
Lemma SaveLatestVerifiedSlot_read_back_witness :
  exists s',
    kv.SaveLatestVerifiedSlot fixtures.store_ahead = (None, s')
    /\ kv.LatestSavedVerifiedSlot s' = 12
    /\ kv.VerifiedSlotInfo kv.decode_fields s' 7 = (Some fixtures.info7, None).
Proof.
  destruct (SaveLatestVerifiedSlot_read_back kv.decode_fields fixtures.store_ahead)
    as (s' & Hsave & Hslot & _ & Hlookup & _).
  - reflexivity.
  - unfold is_uint64, MaxUint64. simpl. lia.
  - exists s'. split; [exact Hsave |]. split; [exact Hslot |].
    rewrite Hlookup. vm_compute. reflexivity.
Defined.

(** Memory holds the zero hash, disk the test's hash: after the write the
    disk reads the zero hash, the slot cursor on disk still reads 10. *)
Lemma SaveLatestVerifiedHeaderHash_read_back_witness :
  exists s',
    kv.SaveLatestVerifiedHeaderHash fixtures.store_ahead = (None, s')
    /\ kv.LatestVerifiedHeaderHash s' = common.ZeroHash
    /\ kv.LatestSavedVerifiedSlot s' = 10.
Proof.
  destruct (SaveLatestVerifiedHeaderHash_read_back kv.decode_fields
              fixtures.store_ahead)
    as (s' & Hsave & Hhash & Hslot & _).
  - reflexivity.
  - reflexivity.
  - exists s'. split; [exact Hsave |]. split; [exact Hhash |].
    rewrite Hslot. vm_compute. reflexivity.
Defined.

(** Slot 5 saved into the store with cursor 10 is found again. *)
Lemma VerifiedSlotInfo_after_save_witness :
  exists s',
    kv.SaveVerifiedSlotInfo kv.encode_fields (fixtures.store_closed_at 10) 5
      (Some fixtures.info5) = (Return None, s')
    /\ kv.VerifiedSlotInfo kv.decode_fields s' 5 = (Some fixtures.info5, None).
Proof.
  destruct (VerifiedSlotInfo_after_save kv.encode_fields kv.decode_fields
              (fixtures.store_closed_at 10) 5 fixtures.info5
              (bytesutil.Uint64ToBytesBigEndian 5 ++ 1 :: common.ZeroHash)
              eq_refl)
    as (s' & Hsave & Hcache & Hlookup).
  - vm_compute. discriminate.
  - exists s'. split; [exact Hsave |].
    rewrite Hlookup, Hcache. vm_compute. reflexivity.
Defined.

(** Saving slot 5 leaves the stored bytes of slot 7 alone. *)
Lemma SaveVerifiedSlotInfo_other_slots_kept_witness :
  bolt.Get
    (kv.verifiedSlotInfosBucket
       (kv.db (snd (kv.SaveVerifiedSlotInfo kv.encode_fields
                      fixtures.store_two_slots 5 (Some fixtures.info5)))))
    (bytesutil.Uint64ToBytesBigEndian 7)
  = Some fixtures.enc7.
Proof.
  rewrite (proj1 (SaveVerifiedSlotInfo_other_slots_kept kv.encode_fields
                    fixtures.store_two_slots 5 7 (Some fixtures.info5)
                    ltac:(unfold is_uint64, MaxUint64; lia)
                    ltac:(unfold is_uint64, MaxUint64; lia)
                    ltac:(lia))).
  vm_compute. reflexivity.
Defined.

(** The field encoder refuses the nil pointer: the save returns that error
    and the store is the one it was. *)
Lemma SaveVerifiedSlotInfo_error_cases_witness :
  (kv.encode_fields None = inl (ErrCodec "nil slot info")
   /\ fixtures.store_two_slots = fixtures.store_two_slots)
  \/ (exists enc,
        kv.encode_fields None = inr enc
        /\ bolt.MaxValueSize < Z.of_nat (length enc)
        /\ ErrCodec "nil slot info" = ErrValueTooLarge
        /\ fixtures.store_two_slots
           = kv.set_cache fixtures.store_two_slots
               (fst (kv.rSet (kv.verifiedSlotInfoCache fixtures.store_two_slots)
                       5 None 0))).
Proof.
  apply (SaveVerifiedSlotInfo_error_cases kv.encode_fields
           fixtures.store_two_slots 5 None (ErrCodec "nil slot info")
           fixtures.store_two_slots).
  reflexivity.
Defined.

(** With an encoder that writes "null" for the nil pointer the save panics,
    the in-memory cursor already at slot 5 and the bucket as before. *)
Lemma SaveVerifiedSlotInfo_nil_slot_info_witness :
  exists s',
    kv.SaveVerifiedSlotInfo fixtures.encode_nullable fixtures.store_two_slots
      5 None = (Panic "nil pointer dereference", s')
    /\ kv.db s' = kv.db fixtures.store_two_slots
    /\ kv.latestVerifiedSlot s' = 5.
Proof.
  destruct (SaveVerifiedSlotInfo_nil_slot_info fixtures.encode_nullable
              fixtures.store_two_slots 5 [110; 117; 108; 108] eq_refl)
    as (s' & Hrun & Hdb & Hslot & _).
  - vm_compute. discriminate.
  - exists s'. auto.
Defined.

(** * Further properties of the Vanguard handlers *)

(** Unfold a handler and the state monad down to the service record. *)
Ltac unfold_handler :=
  unfold vanguardchain.OnNewPendingVanguardBlock, vanguardchain.OnNewConsensusInfo,
    mbind, vanguardchain.M_bind, vanguardchain.bind,
    vanguardchain.db_SaveVanguardHeaderHash, vanguardchain.db_SaveConsensusInfo;
  cbn -[Z.ltb common.BytesToHash].

Section HandlerExtras.
Context {D : Type} `{Hdb : !vanguardchain.Database D}.
Variable HashTreeRoot : vanguardchain.BeaconBlock -> error + bytes.
Implicit Types (svc : vanguardchain.Service D).

(** X9. A block that passes the slot check but whose hash tree root cannot
    be computed is dropped with a warning: nothing is sent, nothing is saved,
    database and feeds are unchanged. *)
Theorem OnNewPendingVanguardBlock_root_error
    svc (block : vanguardchain.BeaconBlock) (err : error) :
  vanguardchain.LatestVerifiedRealmSlot (vanguardchain.orchestratorDB svc)
    <= vanguardchain.block_Slot block ->
  HashTreeRoot block = inl err ->
  exists svc',
    vanguardchain.OnNewPendingVanguardBlock HashTreeRoot (Some block) svc
    = (Return tt, svc')
    /\ vanguardchain.journal svc'
       = vanguardchain.journal svc
         ++ [vanguardchain.ReadLatestVerifiedRealmSlot;
             vanguardchain.ComputeHashTreeRoot;
             vanguardchain.Log vanguardchain.WarnLevel
               "failed to save vanguard block hash"]
    /\ vanguardchain.orchestratorDB svc' = vanguardchain.orchestratorDB svc
    /\ vanguardchain.consensusInfoFeed svc' = vanguardchain.consensusInfoFeed svc
    /\ vanguardchain.vanguardPendingBlockHashFeed svc'
       = vanguardchain.vanguardPendingBlockHashFeed svc.
Proof.
  intros Hle Hroot. unfold_handler.
  destruct (Z.ltb_spec (vanguardchain.block_Slot block)
              (vanguardchain.LatestVerifiedRealmSlot
                 (vanguardchain.orchestratorDB svc))) as [Hlt | _]; [lia |].
  cbn. rewrite Hroot. cbn.
  eexists. split; [reflexivity |]. cbn. rewrite <- !app_assoc. auto.
Qed.

(** X10. A block that passes the slot check and hashes, but carries no
    Pandora shard (an empty list, or no body at all), is dropped with the
    error "pandora sharding info not present": nothing is sent or saved. *)
Theorem OnNewPendingVanguardBlock_no_shard
    svc (block : vanguardchain.BeaconBlock) (root : bytes) :
  vanguardchain.LatestVerifiedRealmSlot (vanguardchain.orchestratorDB svc)
    <= vanguardchain.block_Slot block ->
  HashTreeRoot block = inr root ->
  vanguardchain.GetPandoraShard (vanguardchain.GetBody block) = [] ->
  exists svc',
    vanguardchain.OnNewPendingVanguardBlock HashTreeRoot (Some block) svc
    = (Return tt, svc')
    /\ vanguardchain.journal svc'
       = vanguardchain.journal svc
         ++ [vanguardchain.ReadLatestVerifiedRealmSlot;
             vanguardchain.ComputeHashTreeRoot;
             vanguardchain.Log vanguardchain.ErrorLevel
               "pandora sharding info not present"]
    /\ vanguardchain.orchestratorDB svc' = vanguardchain.orchestratorDB svc
    /\ vanguardchain.consensusInfoFeed svc' = vanguardchain.consensusInfoFeed svc
    /\ vanguardchain.vanguardPendingBlockHashFeed svc'
       = vanguardchain.vanguardPendingBlockHashFeed svc.
Proof.
  intros Hle Hroot Hshards. unfold_handler.
  destruct (Z.ltb_spec (vanguardchain.block_Slot block)
              (vanguardchain.LatestVerifiedRealmSlot
                 (vanguardchain.orchestratorDB svc))) as [Hlt | _]; [lia |].
  cbn. rewrite Hroot, Hshards. cbn.
  eexists. split; [reflexivity |]. cbn. rewrite <- !app_assoc. auto.
Qed.

(** X11. A block whose first shard pointer is nil passes the slot check and
    the hashing and then brings the handler down with a nil dereference,
    before anything is sent or saved. *)
Theorem OnNewPendingVanguardBlock_nil_first_shard
    svc (block : vanguardchain.BeaconBlock) (root : bytes)
    (others : list (option vanguardchain.PandoraShard)) :
  vanguardchain.LatestVerifiedRealmSlot (vanguardchain.orchestratorDB svc)
    <= vanguardchain.block_Slot block ->
  HashTreeRoot block = inr root ->
  vanguardchain.GetPandoraShard (vanguardchain.GetBody block) = None :: others ->
  exists svc',
    vanguardchain.OnNewPendingVanguardBlock HashTreeRoot (Some block) svc
    = (Panic "nil pointer dereference", svc')
    /\ vanguardchain.journal svc'
       = vanguardchain.journal svc
         ++ [vanguardchain.ReadLatestVerifiedRealmSlot;
             vanguardchain.ComputeHashTreeRoot]
    /\ vanguardchain.orchestratorDB svc' = vanguardchain.orchestratorDB svc
    /\ vanguardchain.vanguardPendingBlockHashFeed svc'
       = vanguardchain.vanguardPendingBlockHashFeed svc.
Proof.
  intros Hle Hroot Hshards. unfold_handler.
  destruct (Z.ltb_spec (vanguardchain.block_Slot block)
              (vanguardchain.LatestVerifiedRealmSlot
                 (vanguardchain.orchestratorDB svc))) as [Hlt | _]; [lia |].
  cbn. rewrite Hroot, Hshards. cbn.
  eexists. split; [reflexivity |]. cbn. rewrite <- !app_assoc. auto.
Qed.

(** X12. For an accepted block the header goes out on the feed before the
    database is asked to save it, and a failed save does not take the
    emission back: the journal is read, hash, send, log, save, log, the last
    line a warning exactly when the save failed. *)
Theorem OnNewPendingVanguardBlock_sends_before_saving
    svc (block : vanguardchain.BeaconBlock) (root : bytes)
    (shardInfo : vanguardchain.PandoraShard)
    (others : list (option vanguardchain.PandoraShard)) :
  vanguardchain.LatestVerifiedRealmSlot (vanguardchain.orchestratorDB svc)
    <= vanguardchain.block_Slot block ->
  HashTreeRoot block = inr root ->
  vanguardchain.GetPandoraShard (vanguardchain.GetBody block)
  = Some shardInfo :: others ->
  let h := {| types.HeaderHash_ := common.BytesToHash root;
              types.Status_ := types.Pending;
              types.BlockNumber := vanguardchain.shard_BlockNumber shardInfo;
              types.Signature := vanguardchain.shard_Signature shardInfo;
              types.StateRoot := vanguardchain.shard_StateRoot shardInfo;
              types.ReceiptHash := vanguardchain.shard_ReceiptHash shardInfo;
              types.TxHash := vanguardchain.shard_TxHash shardInfo;
              types.ParentHash := vanguardchain.shard_ParentHash shardInfo |} in
  let saved := vanguardchain.SaveVanguardHeaderHash
                 (vanguardchain.orchestratorDB svc)
                 (vanguardchain.block_Slot block) h in
  exists svc',
    vanguardchain.OnNewPendingVanguardBlock HashTreeRoot (Some block) svc
    = (Return tt, svc')
    /\ vanguardchain.journal svc'
       = vanguardchain.journal svc
         ++ [vanguardchain.ReadLatestVerifiedRealmSlot;
             vanguardchain.ComputeHashTreeRoot;
             vanguardchain.SendPendingBlockHash h;
             vanguardchain.Log vanguardchain.TraceLevel
               "Pending Block Hash feed info to subscribers";
             vanguardchain.CallSaveVanguardHeaderHash
               (vanguardchain.block_Slot block) h;
             match fst saved with
             | Some _ => vanguardchain.Log vanguardchain.WarnLevel
                           "failed to save vanguard block hash"
             | None => vanguardchain.Log vanguardchain.TraceLevel
                         "Successfully inserted vanguard block to db"
             end]
    /\ vanguardchain.delivered (vanguardchain.vanguardPendingBlockHashFeed svc')
       = vanguardchain.delivered (vanguardchain.vanguardPendingBlockHashFeed svc)
         ++ [h]
    /\ vanguardchain.orchestratorDB svc' = snd saved.
Proof.
  intros Hle Hroot Hshards h saved. subst h saved. unfold_handler.
  destruct (Z.ltb_spec (vanguardchain.block_Slot block)
              (vanguardchain.LatestVerifiedRealmSlot
                 (vanguardchain.orchestratorDB svc))) as [Hlt | _]; [lia |].
  cbn -[common.BytesToHash]. rewrite Hroot, Hshards. cbn -[common.BytesToHash].
  match goal with
  | |- context [vanguardchain.SaveVanguardHeaderHash ?d ?n ?h] =>
      destruct (vanguardchain.SaveVanguardHeaderHash d n h) as [[e |] d']
  end;
    cbn -[common.BytesToHash];
    (eexists; split; [reflexivity |]); cbn -[common.BytesToHash];
    rewrite <- !app_assoc; auto.
Qed.

(** X13. Feed and database are given the same thing: either the block
    handler leaves both the pending-header feed and the database as they
    were, or it appended one header to the feed and handed that same header,
    under the block's slot, to [SaveVanguardHeaderHash]. It never touches the
    consensus-info feed, and the consensus-info handler never touches the
    pending-header feed. *)
Theorem handlers_keep_feed_and_store_in_step
    svc (block : option vanguardchain.BeaconBlock)
    (consensusInfo : types.MinimalEpochConsensusInfo) :
  let svc' := snd (vanguardchain.OnNewPendingVanguardBlock HashTreeRoot block svc) in
  ((vanguardchain.vanguardPendingBlockHashFeed svc'
      = vanguardchain.vanguardPendingBlockHashFeed svc
    /\ vanguardchain.orchestratorDB svc' = vanguardchain.orchestratorDB svc)
   \/ (exists b h,
         block = Some b
         /\ vanguardchain.delivered (vanguardchain.vanguardPendingBlockHashFeed svc')
            = vanguardchain.delivered
                (vanguardchain.vanguardPendingBlockHashFeed svc) ++ [h]
         /\ vanguardchain.orchestratorDB svc'
            = snd (vanguardchain.SaveVanguardHeaderHash
                     (vanguardchain.orchestratorDB svc)
                     (vanguardchain.block_Slot b) h)))
  /\ vanguardchain.consensusInfoFeed svc' = vanguardchain.consensusInfoFeed svc
  /\ vanguardchain.vanguardPendingBlockHashFeed
       (snd (vanguardchain.OnNewConsensusInfo consensusInfo svc))
     = vanguardchain.vanguardPendingBlockHashFeed svc.
Proof.
  cbv zeta. split; [| split].
  - destruct block as [b |]; [| left; unfold_handler; done].
    unfold_handler.
    destruct (vanguardchain.block_Slot b <? _); [left; done |].
    cbn -[common.BytesToHash].
    destruct (HashTreeRoot b) as [err | root]; [left; done |].
    destruct (vanguardchain.GetPandoraShard _) as [| [shardInfo |] others];
      cbn -[common.BytesToHash]; [left; done | | left; done].
    right. eexists b, _.
    match goal with
    | |- context [vanguardchain.SaveVanguardHeaderHash ?d ?n ?h] =>
        destruct (vanguardchain.SaveVanguardHeaderHash d n h)
          as [[e |] d'] eqn:Hsave
    end;
      cbn -[common.BytesToHash];
      (split; [reflexivity |]); (split; [reflexivity |]);
      rewrite Hsave; reflexivity.
  - destruct block as [b |]; [| unfold_handler; done].
    unfold_handler.
    destruct (vanguardchain.block_Slot b <? _); [done |].
    cbn -[common.BytesToHash].
    destruct (HashTreeRoot b) as [err | root]; [done |].
    destruct (vanguardchain.GetPandoraShard _) as [| [shardInfo |] others];
      cbn -[common.BytesToHash]; [done | | done].
    match goal with
    | |- context [vanguardchain.SaveVanguardHeaderHash ?d ?n ?h] =>
        destruct (vanguardchain.SaveVanguardHeaderHash d n h) as [[e |] d']
    end; done.
  - unfold_handler.
    destruct (vanguardchain.SaveConsensusInfo _ _) as [[e |] d']; done.
Qed.

End HandlerExtras.

(** Slot 12 against cursor 10 with a root that cannot be computed. *)
Lemma OnNewPendingVanguardBlock_root_error_witness :
  exists svc',
    vanguardchain.OnNewPendingVanguardBlock fixtures.root_fails
      (Some (fixtures.block_at 12)) fixtures.service10 = (Return tt, svc')
    /\ vanguardchain.orchestratorDB svc'
       = vanguardchain.orchestratorDB fixtures.service10
    /\ vanguardchain.vanguardPendingBlockHashFeed svc'
       = vanguardchain.vanguardPendingBlockHashFeed fixtures.service10.
Proof.
  destruct (OnNewPendingVanguardBlock_root_error fixtures.root_fails
              fixtures.service10 (fixtures.block_at 12)
              (ErrOther "ssz: cannot hash"))
    as (svc' & Hrun & _ & Hdb & _ & Hfeed).
  - vm_compute. discriminate.
  - reflexivity.
  - exists svc'. auto.
Defined.

(** Slot 12 against cursor 10, a block without body. *)
Lemma OnNewPendingVanguardBlock_no_shard_witness :
  exists svc',
    vanguardchain.OnNewPendingVanguardBlock fixtures.root_of
      (Some (fixtures.block_without_body 12)) fixtures.service10
    = (Return tt, svc')
    /\ vanguardchain.journal svc'
       = [vanguardchain.ReadLatestVerifiedRealmSlot;
          vanguardchain.ComputeHashTreeRoot;
          vanguardchain.Log vanguardchain.ErrorLevel
            "pandora sharding info not present"].
Proof.
  destruct (OnNewPendingVanguardBlock_no_shard fixtures.root_of
              fixtures.service10 (fixtures.block_without_body 12)
              fixtures.headerHash)
    as (svc' & Hrun & Hjournal & _).
  - vm_compute. discriminate.
  - reflexivity.
  - reflexivity.
  - exists svc'. auto.
Defined.

(** Slot 12 against cursor 10, first shard pointer nil. *)
Lemma OnNewPendingVanguardBlock_nil_first_shard_witness :
  exists svc',
    vanguardchain.OnNewPendingVanguardBlock fixtures.root_of
      (Some (fixtures.block_nil_shard 12)) fixtures.service10
    = (Panic "nil pointer dereference", svc')
    /\ vanguardchain.orchestratorDB svc'
       = vanguardchain.orchestratorDB fixtures.service10.
Proof.
  destruct (OnNewPendingVanguardBlock_nil_first_shard fixtures.root_of
              fixtures.service10 (fixtures.block_nil_shard 12)
              fixtures.headerHash [Some fixtures.shard42])
    as (svc' & Hrun & _ & Hdb & _).
  - vm_compute. discriminate.
  - reflexivity.
  - reflexivity.
  - exists svc'. auto.
Defined.

(** Slot 12 against cursor 10 on a database that refuses writes: the header
    is on the feed all the same, and the journal ends with the warning. *)
Lemma OnNewPendingVanguardBlock_sends_before_saving_witness :
  exists svc',
    vanguardchain.OnNewPendingVanguardBlock fixtures.root_of
      (Some (fixtures.block_at 12)) fixtures.service_read_only
    = (Return tt, svc')
    /\ vanguardchain.journal svc'
       = [vanguardchain.ReadLatestVerifiedRealmSlot;
          vanguardchain.ComputeHashTreeRoot;
          vanguardchain.SendPendingBlockHash fixtures.header42;
          vanguardchain.Log vanguardchain.TraceLevel
            "Pending Block Hash feed info to subscribers";
          vanguardchain.CallSaveVanguardHeaderHash 12 fixtures.header42;
          vanguardchain.Log vanguardchain.WarnLevel
            "failed to save vanguard block hash"]
    /\ vanguardchain.delivered (vanguardchain.vanguardPendingBlockHashFeed svc')
       = [fixtures.header42].
Proof.
  destruct (OnNewPendingVanguardBlock_sends_before_saving fixtures.root_of
              fixtures.service_read_only (fixtures.block_at 12)
              fixtures.headerHash fixtures.shard42 [])
    as (svc' & Hrun & Hjournal & Hfeed & _).
  - vm_compute. discriminate.
  - reflexivity.
  - reflexivity.
  - exists svc'. split; [exact Hrun |]. split; [exact Hjournal | exact Hfeed].
Defined.

(** * The deposit sender *)

Section HexProperties.
Import Stdlib.Strings.Ascii.

Lemma hexdigit_table :
  Forall (fun n => deposit.fromHexChar (deposit.hexdigit n) = Some n
                   /\ deposit.hexdigit n <> "x"%char)
    (seqZ 0 16).
Proof.
  change (seqZ 0 16) with [0; 1; 2; 3; 4; 5; 6; 7; 8; 9; 10; 11; 12; 13; 14; 15].
  repeat (constructor; [split; [reflexivity | discriminate] |]). constructor.
Qed.

Lemma fromHexChar_hexdigit (n : Z) :
  0 <= n < 16 -> deposit.fromHexChar (deposit.hexdigit n) = Some n.
Proof.
  intros Hn. pose proof hexdigit_table as Htable.
  rewrite Forall_forall in Htable. apply Htable, elem_of_seqZ. lia.
Qed.

Lemma nibbles (x : Z) :
  deposit.is_byte x ->
  0 <= Z.shiftr x 4 < 16 /\ 0 <= Z.land x 15 < 16
  /\ Z.lor (Z.shiftl (Z.shiftr x 4) 4) (Z.land x 15) = x.
Proof.
  unfold deposit.is_byte. intros Hx. split; [| split].
  - rewrite Z.shiftr_div_pow2 by lia. change (2 ^ 4) with 16.
    split; [apply Z.div_pos; lia | apply Z.div_lt_upper_bound; lia].
  - change 15 with (Z.ones 4). rewrite Z.land_ones by lia.
    apply Z.mod_pos_bound. lia.
  - change 15 with (Z.ones 4).
    rewrite <- Z.ldiff_ones_r by lia. apply Z.lor_ldiff_and.
Qed.

Lemma Decode_Encode (b : bytes) :
  Forall deposit.is_byte b -> deposit.Decode (deposit.Encode b) = (b, None).
Proof.
  induction 1 as [| x b Hx _ IH]; [reflexivity |].
  destruct (nibbles x Hx) as (Hhi & Hlo & Hjoin).
  cbn [deposit.Encode deposit.Decode].
  rewrite !fromHexChar_hexdigit by done. rewrite IH, Hjoin. reflexivity.
Qed.

Lemma hexdigit_not_x (n : Z) :
  0 <= n < 16 -> deposit.hexdigit n <> "x"%char.
Proof.
  intros Hn. pose proof hexdigit_table as Htable.
  rewrite Forall_forall in Htable. apply Htable, elem_of_seqZ. lia.
Qed.

Lemma TrimPrefix0x_EncodeToString (b : bytes) :
  Forall deposit.is_byte b ->
  deposit.TrimPrefix0x (deposit.EncodeToString b) = deposit.EncodeToString b.
Proof.
  intros Hb. destruct Hb as [| x b Hx Hb]; [reflexivity |].
  destruct (nibbles x Hx) as (_ & Hlo & _).
  unfold deposit.EncodeToString. cbn [deposit.Encode String.string_of_list_ascii].
  pose proof (hexdigit_not_x _ Hlo) as Hnx.
  unfold deposit.TrimPrefix0x.
  destruct (deposit.hexdigit (Z.shiftr x 4)) as [[] [] [] [] [] [] [] []];
    try reflexivity.
  destruct (deposit.hexdigit (Z.land x 15)) as [[] [] [] [] [] [] [] []];
    try reflexivity.
  contradiction Hnx. reflexivity.
Qed.

(** Both spellings of a field decode to the bytes they spell. *)
Lemma DecodeString_hex_field (b : bytes) (s : string) :
  Forall deposit.is_byte b -> deposit.hex_field b s ->
  deposit.DecodeString (deposit.TrimPrefix0x s) = (b, None).
Proof.
  intros Hb [-> | ->].
  - rewrite TrimPrefix0x_EncodeToString by done.
    unfold deposit.DecodeString, deposit.EncodeToString.
    rewrite String.list_ascii_of_string_of_list_ascii. apply Decode_Encode, Hb.
  - unfold deposit.hexutil_Encode, deposit.TrimPrefix0x.
    unfold deposit.DecodeString, deposit.EncodeToString.
    rewrite String.list_ascii_of_string_of_list_ascii. apply Decode_Encode, Hb.
Qed.

(** Induction two characters at a time. *)
Lemma pairs_ind (P : list ascii -> Prop) :
  P [] -> (forall c, P [c]) ->
  (forall c1 c2 rest, P rest -> P (c1 :: c2 :: rest)) ->
  forall l, P l.
Proof.
  intros Hnil Hone Hstep.
  assert (Hboth : forall l, P l /\ forall c, P (c :: l)).
  { induction l as [| c l [IH1 IH2]]; [auto |]. split; [apply IH2 |].
    intros c0. apply Hstep, IH1. }
  intros l. apply Hboth.
Qed.

(** [hex.Decode] succeeds exactly on an even number of hex digits, and then
    yields half as many bytes. *)
Lemma Decode_ok_iff (l : list ascii) :
  (snd (deposit.Decode l) = None
   <-> Forall deposit.is_hex_digit l /\ Nat.Even (length l))
  /\ (snd (deposit.Decode l) = None ->
      (2 * length (fst (deposit.Decode l)) = length l)%nat).
Proof.
  induction l as [| c | c1 c2 rest [IHiff IHlen]] using pairs_ind.
  - split; [| done]. split; [intros _; split; [constructor | exists 0%nat; done] | done].
  - cbn [deposit.Decode]. split.
    + split.
      * destruct (deposit.fromHexChar c); discriminate.
      * intros [_ [k Hk]]. cbn in Hk. lia.
    + destruct (deposit.fromHexChar c); discriminate.
  - cbn [deposit.Decode]. unfold deposit.is_hex_digit in *.
    destruct (deposit.fromHexChar c1) as [a |] eqn:H1.
    2:{ split; [| discriminate]. split; [discriminate |].
        intros [Hall _]. inversion Hall as [| ? ? [? Hc1] _]; subst. congruence. }
    destruct (deposit.fromHexChar c2) as [b |] eqn:H2.
    2:{ split; [| discriminate]. split; [discriminate |].
        intros [Hall _]. inversion Hall as [| ? ? _ Hall']; subst.
        inversion Hall' as [| ? ? [? Hc2] _]; subst. congruence. }
    destruct (deposit.Decode rest) as [decoded err] eqn:Hrest. cbn [fst snd] in *.
    split.
    + rewrite IHiff. split.
      * intros [Hall [k Hk]]. split.
        -- constructor; [rewrite H1; eauto |]. constructor; [rewrite H2; eauto | done].
        -- exists (S k). cbn. lia.
      * intros [Hall [k Hk]]. inversion Hall as [| ? ? _ Hall']; subst.
        inversion Hall' as [| ? ? _ Hall'']; subst. split; [done |].
        exists (k - 1)%nat. cbn in Hk. lia.
    + intros Herr. specialize (IHlen Herr). cbn. lia.
Qed.

End HexProperties.

Section ConversionProperties.

Lemma copy32_length (b : bytes) : length (deposit.copy32 b) = 32%nat.
Proof.
  unfold deposit.copy32.
  rewrite length_take, length_app, length_replicate. lia.
Qed.

Lemma copy32_exact (b : bytes) : length b = 32%nat -> deposit.copy32 b = b.
Proof.
  intros Hlen. unfold deposit.copy32.
  rewrite take_app_length' by (symmetry; exact Hlen). reflexivity.
Qed.

(** X14. A JSON entry whose four hex fields spell the bytes of a deposit,
    each bare or after "0x", converts to that deposit: keys, credentials and
    signature byte for byte, the amount as given, and the data root cut or
    zero-padded to 32 bytes (unchanged when it has 32). *)
Theorem depositJSONToDepositData_round_trip
    (pk wc sig root : bytes) (input : deposit.DepositDataJSON) :
  Forall deposit.is_byte pk -> Forall deposit.is_byte wc ->
  Forall deposit.is_byte sig -> Forall deposit.is_byte root ->
  deposit.hex_field pk (deposit.PubKey input) ->
  deposit.hex_field wc (deposit.WithdrawalCredentials_ input) ->
  deposit.hex_field sig (deposit.Signature_ input) ->
  deposit.hex_field root (deposit.DepositDataRoot input) ->
  deposit.depositJSONToDepositData input
  = inr {| deposit.PublicKey := pk;
           deposit.WithdrawalCredentials := wc;
           deposit.Amount := deposit.Amount_ input;
           deposit.Signature := sig;
           deposit.DepositRoot := deposit.copy32 root |}
  /\ (length root = 32%nat -> deposit.copy32 root = root).
Proof.
  intros Hpk Hwc Hsig Hroot Fpk Fwc Fsig Froot.
  split; [| apply copy32_exact].
  unfold deposit.depositJSONToDepositData.
  rewrite (DecodeString_hex_field pk _ Hpk Fpk).
  rewrite (DecodeString_hex_field wc _ Hwc Fwc).
  rewrite (DecodeString_hex_field sig _ Hsig Fsig).
  rewrite (DecodeString_hex_field root _ Hroot Froot).
  reflexivity.
Qed.

(** X15. The conversion succeeds exactly when each of the four fields, once
    one leading "0x" is cut, is an even number of hex digits; nothing else
    about an entry can make it fail. *)
Theorem depositJSONToDepositData_succeeds_iff (input : deposit.DepositDataJSON) :
  (exists d, deposit.depositJSONToDepositData input = inr d)
  <-> deposit.well_formed_hex (deposit.PubKey input)
      /\ deposit.well_formed_hex (deposit.WithdrawalCredentials_ input)
      /\ deposit.well_formed_hex (deposit.Signature_ input)
      /\ deposit.well_formed_hex (deposit.DepositDataRoot input).
Proof.
  unfold deposit.depositJSONToDepositData, deposit.well_formed_hex,
    deposit.DecodeString.
  pose proof (fun s => proj1 (Decode_ok_iff
                (String.list_ascii_of_string (deposit.TrimPrefix0x s)))) as Hiff.
  rewrite <- !Hiff.
  destruct (deposit.Decode _) as [b1 [e1 |]]; cbn [snd].
  { split; [intros [d [=]] | intros [[=] _]]. }
  destruct (deposit.Decode _) as [b2 [e2 |]]; cbn [snd].
  { split; [intros [d [=]] | intros (_ & [=] & _)]. }
  destruct (deposit.Decode _) as [b3 [e3 |]]; cbn [snd].
  { split; [intros [d [=]] | intros (_ & _ & [=] & _)]. }
  destruct (deposit.Decode _) as [b4 [e4 |]]; cbn [snd].
  { split; [intros [d [=]] | intros (_ & _ & _ & [=])]. }
  split; [done | eauto].
Qed.

(** X16. A converted deposit always has a data root of exactly 32 bytes: a
    longer field is cut after 32 bytes and a shorter one is padded with
    zeros, without an error; and its amount is the entry's. *)
Theorem depositJSONToDepositData_root_is_32_bytes
    (input : deposit.DepositDataJSON) (d : deposit.Deposit_Data) :
  deposit.depositJSONToDepositData input = inr d ->
  length (deposit.DepositRoot d) = 32%nat
  /\ deposit.DepositRoot d
     = deposit.copy32
         (fst (deposit.DecodeString
                 (deposit.TrimPrefix0x (deposit.DepositDataRoot input))))
  /\ deposit.Amount d = deposit.Amount_ input.
Proof.
  unfold deposit.depositJSONToDepositData.
  destruct (deposit.DecodeString _) as [b1 [e1 |]]; [discriminate |].
  destruct (deposit.DecodeString _) as [b2 [e2 |]]; [discriminate |].
  destruct (deposit.DecodeString _) as [b3 [e3 |]]; [discriminate |].
  destruct (deposit.DecodeString _) as [b4 [e4 |]]; [discriminate |].
  intros [= <-]. cbn. split; [apply copy32_length | done].
Qed.

End ConversionProperties.

Section ImportProperties.
Variable ExpandPath : string -> deposit.tool_error + string.
Variable ReadFile : string -> deposit.tool_error + bytes.
Variable Unmarshal :
  bytes -> deposit.tool_error + list (option deposit.DepositDataJSON).

Lemma importLoop_dense (depositJSON : list (option deposit.DepositDataJSON)) :
  forall (i : Z) (acc m : gmap Z deposit.Deposit_Data),
    (forall k, i <= k -> acc !! k = None) ->
    deposit.importLoop depositJSON i acc = Return (inr m) ->
    size m = (size acc + length depositJSON)%nat
    /\ (forall j, (j < length depositJSON)%nat ->
          exists input d,
            depositJSON !! j = Some (Some input)
            /\ deposit.depositJSONToDepositData input = inr d
            /\ m !! (i + Z.of_nat j) = Some d)
    /\ (forall k, ~ (i <= k < i + Z.of_nat (length depositJSON)) ->
          m !! k = acc !! k).
Proof.
  induction depositJSON as [| [input |] rest IH]; intros i acc m Hfresh.
  - intros [= <-]. cbn. split; [lia |]. split; [intros j Hj; lia | done].
  - cbn [deposit.importLoop].
    destruct (deposit.depositJSONToDepositData input) as [err | d] eqn:Hconv;
      [discriminate |].
    intros Hrun.
    destruct (IH (i + 1) (<[i := d]> acc) m) as (Hsize & Hin & Hout); [| exact Hrun |].
    { intros k Hk. rewrite lookup_insert_ne by lia. apply Hfresh. lia. }
    rewrite map_size_insert_None in Hsize by (apply Hfresh; lia).
    split; [cbn; lia |]. split.
    + intros [| j] Hj.
      * exists input, d. split; [done |]. split; [done |].
        rewrite Z.add_0_r, Hout by lia. apply lookup_insert_eq.
      * destruct (Hin j ltac:(cbn in Hj; lia)) as (input' & d' & Hj1 & Hj2 & Hj3).
        exists input', d'. split; [done |]. split; [done |].
        rewrite <- Hj3. f_equal. lia.
    + intros k Hk. cbn [length] in Hk.
      rewrite Hout by lia. apply lookup_insert_ne. lia.
  - discriminate.
Qed.

(** X17. A map that [importDeposits] returns has exactly the keys
    [0 .. n-1] for the [n] entries of the JSON array, entry [i] converted
    under key [i]: the dense numbering that the loop of [sendDeposits] walks.
    An entry that does not convert makes the whole import fail. *)
Theorem importDeposits_keys_dense
    (inputFile : string) (m : gmap Z deposit.Deposit_Data) :
  deposit.importDeposits ExpandPath ReadFile Unmarshal inputFile
  = Return (inr m) ->
  exists expanded enc depositJSON,
    ExpandPath inputFile = inr expanded
    /\ ReadFile expanded = inr enc
    /\ Unmarshal enc = inr depositJSON
    /\ size m = length depositJSON
    /\ (forall j, (j < length depositJSON)%nat ->
          exists input d,
            depositJSON !! j = Some (Some input)
            /\ deposit.depositJSONToDepositData input = inr d
            /\ m !! Z.of_nat j = Some d)
    /\ (forall k, is_Some (m !! k) -> 0 <= k < Z.of_nat (size m)).
Proof.
  unfold deposit.importDeposits.
  destruct (ExpandPath inputFile) as [err | expanded] eqn:Hpath; [discriminate |].
  destruct (ReadFile expanded) as [err | enc] eqn:Hread; [discriminate |].
  destruct (Unmarshal enc) as [err | depositJSON] eqn:Hjson; [discriminate |].
  intros Hrun.
  destruct (importLoop_dense depositJSON 0 ∅ m) as (Hsize & Hin & Hout);
    [intros; apply lookup_empty | exact Hrun |].
  rewrite map_size_empty in Hsize. cbn in Hsize.
  exists expanded, enc, depositJSON.
  split; [done |]. split; [done |]. split; [done |]. split; [lia |]. split.
  - intros j Hj. destruct (Hin j Hj) as (input & d & Hj1 & Hj2 & Hj3).
    exists input, d. rewrite Z.add_0_l in Hj3. done.
  - intros k Hsome.
    destruct (decide (0 <= k < Z.of_nat (size m))) as [Hk | Hk]; [done |].
    rewrite Hout, lookup_empty in Hsome by lia. destruct Hsome as [? [=]].
Qed.

End ImportProperties.

Section SendProperties.
Variable NewTransactorWithChainID :
  bytes -> string -> Z -> option deposit.tool_error.
Variable PendingNonceAt : deposit.tool_error + Z.
Variable NewDepositContract : option deposit.tool_error.
Variable Deposit : deposit.DepositCall -> option deposit.tool_error.
Variable allDeposits : gmap Z deposit.Deposit_Data.
Variable txInterval : Z.

Lemma calls_app (a b : list deposit.Action) :
  deposit.calls (a ++ b) = deposit.calls a ++ deposit.calls b.
Proof. apply omap_app. Qed.

(** As long as the contract accepts, the loop makes one call per deposit,
    with consecutive nonces. *)
Lemma sendLoop_accepted (remaining : nat) :
  forall (i nonce : Z) (done : list deposit.Action),
    (forall j, (j < remaining)%nat ->
       exists dd, allDeposits !! (i + Z.of_nat j) = Some dd
                  /\ Deposit (deposit.call_for (nonce + Z.of_nat j) dd) = None) ->
    exists done' l,
      deposit.sendLoop Deposit remaining allDeposits txInterval i nonce done
      = (Return None, done')
      /\ deposit.calls done' = deposit.calls done ++ l
      /\ length l = remaining
      /\ forall j dd, (j < remaining)%nat ->
           allDeposits !! (i + Z.of_nat j) = Some dd ->
           l !! j = Some (deposit.call_for (nonce + Z.of_nat j) dd).
Proof.
  induction remaining as [| remaining IH]; intros i nonce done Hok.
  - exists done, []. rewrite app_nil_r.
    split; [reflexivity |]. split; [reflexivity |]. split; [reflexivity |].
    intros; lia.
  - cbn [deposit.sendLoop].
    destruct (Hok 0%nat ltac:(lia)) as (dd0 & Hdd0 & Hacc0).
    rewrite Z.add_0_r in Hdd0, Hacc0. rewrite Hdd0, Hacc0.
    assert (Hok' : forall j, (j < remaining)%nat ->
              exists dd, allDeposits !! (i + 1 + Z.of_nat j) = Some dd
                         /\ Deposit (deposit.call_for (nonce + 1 + Z.of_nat j) dd)
                            = None).
    { intros j Hj. destruct (Hok (S j) ltac:(lia)) as (dd & Hdd & Hacc).
      exists dd. split.
      - rewrite <- Hdd. f_equal. lia.
      - rewrite <- Hacc. do 2 f_equal. lia. }
    match goal with
    | |- context [deposit.sendLoop _ _ _ _ _ _ ?d] =>
        destruct (IH (i + 1) (nonce + 1) d Hok')
          as (done' & l & Hrun & Hcalls & Hlen & Hl)
    end.
    exists done', (deposit.call_for nonce dd0 :: l).
    split; [exact Hrun |]. split.
    + rewrite Hcalls, !calls_app. cbn. rewrite <- !app_assoc. reflexivity.
    + split; [cbn; lia |]. intros [| j] dd Hj Hdd.
      * rewrite Z.add_0_r in Hdd |- *. cbn. congruence.
      * transitivity (l !! j); [reflexivity |].
        rewrite (Hl j dd); [do 2 f_equal; lia | lia |].
        rewrite <- Hdd. f_equal. lia.
Qed.

(** The first refusal ends the loop at once. *)
Lemma sendLoop_refused (k : nat) :
  forall (remaining : nat) (i nonce : Z) (done : list deposit.Action)
         (dd : deposit.Deposit_Data) (err : deposit.tool_error),
    (k < remaining)%nat ->
    (forall j, (j < k)%nat ->
       exists dd', allDeposits !! (i + Z.of_nat j) = Some dd'
                   /\ Deposit (deposit.call_for (nonce + Z.of_nat j) dd') = None) ->
    allDeposits !! (i + Z.of_nat k) = Some dd ->
    Deposit (deposit.call_for (nonce + Z.of_nat k) dd) = Some err ->
    exists done' l,
      deposit.sendLoop Deposit remaining allDeposits txInterval i nonce done
      = (Return (Some (deposit.ErrWrap err "unable to send transaction to contract")),
         done')
      /\ deposit.calls done' = deposit.calls done ++ l
      /\ length l = S k
      /\ last done' = Some (deposit.CallDeposit
                              (deposit.call_for (nonce + Z.of_nat k) dd)).
Proof.
  induction k as [| k IH]; intros remaining i nonce done dd err Hk Hok Hdd Hrefuse;
    (destruct remaining as [| remaining]; [lia |]); cbn [deposit.sendLoop].
  - rewrite Z.add_0_r in Hdd, Hrefuse. rewrite Hdd, Hrefuse.
    eexists _, [deposit.call_for nonce dd]. split; [reflexivity |].
    split; [rewrite calls_app; reflexivity |]. split; [reflexivity |].
    rewrite Z.add_0_r.
    change (done ++ [deposit.LogInfo "Deposit info";
                     deposit.CallDeposit (deposit.call_for nonce dd)])
      with (done ++ [deposit.LogInfo "Deposit info"]
                 ++ [deposit.CallDeposit (deposit.call_for nonce dd)]).
    rewrite app_assoc. apply last_snoc.
  - destruct (Hok 0%nat ltac:(lia)) as (dd0 & Hdd0 & Hacc0).
    rewrite Z.add_0_r in Hdd0, Hacc0. rewrite Hdd0, Hacc0.
    assert (Hok' : forall j, (j < k)%nat ->
              exists dd', allDeposits !! (i + 1 + Z.of_nat j) = Some dd'
                          /\ Deposit (deposit.call_for (nonce + 1 + Z.of_nat j) dd')
                             = None).
    { intros j Hj. destruct (Hok (S j) ltac:(lia)) as (dd' & Hdd' & Hacc').
      exists dd'. split.
      - rewrite <- Hdd'. f_equal. lia.
      - rewrite <- Hacc'. do 2 f_equal. lia. }
    assert (Hdd' : allDeposits !! (i + 1 + Z.of_nat k) = Some dd)
      by (rewrite <- Hdd; f_equal; lia).
    assert (Hrefuse' : Deposit (deposit.call_for (nonce + 1 + Z.of_nat k) dd)
                       = Some err)
      by (rewrite <- Hrefuse; do 2 f_equal; lia).
    assert (Hk' : (k < remaining)%nat) by lia.
    match goal with
    | |- context [deposit.sendLoop _ _ _ _ _ _ ?d] =>
        destruct (IH remaining (i + 1) (nonce + 1) d dd err Hk' Hok' Hdd' Hrefuse')
          as (done' & l & Hrun & Hcalls & Hlen & Hlast)
    end.
    exists done', (deposit.call_for nonce dd0 :: l).
    split; [exact Hrun |]. split.
    + rewrite Hcalls, !calls_app. cbn. rewrite <- !app_assoc. reflexivity.
    + split; [cbn; lia |]. rewrite Hlast. do 3 f_equal. lia.
Qed.

(** On dense keys the loop cannot meet a missing deposit. *)
Lemma sendLoop_returns (remaining : nat) :
  forall (i nonce : Z) (done : list deposit.Action),
    (forall j, (j < remaining)%nat -> is_Some (allDeposits !! (i + Z.of_nat j))) ->
    exists r done',
      deposit.sendLoop Deposit remaining allDeposits txInterval i nonce done
      = (Return r, done')
      /\ (length (deposit.calls done') <= length (deposit.calls done) + remaining)%nat.
Proof.
  induction remaining as [| remaining IH]; intros i nonce done Hdense.
  - exists None, done. split; [reflexivity | lia].
  - cbn [deposit.sendLoop].
    destruct (Hdense 0%nat ltac:(lia)) as [dd0 Hdd0].
    rewrite Z.add_0_r in Hdd0. rewrite Hdd0.
    destruct (Deposit (deposit.call_for nonce dd0)) as [err |].
    + eexists _, _. split; [reflexivity |].
      rewrite calls_app, length_app. cbn. lia.
    + assert (Hdense' : forall j, (j < remaining)%nat ->
                is_Some (allDeposits !! (i + 1 + Z.of_nat j))).
      { intros j Hj. specialize (Hdense (S j) ltac:(lia)).
        replace (i + 1 + Z.of_nat j) with (i + Z.of_nat (S j)) by lia. exact Hdense. }
      match goal with
      | |- context [deposit.sendLoop _ _ _ _ _ _ ?d] =>
          destruct (IH (i + 1) (nonce + 1) d Hdense') as (r & done' & Hrun & Hlen)
      end.
      exists r, done'. split; [exact Hrun |].
      rewrite !calls_app, !length_app in Hlen. cbn in Hlen. lia.
Qed.

Variable keystoreBytes : bytes.
Variable password : string.
Variable chainId : Z.

(** X18. When the set-up succeeds, the deposits are numbered [0 .. n-1] and
    the contract accepts every call, [sendDeposits] returns nil after exactly
    [n] deposit calls: the call for deposit [j] carries the account's pending
    nonce plus [j], the deposit's four fields, gas limit 4000000 and a value
    of 32 * 10^18 wei, whatever amount the deposit states. *)
Theorem sendDeposits_all_accepted (nonce0 : Z) :
  NewTransactorWithChainID keystoreBytes password chainId = None ->
  PendingNonceAt = inr nonce0 ->
  NewDepositContract = None ->
  (forall j, (j < size allDeposits)%nat -> is_Some (allDeposits !! Z.of_nat j)) ->
  (forall j dd, allDeposits !! Z.of_nat j = Some dd ->
     Deposit (deposit.call_for (deposit.to_int64 nonce0 + Z.of_nat j) dd) = None) ->
  exists done,
    deposit.sendDeposits NewTransactorWithChainID PendingNonceAt
      NewDepositContract Deposit keystoreBytes allDeposits password chainId
      txInterval
    = (Return None, done)
    /\ length (deposit.calls done) = size allDeposits
    /\ (forall j dd, (j < size allDeposits)%nat ->
          allDeposits !! Z.of_nat j = Some dd ->
          deposit.calls done !! j
          = Some (deposit.call_for (deposit.to_int64 nonce0 + Z.of_nat j) dd))
    /\ (forall c, c ∈ deposit.calls done ->
          deposit.tx_Value c = 32000000000000000000
          /\ deposit.tx_GasLimit c = 4000000).
Proof.
  intros Htx Hnonce Hcontract Hdense Haccept. unfold deposit.sendDeposits.
  rewrite Htx, Hnonce, Hcontract.
  destruct (sendLoop_accepted (size allDeposits) 0 (deposit.to_int64 nonce0) [])
    as (done & l & Hrun & Hcalls & Hlen & Hl).
  { intros j Hj. destruct (Hdense j Hj) as [dd Hdd]. exists dd.
    rewrite Z.add_0_l. split; [exact Hdd | apply Haccept, Hdd]. }
  cbn in Hcalls. subst l. exists done.
  split; [exact Hrun |]. split; [exact Hlen |]. split.
  - intros j dd Hj Hdd. apply Hl; [exact Hj |]. rewrite Z.add_0_l. exact Hdd.
  - intros c Hc. apply list_elem_of_lookup in Hc as [j Hj].
    assert (Hlt : (j < size allDeposits)%nat)
      by (rewrite <- Hlen; eapply lookup_lt_Some, Hj).
    destruct (Hdense j Hlt) as [dd Hdd].
    rewrite (Hl j dd Hlt) in Hj by (rewrite Z.add_0_l; exact Hdd).
    injection Hj as <-. split; reflexivity.
Qed.

(** X19. The first call the contract refuses ends [sendDeposits] at once:
    it returns the contract's error wrapped with "unable to send transaction
    to contract", the refused call is the last thing it did (no nonce bump,
    no sleep, no further deposit), and the deposits before it have been sent
    and stay sent. *)
Theorem sendDeposits_stops_at_first_refusal
    (nonce0 : Z) (k : nat) (dd : deposit.Deposit_Data) (err : deposit.tool_error) :
  NewTransactorWithChainID keystoreBytes password chainId = None ->
  PendingNonceAt = inr nonce0 ->
  NewDepositContract = None ->
  (k < size allDeposits)%nat ->
  (forall j, (j < k)%nat ->
     exists dd', allDeposits !! Z.of_nat j = Some dd'
                 /\ Deposit (deposit.call_for
                              (deposit.to_int64 nonce0 + Z.of_nat j) dd') = None) ->
  allDeposits !! Z.of_nat k = Some dd ->
  Deposit (deposit.call_for (deposit.to_int64 nonce0 + Z.of_nat k) dd) = Some err ->
  exists done,
    deposit.sendDeposits NewTransactorWithChainID PendingNonceAt
      NewDepositContract Deposit keystoreBytes allDeposits password chainId
      txInterval
    = (Return (Some (deposit.ErrWrap err "unable to send transaction to contract")),
       done)
    /\ length (deposit.calls done) = S k
    /\ last done
       = Some (deposit.CallDeposit
                 (deposit.call_for (deposit.to_int64 nonce0 + Z.of_nat k) dd)).
Proof.
  intros Htx Hnonce Hcontract Hk Hbefore Hdd Hrefuse. unfold deposit.sendDeposits.
  rewrite Htx, Hnonce, Hcontract.
  destruct (sendLoop_refused k (size allDeposits) 0 (deposit.to_int64 nonce0) []
              dd err Hk)
    as (done & l & Hrun & Hcalls & Hlen & Hlast).
  - intros j Hj. rewrite Z.add_0_l. apply Hbefore, Hj.
  - rewrite Z.add_0_l. exact Hdd.
  - exact Hrefuse.
  - cbn in Hcalls. subst l. exists done. done.
Qed.

Variable ExpandPath : string -> deposit.tool_error + string.
Variable ReadFile : string -> deposit.tool_error + bytes.
Variable Unmarshal :
  bytes -> deposit.tool_error + list (option deposit.DepositDataJSON).

(** X20. Import, then send: on a map that [importDeposits] returned the send
    loop finds a deposit under every index it asks for, so [sendDeposits]
    returns (with nil or an error) and never dereferences a missing deposit;
    it makes at most one call per imported deposit. *)
Theorem sendDeposits_after_importDeposits (inputFile : string) :
  deposit.importDeposits ExpandPath ReadFile Unmarshal inputFile
  = Return (inr allDeposits) ->
  exists r done,
    deposit.sendDeposits NewTransactorWithChainID PendingNonceAt
      NewDepositContract Deposit keystoreBytes allDeposits password chainId
      txInterval
    = (Return r, done)
    /\ (length (deposit.calls done) <= size allDeposits)%nat.
Proof.
  intros Himport.
  assert (Hdense : forall j, (j < size allDeposits)%nat ->
            is_Some (allDeposits !! (0 + Z.of_nat j))).
  { unfold deposit.importDeposits in Himport.
    destruct (ExpandPath inputFile) as [e | expanded]; [discriminate |].
    destruct (ReadFile expanded) as [e | enc]; [discriminate |].
    destruct (Unmarshal enc) as [e | depositJSON]; [discriminate |].
    destruct (importLoop_dense depositJSON 0 ∅ allDeposits) as (Hsize & Hin & _);
      [intros; apply lookup_empty | exact Himport |].
    rewrite map_size_empty in Hsize. cbn in Hsize.
    intros j Hj. destruct (Hin j ltac:(lia)) as (input & d & _ & _ & Hd). eauto. }
  unfold deposit.sendDeposits.
  destruct (NewTransactorWithChainID _ _ _) as [e |];
    [exists (Some e), []; split; [reflexivity | cbn; lia] |].
  destruct PendingNonceAt as [e | nonce0];
    [exists (Some e), []; split; [reflexivity | cbn; lia] |].
  destruct NewDepositContract as [e |];
    [exists (Some e), []; split; [reflexivity | cbn; lia] |].
  destruct (sendLoop_returns (size allDeposits) 0 (deposit.to_int64 nonce0) []
              Hdense) as (r & done & Hrun & Hlen).
  exists r, done. split; [exact Hrun |]. cbn in Hlen. exact Hlen.
Qed.

End SendProperties.

(** ** Concrete runs of the deposit sender *)

Lemma thirty_two_sevens_are_bytes : Forall deposit.is_byte (replicate 32 7).
Proof. apply Forall_replicate. unfold deposit.is_byte. lia. Qed.

(** The first entry of the file converts to the deposit it spells. *)
Lemma depositJSONToDepositData_round_trip_witness :
  deposit.depositJSONToDepositData fixtures.json0 = inr fixtures.deposit0.
Proof.
  destruct (depositJSONToDepositData_round_trip [1; 2] [3] [4; 5; 6]
              (replicate 32 7) fixtures.json0) as [Hconv Hroot].
  - repeat constructor; unfold deposit.is_byte; lia.
  - repeat constructor; unfold deposit.is_byte; lia.
  - repeat constructor; unfold deposit.is_byte; lia.
  - exact thirty_two_sevens_are_bytes.
  - left. reflexivity.
  - right. reflexivity.
  - right. reflexivity.
  - left. reflexivity.
  - rewrite Hconv, (Hroot eq_refl). reflexivity.
Defined.

(** The second entry converts, so each of its fields is well formed: also
    the empty one and the one in upper case. *)
Lemma depositJSONToDepositData_succeeds_iff_witness :
  deposit.well_formed_hex "0xAb" /\ deposit.well_formed_hex ""
  /\ deposit.well_formed_hex "ff".
Proof.
  destruct (proj1 (depositJSONToDepositData_succeeds_iff fixtures.json1))
    as (Hpk & Hwc & Hsig & _).
  - exists fixtures.deposit1. vm_compute. reflexivity.
  - split; [exact Hpk |]. split; [exact Hwc | exact Hsig].
Defined.

(** The data root of the second entry spells 33 bytes: the deposit holds the
    first 32. *)
Lemma depositJSONToDepositData_root_is_32_bytes_witness :
  length (deposit.DepositRoot fixtures.deposit1) = 32%nat
  /\ deposit.DepositRoot fixtures.deposit1 = replicate 32 7.
Proof.
  destruct (depositJSONToDepositData_root_is_32_bytes fixtures.json1
              fixtures.deposit1) as (Hlen & _ & _).
  - vm_compute. reflexivity.
  - split; [exact Hlen | reflexivity].
Defined.

(** The file with the two entries imports as the map with keys 0 and 1. *)
Lemma importDeposits_keys_dense_witness :
  size fixtures.two_deposits = 2%nat
  /\ forall k, is_Some (fixtures.two_deposits !! k) -> 0 <= k < 2.
Proof.
  destruct (importDeposits_keys_dense fixtures.expand_ok fixtures.read_ok
              fixtures.unmarshal_two "deposit_data.json" fixtures.two_deposits)
    as (expanded & enc & js & _ & _ & Hjs & Hsize & _ & Hkeys).
  - vm_compute. reflexivity.
  - injection Hjs as <-. split; [exact Hsize |].
    intros k Hk. specialize (Hkeys k Hk). rewrite Hsize in Hkeys. exact Hkeys.
Defined.

Lemma two_deposits_dense (j : nat) :
  (j < size fixtures.two_deposits)%nat ->
  is_Some (fixtures.two_deposits !! Z.of_nat j).
Proof.
  change (size fixtures.two_deposits) with 2%nat.
  destruct j as [| [| j]]; [eexists; reflexivity | eexists; reflexivity | lia].
Qed.

(** Two deposits, pending nonce 7, a contract that accepts: two calls, with
    nonces 7 and 8, and nil. *)
Lemma sendDeposits_all_accepted_witness :
  exists done,
    deposit.sendDeposits fixtures.transactor_ok fixtures.nonce7
      fixtures.contract_ok fixtures.accept_all [] fixtures.two_deposits
      "secret" 4004181 10
    = (Return None, done)
    /\ deposit.calls done !! 0%nat = Some (deposit.call_for 7 fixtures.deposit0)
    /\ deposit.calls done !! 1%nat = Some (deposit.call_for 8 fixtures.deposit1)
    /\ length (deposit.calls done) = 2%nat.
Proof.
  destruct (sendDeposits_all_accepted fixtures.transactor_ok fixtures.nonce7
              fixtures.contract_ok fixtures.accept_all fixtures.two_deposits
              10 [] "secret" 4004181 7 eq_refl eq_refl eq_refl
              two_deposits_dense (fun _ _ _ => eq_refl))
    as (done & Hrun & Hlen & Hcalls & _).
  exists done. split; [exact Hrun |].
  split; [apply (Hcalls 0%nat fixtures.deposit0); [vm_compute; lia | reflexivity] |].
  split; [apply (Hcalls 1%nat fixtures.deposit1); [vm_compute; lia | reflexivity] |].
  exact Hlen.
Defined.

(** The same run against a contract that refuses nonce 8: the first deposit
    is sent, the second call is the last action, and the error is wrapped. *)
Lemma sendDeposits_stops_at_first_refusal_witness :
  exists done,
    deposit.sendDeposits fixtures.transactor_ok fixtures.nonce7
      fixtures.contract_ok fixtures.refuse_nonce8 [] fixtures.two_deposits
      "secret" 4004181 10
    = (Return (Some (deposit.ErrWrap (deposit.ErrExternal "execution reverted")
                       "unable to send transaction to contract")),
       done)
    /\ length (deposit.calls done) = 2%nat
    /\ last done
       = Some (deposit.CallDeposit (deposit.call_for 8 fixtures.deposit1)).
Proof.
  apply (sendDeposits_stops_at_first_refusal fixtures.transactor_ok
           fixtures.nonce7 fixtures.contract_ok fixtures.refuse_nonce8
           fixtures.two_deposits 10 [] "secret" 4004181 7 1
           fixtures.deposit1 (deposit.ErrExternal "execution reverted")
           eq_refl eq_refl eq_refl).
  - vm_compute. lia.
  - intros j Hj. assert (j = 0%nat) as -> by lia.
    exists fixtures.deposit0. split; reflexivity.
  - reflexivity.
  - reflexivity.
Defined.

(** What the file imports as can be sent without a missing deposit. *)
Lemma sendDeposits_after_importDeposits_witness :
  exists r done,
    deposit.sendDeposits fixtures.transactor_ok fixtures.nonce7
      fixtures.contract_ok fixtures.refuse_nonce8 [] fixtures.two_deposits
      "secret" 4004181 10
    = (Return r, done)
    /\ (length (deposit.calls done) <= 2)%nat.
Proof.
  apply (sendDeposits_after_importDeposits fixtures.transactor_ok
           fixtures.nonce7 fixtures.contract_ok fixtures.refuse_nonce8
           fixtures.two_deposits 10 [] "secret" 4004181
           fixtures.expand_ok fixtures.read_ok fixtures.unmarshal_two
           "deposit_data.json").
  vm_compute. reflexivity.
Defined.

(** * The Pandora connection worker *)

Section WorkerProperties.
Variable dialRPCFn : list pandorachain.Request -> string -> error + Z.
Variable GetLatestHeaderHash : list pandorachain.Request -> common.Hash.
Variable SubscribePendingHeaders :
  list pandorachain.Request -> pandorachain.PandoraPendingHeaderFilter ->
  string -> option Z -> error + Z.

Abbreviation subscribe :=
  (pandorachain.subscribe GetLatestHeaderHash SubscribePendingHeaders).
Abbreviation connectToChain :=
  (pandorachain.connectToChain dialRPCFn GetLatestHeaderHash
     SubscribePendingHeaders).
Abbreviation waitLoop :=
  (pandorachain.waitLoop dialRPCFn GetLatestHeaderHash SubscribePendingHeaders).
Abbreviation waitForConnection :=
  (pandorachain.waitForConnection dialRPCFn GetLatestHeaderHash
     SubscribePendingHeaders).
Abbreviation retryToConnectAndSubscribe :=
  (pandorachain.retryToConnectAndSubscribe dialRPCFn GetLatestHeaderHash
     SubscribePendingHeaders).

Lemma dials_snoc (rs : list pandorachain.Request) (r : pandorachain.Request) :
  pandorachain.dials (rs ++ [r])
  = (pandorachain.dials rs + if pandorachain.is_dial r then 1 else 0)%nat.
Proof.
  unfold pandorachain.dials. rewrite List.filter_app, length_app. cbn.
  destruct (pandorachain.is_dial r); reflexivity.
Qed.

(** One attempt: what it leaves alone, and what success means. *)
Lemma connectToChain_facts (s : pandorachain.Service) :
  let r := connectToChain s in
  pandorachain.connected (snd r) = pandorachain.connected s
  /\ pandorachain.runError (snd r) = pandorachain.runError s
  /\ pandorachain.isRunning (snd r) = pandorachain.isRunning s
  /\ (forall c, pandorachain.rpcClient s = Some c ->
        pandorachain.rpcClient (snd r) = Some c
        /\ pandorachain.dials (pandorachain.requests (snd r))
           = pandorachain.dials (pandorachain.requests s))
  /\ (fst r = None ->
        is_Some (pandorachain.rpcClient (snd r))
        /\ is_Some (pandorachain.conInfoSub (snd r)))
  /\ (is_Some (fst r) ->
        pandorachain.conInfoSub (snd r) = pandorachain.conInfoSub s).
Proof.
  unfold pandorachain.connectToChain, pandorachain.subscribe.
  destruct (pandorachain.rpcClient s) as [c |] eqn:Hclient.
  - destruct (SubscribePendingHeaders _ _ _ _) as [err | sub];
      cbn; rewrite ?dials_snoc; cbn; rewrite ?Nat.add_0_r, ?Hclient;
      repeat split; intros; simplify_eq; eauto;
      try match goal with H : is_Some None |- _ => destruct H as [? [=]] end;
      rewrite List.filter_app, length_app; cbn; unfold pandorachain.dials; lia.
  - destruct (dialRPCFn _ _) as [err | client].
    + cbn. repeat split; intros; simplify_eq; eauto.
    + cbn [pandorachain.rpcClient pandorachain.set_rpcClient
           pandorachain.request pandorachain.namespace pandorachain.requests].
      destruct (SubscribePendingHeaders _ _ _ _) as [err | sub];
        cbn; repeat split; intros; simplify_eq; eauto;
        match goal with H : is_Some None |- _ => destruct H as [? [=]] end.
Qed.

Lemma waitLoop_facts (events : list pandorachain.Selected) :
  forall s,
    let r := waitLoop events s in
    pandorachain.isRunning (r.1.2) = pandorachain.isRunning s
    /\ (forall c, pandorachain.rpcClient s = Some c ->
          pandorachain.rpcClient (r.1.2) = Some c
          /\ pandorachain.dials (pandorachain.requests (r.1.2))
             = pandorachain.dials (pandorachain.requests s))
    /\ (r.1.1 = pandorachain.Connected ->
          pandorachain.connected (r.1.2) = true
          /\ pandorachain.runError (r.1.2) = None
          /\ is_Some (pandorachain.rpcClient (r.1.2))
          /\ is_Some (pandorachain.conInfoSub (r.1.2)))
    /\ (r.1.1 = pandorachain.Cancelled ->
          pandorachain.connected (r.1.2) = pandorachain.connected s
          /\ pandorachain.conInfoSub (r.1.2) = pandorachain.conInfoSub s
          /\ (is_Some (pandorachain.runError s) ->
              is_Some (pandorachain.runError (r.1.2)))).
Proof.
  induction events as [| [|] events IH]; intros s; cbn [pandorachain.waitLoop].
  - cbn. repeat split; try done; try discriminate. 
  - pose proof (connectToChain_facts s) as (Hc & He & Hr & Hcl & Hok & Hfail).
    destruct (connectToChain s) as [[err |] s1]; cbn [fst snd] in *.
    + specialize (IH (pandorachain.set_runError s1 (Some err))).
      cbv zeta in IH. destruct IH as (IHr & IHcl & IHok & IHcan).
      cbn [pandorachain.isRunning pandorachain.rpcClient pandorachain.requests
           pandorachain.connected pandorachain.conInfoSub pandorachain.runError
           pandorachain.set_runError] in *.
      split; [congruence |]. split.
      { intros c Hcs. destruct (Hcl c Hcs) as [H1 H2].
        destruct (IHcl c H1) as [H3 H4]. split; congruence. }
      split; [exact IHok |].
      intros Hcan. destruct (IHcan Hcan) as (H1 & H2 & H3).
      split; [congruence |]. split; [rewrite H2; apply Hfail; eauto |].
      intros _. apply H3. eauto.
    + cbn. destruct (Hok eq_refl) as [H1 H2].
      split; [exact Hr |]. split; [exact Hcl |]. split; [| discriminate].
      intros _. done.
  - cbn. repeat split; try done; try discriminate.
Qed.

Lemma waitForConnection_facts (events : list pandorachain.Selected)
    (s : pandorachain.Service) :
  let r := waitForConnection events s in
  pandorachain.isRunning (r.1.2) = pandorachain.isRunning s
  /\ (forall c, pandorachain.rpcClient s = Some c ->
        pandorachain.rpcClient (r.1.2) = Some c
        /\ pandorachain.dials (pandorachain.requests (r.1.2))
           = pandorachain.dials (pandorachain.requests s))
  /\ (r.1.1 = pandorachain.Connected ->
        pandorachain.connected (r.1.2) = true
        /\ is_Some (pandorachain.rpcClient (r.1.2))
        /\ is_Some (pandorachain.conInfoSub (r.1.2))
        /\ (fst (connectToChain s) = None ->
            pandorachain.runError (r.1.2) = pandorachain.runError s)
        /\ (is_Some (fst (connectToChain s)) ->
            pandorachain.runError (r.1.2) = None))
  /\ (r.1.1 = pandorachain.Cancelled ->
        pandorachain.connected (r.1.2) = pandorachain.connected s
        /\ pandorachain.conInfoSub (r.1.2) = pandorachain.conInfoSub s
        /\ is_Some (pandorachain.runError (r.1.2))
        /\ is_Some (fst (connectToChain s))).
Proof.
  unfold pandorachain.waitForConnection.
  pose proof (connectToChain_facts s) as (Hc & He & Hr & Hcl & Hok & Hfail).
  destruct (connectToChain s) as [[err |] s1]; cbn [fst snd] in *.
  - pose proof (waitLoop_facts events (pandorachain.set_runError s1 (Some err)))
      as (Wr & Wcl & Wok & Wcan).
    cbv zeta in *.
    cbn [pandorachain.isRunning pandorachain.rpcClient pandorachain.requests
         pandorachain.connected pandorachain.conInfoSub pandorachain.runError
         pandorachain.set_runError] in *.
    split; [congruence |]. split.
    { intros c Hcs. destruct (Hcl c Hcs) as [H1 H2].
      destruct (Wcl c H1) as [H3 H4]. split; congruence. }
    split.
    + intros Hcon. destruct (Wok Hcon) as (H1 & H2 & H3 & H4).
      split; [done |]. split; [done |]. split; [done |].
      split; [discriminate | done].
    + intros Hcan. destruct (Wcan Hcan) as (H1 & H2 & H3).
      split; [congruence |]. split; [rewrite H2; apply Hfail; eauto |].
      split; [apply H3; eauto | eauto].
  - cbn. destruct (Hok eq_refl) as [H1 H2].
    split; [exact Hr |]. split; [exact Hcl |]. split; [| discriminate].
    intros _. split; [done |]. split; [done |]. split; [done |].
    split; [done | intros [? [=]]].
Qed.

(** X21. Waiting for a connection ends connected only with a client and a
    subscription in hand and the connected flag set. The run error is cleared
    when a retry was needed, and left as it was when the first attempt
    already succeeded. *)
Theorem waitForConnection_connected
    (events : list pandorachain.Selected) (s : pandorachain.Service) :
  (waitForConnection events s).1.1 = pandorachain.Connected ->
  let s' := (waitForConnection events s).1.2 in
  pandorachain.connected s' = true
  /\ is_Some (pandorachain.rpcClient s')
  /\ is_Some (pandorachain.conInfoSub s')
  /\ (fst (connectToChain s) = None ->
      pandorachain.runError s' = pandorachain.runError s)
  /\ (is_Some (fst (connectToChain s)) -> pandorachain.runError s' = None).
Proof.
  intros Hcon. exact (proj1 (proj2 (proj2 (waitForConnection_facts events s))) Hcon).
Qed.


(** X23. A service that holds a client never dials again: neither waiting
    for a connection nor the retry after a subscription error replaces the
    client or calls the dial function, whatever the subscription answers. *)
Theorem client_is_never_redialed
    (events : list pandorachain.Selected) (s : pandorachain.Service)
    (c : Z) (err : error) :
  pandorachain.rpcClient s = Some c ->
  (pandorachain.rpcClient (waitForConnection events s).1.2 = Some c
   /\ pandorachain.dials (pandorachain.requests (waitForConnection events s).1.2)
      = pandorachain.dials (pandorachain.requests s))
  /\ (pandorachain.rpcClient (retryToConnectAndSubscribe err events s).1.2 = Some c
      /\ pandorachain.dials
           (pandorachain.requests (retryToConnectAndSubscribe err events s).1.2)
         = pandorachain.dials (pandorachain.requests s)).
Proof.
  intros Hclient. split.
  - exact (proj1 (proj2 (waitForConnection_facts events s)) c Hclient).
  - unfold pandorachain.retryToConnectAndSubscribe.
    set (s0 := pandorachain.request _ _).
    assert (Hc0 : pandorachain.rpcClient s0 = Some c) by exact Hclient.
    assert (Hd0 : pandorachain.dials (pandorachain.requests s0)
                  = pandorachain.dials (pandorachain.requests s)).
    { subst s0. cbn [pandorachain.requests pandorachain.request
                      pandorachain.set_connected pandorachain.set_runError].
      rewrite dials_snoc. cbn. lia. }
    pose proof (proj1 (proj2 (waitForConnection_facts events s0)) c Hc0) as [H1 H2].
    destruct (waitForConnection events s0) as [[ended s1] ev].
    cbn [fst snd] in H1, H2.
    destruct ended;
      cbn [fst snd pandorachain.rpcClient pandorachain.requests
           pandorachain.set_runError];
      split; congruence.
Qed.

(** X24. However the wait inside it ends, a retry that returns has reset
    the run error, so [Status] reports nothing: also when the retry was
    cancelled and the service is not connected. *)
Theorem retry_returns_without_run_error
    (err : error) (events : list pandorachain.Selected)
    (s : pandorachain.Service) :
  (retryToConnectAndSubscribe err events s).1.1 <> pandorachain.Blocked ->
  let ended := (retryToConnectAndSubscribe err events s).1.1 in
  let s' := (retryToConnectAndSubscribe err events s).1.2 in
  pandorachain.runError s' = None
  /\ pandorachain.Status s' = None
  /\ (ended = pandorachain.Cancelled -> pandorachain.connected s' = false)
  /\ (ended = pandorachain.Connected -> pandorachain.connected s' = true).
Proof.
  unfold pandorachain.retryToConnectAndSubscribe.
  set (s0 := pandorachain.request _ _).
  pose proof (waitForConnection_facts events s0) as (_ & _ & Hok & Hcan).
  destruct (waitForConnection events s0) as [[[| |] s1] ev]; cbn in *;
    intros Hend; try done.
  - destruct (Hok eq_refl) as (H1 & _).
    unfold pandorachain.Status. cbn. destruct (pandorachain.isRunning s1); done.
  - destruct (Hcan eq_refl) as (H1 & _).
    unfold pandorachain.Status. cbn. destruct (pandorachain.isRunning s1); done.
Qed.

Lemma runLoop_stopped (events : list pandorachain.RunSelected) :
  forall s s',
    pandorachain.runLoop dialRPCFn GetLatestHeaderHash SubscribePendingHeaders
      events s = Some s' ->
    pandorachain.isRunning s' = false
    /\ pandorachain.runError s' = None
    /\ pandorachain.DoneClosed ∈ events.
Proof.
  induction events as [| [| err during] events IH]; intros s s';
    cbn [pandorachain.runLoop]; [discriminate | |].
  - intros [= <-]. cbn. repeat split. left.
  - destruct (retryToConnectAndSubscribe err during s) as [[[| |] s1] ev];
      [| | discriminate]; intros Hrun;
      destruct (IH _ _ Hrun) as (H1 & H2 & H3);
      (repeat split; [done | done | right; done]).
Qed.

(** X25. [run] returns only through the closed [done] channel, and then
    the service is marked not running with no run error, so [Status] is nil;
    subscription errors alone never end the worker. *)
Theorem run_returns_only_when_done
    (events : list pandorachain.RunSelected) (s s' : pandorachain.Service) :
  pandorachain.run dialRPCFn GetLatestHeaderHash SubscribePendingHeaders
    events s = Some s' ->
  pandorachain.isRunning s' = false
  /\ pandorachain.runError s' = None
  /\ pandorachain.Status s' = None
  /\ pandorachain.DoneClosed ∈ events.
Proof.
  unfold pandorachain.run. intros Hrun.
  destruct (runLoop_stopped _ _ _ Hrun) as (H1 & H2 & H3).
  unfold pandorachain.Status. rewrite H1. done.
Qed.

End WorkerProperties.

(** ** Concrete runs of the worker *)

(** The node refuses the first dial and the first subscription: after two
    ticks the idle service is connected, its run error cleared. *)
Lemma waitForConnection_connected_witness :
  let s' := (pandorachain.waitForConnection fixtures.dial_second_time
               fixtures.hash_of_store fixtures.subscribe_third_request
               [pandorachain.TickerC; pandorachain.TickerC]
               fixtures.idle_service).1.2 in
  pandorachain.connected s' = true
  /\ pandorachain.rpcClient s' = Some 1
  /\ pandorachain.conInfoSub s' = Some 9
  /\ pandorachain.runError s' = None.
Proof.
  destruct (waitForConnection_connected fixtures.dial_second_time
              fixtures.hash_of_store fixtures.subscribe_third_request
              [pandorachain.TickerC; pandorachain.TickerC]
              fixtures.idle_service)
    as (Hcon & _ & _ & _ & Herr).
  - vm_compute. reflexivity.
  - cbv zeta. split; [exact Hcon |]. split; [reflexivity |].
    split; [reflexivity |]. apply Herr. vm_compute. eauto.
Defined.


(** The service that holds client 1 retries after a subscription error: no
    dial is made, the client is still client 1. *)
Lemma client_is_never_redialed_witness :
  let s' := (pandorachain.retryToConnectAndSubscribe fixtures.dial_second_time
               fixtures.hash_of_store fixtures.subscribe_third_request
               (ErrOther "EOF")
               [pandorachain.TickerC; pandorachain.TickerC]
               fixtures.dropped_service).1.2 in
  pandorachain.rpcClient s' = Some 1
  /\ pandorachain.dials (pandorachain.requests s') = 0%nat.
Proof.
  destruct (client_is_never_redialed fixtures.dial_second_time
              fixtures.hash_of_store fixtures.subscribe_third_request
              [pandorachain.TickerC; pandorachain.TickerC]
              fixtures.dropped_service 1 (ErrOther "EOF") eq_refl)
    as [_ [Hclient Hdials]].
  cbv zeta. split; [exact Hclient | rewrite Hdials; reflexivity].
Defined.

(** A retry that is cancelled at its first select: not connected, and no
    run error left. *)
Lemma retry_returns_without_run_error_witness :
  let s' := (pandorachain.retryToConnectAndSubscribe fixtures.dial_second_time
               fixtures.hash_of_store fixtures.subscribe_third_request
               (ErrOther "EOF") [pandorachain.CtxDone]
               fixtures.dropped_service).1.2 in
  pandorachain.runError s' = None
  /\ pandorachain.Status s' = None
  /\ pandorachain.connected s' = false.
Proof.
  destruct (retry_returns_without_run_error fixtures.dial_second_time
              fixtures.hash_of_store fixtures.subscribe_third_request
              (ErrOther "EOF") [pandorachain.CtxDone] fixtures.dropped_service)
    as (Herr & Hstatus & Hcancelled & _).
  - vm_compute. discriminate.
  - cbv zeta. split; [exact Herr |]. split; [exact Hstatus |].
    apply Hcancelled. vm_compute. reflexivity.
Defined.

(** A subscription error, a cancelled retry, then the closed channel: the
    worker returns, marked not running. *)
Lemma run_returns_only_when_done_witness :
  match pandorachain.run fixtures.dial_second_time fixtures.hash_of_store
          fixtures.subscribe_third_request
          [pandorachain.SubscriptionError (ErrOther "EOF") [pandorachain.CtxDone];
           pandorachain.DoneClosed]
          fixtures.dropped_service with
  | Some s' => pandorachain.isRunning s' = false /\ pandorachain.Status s' = None
  | None => False
  end.
Proof.
  destruct (pandorachain.run _ _ _ _ _) as [s' |] eqn:Hrun.
  - destruct (run_returns_only_when_done _ _ _ _ _ _ Hrun) as (H1 & _ & H3 & _).
    split; [exact H1 | exact H3].
  - vm_compute in Hrun. discriminate Hrun.
Defined.
